(** * Persona-driven document intelligence: section resolver and persona scorer

    A shallow embedding of [src/analyze_document.py] (class
    [DocumentAnalyzer]) and [src/persona.py] (class [PersonaProcessor]),
    with the properties of the specification proved about it, and of the
    batch pipeline of [main.py], [utils/parser.py] and the rank check of
    [validate_schema.py].

    Modelling conventions.
    - A Python [str] is a [string]; one character is one code point, so
      [String.length] is Python's [len].  The alphabet has 256 characters:
      the code points U+0000..U+00FF, except that code 149 is U+2022, the
      bullet of the list pattern, in place of the control character U+0095
      (the two are in the same character classes).  The character classes
      below are the ones CPython uses on this alphabet for [str.isspace],
      [str.lower] and the [re] classes [\s], [\w], [\d].
    - A regular expression of the program is a function that returns what
      [re] returns for it (whether it matches, or group 1 of the match).
    - A Python [float] is a binary64 number, Rocq's primitive [float]: its
      operations are the IEEE 754 ones, rounded to nearest, ties to even, and
      a decimal constant denotes the nearest binary64 number, as in Python.
      An [int] that enters float arithmetic is a count of list items; it is
      converted as Python converts it, exactly below 2^53.  The job
      alignment score alone, one quotient of two counts, is kept as the
      quotient itself, a rational ([Q]); the float is its rounding.
    - A [dict] with a fixed set of keys is a record; a [dict] that is iterated
      ([role_terms], [task_terms], a [Counter]) is an association list in
      insertion order; a [set] of strings is a [gset string].
    - A [for] loop is a recursive function over what remains to be visited,
      with the loop's variables as further arguments.
    - [try]/[except] is a sum type: [inl] carries the exception message.
      PyMuPDF, [pathlib] and the clock are parameters of the entry point. *)

From Stdlib Require Import Ascii String QArith Qround Qminmax Qabs Lqa Floats.
From Stdlib Require Uint63.
From stdpp Require Import gmap strings list pretty sorting.

#[local] Set Warnings "-inexact-float".

Local Open Scope list_scope.
Local Open Scope string_scope.

(** ** Characters *)

Module Char.

Definition code (c : ascii) : nat := nat_of_ascii c.

Definition in_range (lo hi : nat) (c : ascii) : bool :=
  (lo <=? code c)%nat && (code c <=? hi)%nat.

(** [str.isspace] and the regular-expression class [\s]. *)
Definition is_space (c : ascii) : bool :=
  in_range 9 13 c || in_range 28 32 c
  || (code c =? 133)%nat || (code c =? 160)%nat.

(** The class [[A-Z]]. *)
Definition is_upper_az (c : ascii) : bool := in_range 65 90 c.

(** The class [[a-z]]. *)
Definition is_lower_az (c : ascii) : bool := in_range 97 122 c.

(** The class [\d]: decimal digits. *)
Definition is_digit (c : ascii) : bool := in_range 48 57 c.

(** [str.isalnum] on one character. *)
Definition is_alnum (c : ascii) : bool :=
  is_digit c || is_upper_az c || is_lower_az c
  || (code c =? 170)%nat || in_range 178 179 c || (code c =? 181)%nat
  || in_range 185 186 c || in_range 188 190 c
  || in_range 192 214 c || in_range 216 246 c || in_range 248 255 c.

(** The class [\w]: alphanumerics and the underscore. *)
Definition is_word (c : ascii) : bool := is_alnum c || (code c =? 95)%nat.

(** [str.lower] on one character. *)
Definition lower (c : ascii) : ascii :=
  if is_upper_az c || (in_range 192 222 c && negb (code c =? 215)%nat)
  then ascii_of_nat (code c + 32)
  else c.

Definition newline : ascii := ascii_of_nat 10.

(** The code of U+2022 in the alphabet. *)
Definition bullet : nat := 149.

End Char.

(** ** Strings: the [str] methods the program calls *)

Module Str.

(** The one-character string [chr 10]. *)
Definition nl : string := String Char.newline "".

Fixpoint map (f : ascii -> ascii) (s : string) : string :=
  match s with
  | "" => ""
  | String c r => String (f c) (map f r)
  end.

(** [s.lower()] *)
Definition lower (s : string) : string := map Char.lower s.

(** [s.lstrip()] *)
Fixpoint lstrip (s : string) : string :=
  match s with
  | "" => ""
  | String c r => if Char.is_space c then lstrip r else s
  end.

(** [s.rstrip()] *)
Fixpoint rstrip (s : string) : string :=
  match s with
  | "" => ""
  | String c r =>
      match rstrip r with
      | "" => if Char.is_space c then "" else String c ""
      | r' => String c r'
      end
  end.

(** [s.strip()] *)
Definition strip (s : string) : string := rstrip (lstrip s).

(** [s.rstrip(':')]: trailing occurrences of the one character [d]. *)
Fixpoint rstrip_char (d : ascii) (s : string) : string :=
  match s with
  | "" => ""
  | String c r =>
      match rstrip_char d r with
      | "" => if Ascii.eqb c d then "" else String c ""
      | r' => String c r'
      end
  end.

(** [s[:n]] *)
Fixpoint take (n : nat) (s : string) : string :=
  match n, s with
  | S n', String c r => String c (take n' r)
  | _, _ => ""
  end.

(** [s[n:]] *)
Fixpoint drop (n : nat) (s : string) : string :=
  match n, s with
  | S n', String _ r => drop n' r
  | _, _ => s
  end.

(** [sub in s] *)
Fixpoint contains (sub s : string) : bool :=
  String.prefix sub s ||
  match s with
  | "" => false
  | String _ r => contains sub r
  end.

(** [sep.join(l)] *)
Fixpoint join (sep : string) (l : list string) : string :=
  match l with
  | [] => ""
  | [x] => x
  | x :: r => x ++ sep ++ join sep r
  end.

(** [s.split(sep)] for a one-character separator: the accumulator [cur]
    holds the current field, most recent character last. *)
Fixpoint split_char_go (sep : ascii) (cur : string) (s : string) : list string :=
  match s with
  | "" => [cur]
  | String c r =>
      if Ascii.eqb c sep then cur :: split_char_go sep "" r
      else split_char_go sep (cur ++ String c "") r
  end.

Definition split_char (sep : ascii) (s : string) : list string :=
  split_char_go sep "" s.

(** [s.split(sep)] for a non-empty separator string: leftmost occurrences,
    not overlapping.  [fuel] bounds the number of characters looked at. *)
Fixpoint split_str_go (fuel : nat) (sep : string) (cur : string) (s : string)
  : list string :=
  match fuel with
  | O => [cur ++ s]
  | S fuel' =>
      match s with
      | "" => [cur]
      | String c r =>
          if String.prefix sep s
          then cur :: split_str_go fuel' sep "" (drop (String.length sep) s)
          else split_str_go fuel' sep (cur ++ String c "") r
      end
  end.

Definition split_str (sep : string) (s : string) : list string :=
  split_str_go (S (String.length s)) sep "" s.

(** Maximal runs of characters satisfying [p]: [cur] is the run being read. *)
Fixpoint runs_go (p : ascii -> bool) (cur : string) (s : string) : list string :=
  match s with
  | "" => if String.eqb cur "" then [] else [cur]
  | String c r =>
      if p c then runs_go p (cur ++ String c "") r
      else if String.eqb cur "" then runs_go p "" r
      else cur :: runs_go p "" r
  end.

Definition runs (p : ascii -> bool) (s : string) : list string := runs_go p "" s.

(** [s.split()]: fields separated by runs of white space. *)
Definition split_ws (s : string) : list string :=
  runs (fun c => negb (Char.is_space c)) s.

(** [re.findall(r'\b\w+\b', s)]: a match starts at a word boundary, [\w+]
    is greedy and the closing [\b] then holds, so the matches are the
    maximal runs of word characters. *)
Definition findall_words (s : string) : list string := runs Char.is_word s.

(** [re.findall(r'\b\w{4,}\b', s)]: the maximal runs of at least four word
    characters (a shorter run matches nowhere: inside a run [\b] fails). *)
Definition findall_words4 (s : string) : list string :=
  filter (fun w => 4 <= String.length w)%nat (findall_words s).

(** The longest prefix of characters satisfying [p], and what follows it. *)
Fixpoint span (p : ascii -> bool) (s : string) : string * string :=
  match s with
  | "" => ("", "")
  | String c r =>
      if p c then let '(a, b) := span p r in (String c a, b) else ("", s)
  end.

Fixpoint forallb (p : ascii -> bool) (s : string) : bool :=
  match s with
  | "" => true
  | String c r => p c && forallb p r
  end.

Fixpoint existsb (p : ascii -> bool) (s : string) : bool :=
  match s with
  | "" => false
  | String c r => p c || existsb p r
  end.

(** The first character satisfies [p] (false on the empty string). *)
Definition starts_with (p : ascii -> bool) (s : string) : bool :=
  match s with
  | "" => false
  | String c _ => p c
  end.

(** Truth value of a string: [bool(s)]. *)
Definition nonempty (s : string) : bool := negb (String.eqb s "").

End Str.

(** ** Data model *)

(** One page as [_extract_pdf_content] records it. *)
Record Page := mkPage {
  page_number : nat;
  text : string;
  char_count : nat
}.

(** A candidate section: the dict a detector builds. *)
Record CandidateSection := mkCandidate {
  section_title : string;
  section_page : nat;            (* key "page_number" *)
  content : string;
  detection_method : string
}.

(** A candidate after [section.update] in [_process_detected_sections]. *)
Record UniqueSection := mkUnique {
  candidate :> CandidateSection;
  section_id : string;
  word_count : nat;
  confidence_score : float
}.

(** The "metadata" entry of a document analysis: [_generate_metadata] on
    success, the two-key dict of [_create_error_response] on failure. *)
Inductive Metadata :=
  | MetaOk (filename : string) (total_pages total_characters total_sections : nat)
           (processing_timestamp : string)
  | MetaError (filename : string) (error : string).

Record DocumentAnalysis := mkAnalysis {
  metadata : Metadata;
  full_text : string;
  pages : list Page;
  sections : list UniqueSection
}.

(** Python's [min(a, b)] on two numbers: [b] only when [b < a]. *)
Definition py_min (a b : Q) : Q := if Qle_bool a b then a else b.

(** ** Binary64 arithmetic *)

(** [min(a, b)] on two floats: [b] only when [b < a]. *)
Definition float_min (a b : float) : float := if (b <? a)%float then b else a.

(** The [float] of an [int] that counts list items.  A list has at most
    [sys.maxsize = 2^63 - 1] items; up to 2^53 the conversion is exact. *)
Definition of_count (n : nat) : float :=
  PrimFloat.of_uint63 (Uint63.of_Z (Z.min (Z.of_nat n) 9223372036854775807)).

(** True division [m / n] of two counts: the quotient rounded once, which
    for counts below 2^53 is the quotient of the two floats. *)
Definition count_div (m n : nat) : float := (of_count m / of_count n)%float.

(** [sum(xs)] for floats: the items are added to the running total one by
    one, in order, each addition rounded; the total starts at the [int] 0.
    (CPython does this up to version 3.11; later versions also carry a
    correction term for the rounding errors.) *)
Definition float_sum (xs : list float) : float := fold_left PrimFloat.add xs 0%float.

(** The number that a finite [float] denotes (0 for the others). *)
Definition float_value (x : float) : Q :=
  match Prim2SF x with
  | S754_finite s m e =>
      let v := (inject_Z (Zpos m) * Qpower 2 e)%Q in if s then (- v)%Q else v
  | _ => 0%Q
  end.

(** ** [DocumentAnalyzer] (src/analyze_document.py) *)

Module DocumentAnalyzer.

(** The parameters set in [__init__]. *)
Definition min_section_length : nat := 30.
Definition max_section_length : nat := 2000.
Definition max_sections : nat := 50.
Definition max_lookahead_lines : nat := 5.

(** *** Header patterns

    Each pattern of [_get_header_patterns] is searched with [re.MULTILINE] in
    one stripped line of [page_text.split('\n')], which holds no line feed:
    [^] is the start of the line and [$] its end.  A matcher returns group 1
    of the leftmost match.  The character classes of each pattern are
    disjoint from what follows them, so the greedy parse is the only one,
    except where noted. *)

(** [r'^([A-Z][A-Z\s]{5,40})$'] *)
Definition header_all_caps (line : string) : option string :=
  match line with
  | "" => None
  | String c r =>
      if Char.is_upper_az c
         && Str.forallb (fun d => Char.is_upper_az d || Char.is_space d) r
         && (5 <=? String.length r)%nat && (String.length r <=? 40)%nat
      then Some line else None
  end.

(** The prefix [\d+\.?\s+[A-Z]] at the start of [line]: what follows it. *)
Definition numbered_prefix (line : string) : option string :=
  let '(ds, r1) := Str.span Char.is_digit line in
  if Str.nonempty ds then
    let r2 := match r1 with String "." r => r | _ => r1 end in
    let '(ws, r3) := Str.span Char.is_space r2 in
    if Str.nonempty ws then
      match r3 with
      | String c r4 => if Char.is_upper_az c then Some r4 else None
      | "" => None
      end
    else None
  else None.

Definition is_sentence_end (c : ascii) : bool :=
  Ascii.eqb c "." || Ascii.eqb c "!" || Ascii.eqb c "?".

(** [r'^(\d+\.?\s+[A-Z][^.!?]*?)(?:\n|$)']: the lazy tail has to reach the
    end of the line, so group 1 is the whole line. *)
Definition header_numbered (line : string) : option string :=
  match numbered_prefix line with
  | Some tail =>
      if Str.forallb (fun c => negb (is_sentence_end c)) tail
      then Some line else None
  | None => None
  end.

(** [[A-Z][a-z]+] at the start of [s]: the word and what follows it. *)
Definition title_word (s : string) : option (string * string) :=
  match s with
  | "" => None
  | String c r =>
      if Char.is_upper_az c then
        let '(ls, r') := Str.span Char.is_lower_az r in
        if Str.nonempty ls then Some (String c ls, r') else None
      else None
  end.

(** [(?:\s+[A-Z][a-z]+)*], greedy: the text consumed and what follows it. *)
Fixpoint title_words (fuel : nat) (s : string) : string * string :=
  match fuel with
  | O => ("", s)
  | S fuel' =>
      let '(ws, r) := Str.span Char.is_space s in
      if Str.nonempty ws then
        match title_word r with
        | Some (w, r') =>
            let '(more, r'') := title_words fuel' r' in (ws ++ w ++ more, r'')
        | None => ("", s)
        end
      else ("", s)
  end.

(** The third pattern, title case with a colon: at the start of the line
    one [[A-Z][a-z]+], then [\s+[A-Z][a-z]+] any number of times (this much
    is group 1), then [:]. *)
Definition header_title_colon (line : string) : option string :=
  match title_word line with
  | Some (w, r) =>
      let '(more, r') := title_words (String.length line) r in
      match r' with
      | String ":" _ => Some (w ++ more)
      | _ => None
      end
  | None => None
  end.

Definition is_chapter_sep (c : ascii) : bool :=
  Ascii.eqb c ":" || Ascii.eqb c "-" || Char.is_space c.

(** The last character of a string, as a string. *)
Fixpoint last_char (s : string) : string :=
  match s with
  | "" => ""
  | String c "" => String c ""
  | String _ r => last_char r
  end.

(** [(?:Chapter|Section)\s+\d+[:\-\s]*(.+)] matched at the start of [s].
    [(.+)] takes the rest of the line; when nothing is left for it the
    matcher backtracks: the separator run gives up its last character, or
    else the digit run its last digit. *)
Definition chapter_at (s : string) : option string :=
  if String.prefix "Chapter" s || String.prefix "Section" s then
    let '(ws, r1) := Str.span Char.is_space (Str.drop 7 s) in
    let '(ds, r2) := Str.span Char.is_digit r1 in
    let '(seps, r3) := Str.span is_chapter_sep r2 in
    if Str.nonempty ws && Str.nonempty ds then
      if Str.nonempty r3 then Some r3
      else if Str.nonempty seps then Some (last_char seps)
      else if (2 <=? String.length ds)%nat then Some (last_char ds)
      else None
    else None
  else None.

(** [r'(?:Chapter|Section)\s+\d+[:\-\s]*(.+)'], searched: leftmost start. *)
Fixpoint header_chapter (line : string) : option string :=
  match chapter_at line with
  | Some g => Some g
  | None =>
      match line with
      | "" => None
      | String _ r => header_chapter r
      end
  end.

Definition _get_header_patterns : list (string -> option string) :=
  [header_all_caps; header_numbered; header_title_colon; header_chapter].

Definition _is_valid_line (line : string) : bool :=
  Str.nonempty line && (5 <=? String.length line)%nat.

Fixpoint _match_header_patterns (line : string)
    (patterns : list (string -> option string)) : option string :=
  match patterns with
  | [] => None
  | pattern :: rest =>
      match pattern line with
      | Some g =>
          let title := Str.rstrip_char ":" (Str.strip g) in
          if (5 <? String.length title)%nat && (String.length title <? 80)%nat
          then Some title
          else _match_header_patterns line rest
      | None => _match_header_patterns line rest
      end
  end.

(** *** Content after a header *)

Definition _is_header_line (line header_line : string) : bool :=
  Str.contains (Str.strip header_line) (Str.strip line).

(** [re.match(r'^[A-Z][A-Z\s]{5,}$', line)] *)
Definition stop_all_caps (line : string) : bool :=
  match line with
  | "" => false
  | String c r =>
      Char.is_upper_az c
      && Str.forallb (fun d => Char.is_upper_az d || Char.is_space d) r
      && (5 <=? String.length r)%nat
  end.

(** [re.match(r'^\d+\.?\s+[A-Z]', line)] *)
Definition stop_numbered (line : string) : bool :=
  match numbered_prefix line with Some _ => true | None => false end.

Definition _should_stop_content_extraction (line : string)
    (content_lines : list string) : bool :=
  let line := Str.strip line in
  if negb (Str.nonempty line) then false
  else if stop_all_caps line || stop_numbered line then true
  else (max_section_length <? String.length (Str.join " " content_lines))%nat.

(** The [for line in lines] loop of [_extract_content_after_header]; the
    loop state is [found_header] and [content_lines], and [break] returns. *)
Fixpoint extract_loop (header_line : string) (lines : list string)
    (found_header : bool) (content_lines : list string) : list string :=
  match lines with
  | [] => content_lines
  | line :: rest =>
      if _is_header_line line header_line then
        extract_loop header_line rest true content_lines
      else if found_header then
        if _should_stop_content_extraction line content_lines then content_lines
        else extract_loop header_line rest found_header
               (content_lines ++ [Str.strip line])%list
      else extract_loop header_line rest found_header content_lines
  end.

Definition _extract_content_after_header (page_text header_line : string)
  : string :=
  let lines := Str.split_char Char.newline page_text in
  Str.join " " (extract_loop header_line lines false []).

Definition _create_header_section (title page_text : string) (page_num : nat)
  : option CandidateSection :=
  let content := _extract_content_after_header page_text title in
  if Str.nonempty content
  then Some (mkCandidate title page_num content "header")
  else None.

Definition _find_headers_in_page (page_info : Page)
    (patterns : list (string -> option string)) : list CandidateSection :=
  let page_num := page_number page_info in
  let page_text := text page_info in
  let lines := Str.split_char Char.newline page_text in
  omap (fun line =>
          let line := Str.strip line in
          if negb (_is_valid_line line) then None
          else match _match_header_patterns line patterns with
               | Some header_match =>
                   _create_header_section header_match page_text page_num
               | None => None
               end) lines.

Definition _detect_by_headers (text : string) (pages : list Page)
  : list CandidateSection :=
  let patterns := _get_header_patterns in
  concat (map (fun page_info => _find_headers_in_page page_info patterns) pages).

(** *** Paragraph detector *)

Definition _is_valid_paragraph_length (paragraph : string) : bool :=
  (min_section_length <=? String.length paragraph)%nat
  && (String.length paragraph <=? max_section_length)%nat.

Definition _generate_paragraph_title (paragraph : string) : string :=
  let sentences := Str.split_str ". " paragraph in
  let first_sentence := hd "" sentences in
  if (50 <? String.length first_sentence)%nat
  then Str.take 50 first_sentence ++ "..."
  else first_sentence.

Definition _create_paragraph_section (paragraph : string) (page_num : nat)
  : CandidateSection :=
  let title := _generate_paragraph_title paragraph in
  mkCandidate title page_num paragraph "paragraph".

Definition _extract_paragraph_sections (page_info : Page)
  : list CandidateSection :=
  let page_num := page_number page_info in
  let page_text := text page_info in
  let paragraphs :=
    map Str.strip
      (List.filter (fun p => Str.nonempty (Str.strip p))
         (Str.split_str (Str.nl ++ Str.nl) page_text)) in
  map (fun paragraph => _create_paragraph_section paragraph page_num)
    (List.filter _is_valid_paragraph_length paragraphs).

Definition _detect_by_paragraphs (text : string) (pages : list Page)
  : list CandidateSection :=
  concat (map _extract_paragraph_sections pages).

(** *** List detector *)

(** [\s+.+] at the start of [s]: [\s+] takes [k >= 1] characters of the
    white-space run and [.+] needs one more character, not a line feed, right
    after them. *)
Definition spaces_then_any (s : string) : bool :=
  let '(ws, r) := Str.span Char.is_space s in
  Str.existsb (fun c => negb (Ascii.eqb c Char.newline))
    (Str.drop 1 (ws ++ Str.take 1 r)).

(** The class [[\•\-\*]] of the first pattern: the bullet U+2022 (code
    149 of the alphabet), the hyphen and the asterisk. *)
Definition is_bullet (c : ascii) : bool :=
  (Char.code c =? Char.bullet)%nat || Ascii.eqb c "-" || Ascii.eqb c "*".

(** [re.match(r'^[\•\-\*]\s+.+', line) or re.match(r'^\d+[\.\)]\s+.+', line)] *)
Definition _is_list_item (line : string) : bool :=
  match line with
  | String c r => is_bullet c && spaces_then_any r
  | "" => false
  end
  ||
  let '(ds, r1) := Str.span Char.is_digit line in
  Str.nonempty ds &&
  match r1 with
  | String c r2 => (Ascii.eqb c "." || Ascii.eqb c ")") && spaces_then_any r2
  | "" => false
  end.

(** [self._is_list_item(line) or (line and not re.match(r'^[A-Z]', line))] *)
Definition _is_continuation_line (line : string) : bool :=
  _is_list_item line
  || (Str.nonempty line && negb (Str.starts_with Char.is_upper_az line)).

(** The [for j in range(...)] loop of [_gather_list_content] over the lines
    [lines[start_index + 1 : min(len(lines), start_index + 6)]]. *)
Fixpoint gather_loop (window : list string) (content : string) : string :=
  match window with
  | [] => content
  | l :: rest =>
      let next_line := Str.strip l in
      if negb (Str.nonempty next_line) then gather_loop rest content
      else if _is_continuation_line next_line then
        gather_loop rest
          (content ++ (if _is_list_item next_line
                       then Str.nl ++ next_line else " " ++ next_line))
      else content
  end.

Definition _gather_list_content (lines : list string) (start_index : nat)
  : string :=
  let content := Str.strip (nth start_index lines "") in
  gather_loop (take max_lookahead_lines (drop (S start_index) lines)) content.

Definition _create_list_section (lines : list string) (start_index page_num : nat)
  : option CandidateSection :=
  let line := Str.strip (nth start_index lines "") in
  let title := if (50 <? String.length line)%nat
               then Str.take 50 line ++ "..." else line in
  let content := _gather_list_content lines start_index in
  if (min_section_length <? String.length content)%nat
  then Some (mkCandidate title page_num content "list")
  else None.

Definition _extract_list_sections (page_info : Page) : list CandidateSection :=
  let page_num := page_number page_info in
  let page_text := text page_info in
  let lines := Str.split_char Char.newline page_text in
  omap (fun '(i, line) =>
          let line := Str.strip line in
          if _is_list_item line then _create_list_section lines i page_num
          else None)
       (imap (fun i line => (i, line)) lines).

Definition _detect_by_lines (text : string) (pages : list Page)
  : list CandidateSection :=
  concat (map _extract_list_sections pages).

(** *** Section resolver *)

Definition _is_valid_section (section : CandidateSection)
    (seen_titles : gset string) : bool :=
  let title := section_title section in
  Str.nonempty title
  && negb (bool_decide (title ∈ seen_titles))
  && (3 <? String.length title)%nat.

Definition _get_base_confidence_score : float := 0.5%float.

Definition method_scores : list (string * float) :=
  [("header", 0.3); ("paragraph", 0.2); ("list", 0.1)]%float.

(** [d.get(k, default)] on an association list. *)
Fixpoint dict_get {V} (d : list (string * V)) (k : string) (default : V) : V :=
  match d with
  | [] => default
  | (k', v) :: rest => if String.eqb k' k then v else dict_get rest k default
  end.

Definition _get_method_score (method : string) : float :=
  dict_get method_scores method 0%float.

Definition _get_content_quality_score (content title : string) : float :=
  let score := 0%float in
  let score := if (100 <? String.length content)%nat then (score + 0.1)%float else score in
  let score := if (10 <? String.length title)%nat then (score + 0.1)%float else score in
  score.

Definition _calculate_confidence (section : CandidateSection) : float :=
  let score := _get_base_confidence_score in
  let score := (score + _get_method_score (detection_method section))%float in
  let score := (score + _get_content_quality_score (content section)
                                                    (section_title section))%float in
  float_min score 1%float.

(** [f"{filename}_section_{i+1}"] *)
Definition make_section_id (filename : string) (i : nat) : string :=
  filename ++ "_section_" ++ pretty (i + 1)%nat.

(** The [for i, section in enumerate(sections)] loop of
    [_process_detected_sections]: [i] is the index of the head of [sections]
    in the full list; the loop state is [unique_sections] and [seen_titles]. *)
Fixpoint process_loop (filename : string) (i : nat)
    (sections : list CandidateSection)
    (unique_sections : list UniqueSection) (seen_titles : gset string)
  : list UniqueSection :=
  match sections with
  | [] => unique_sections
  | section :: rest =>
      if _is_valid_section section seen_titles then
        let updated :=
          mkUnique section (make_section_id filename i)
            (length (Str.split_ws (content section)))
            (_calculate_confidence section) in
        process_loop filename (S i) rest
          (unique_sections ++ [updated])%list
          ({[section_title section]} ∪ seen_titles)
      else process_loop filename (S i) rest unique_sections seen_titles
  end.

Definition _process_detected_sections (sections : list CandidateSection)
    (filename : string) : list UniqueSection :=
  take max_sections (process_loop filename 0 sections [] ∅).

Definition _detect_sections (text filename : string) (pages : list Page)
  : list UniqueSection :=
  let sections := [] in
  let sections := (sections ++ _detect_by_headers text pages)%list in
  let sections := (sections ++ _detect_by_paragraphs text pages)%list in
  let sections := (sections ++ _detect_by_lines text pages)%list in
  _process_detected_sections sections filename.

(** *** The entry point, with its external collaborators *)

Section Entry.

(** PyMuPDF.  [fitz.open(file_path)] raises or yields a document; a document
    is the sequence of its pages, and [page.get_text()] raises or yields the
    page text.  An exception is represented by its message [str(e)]. *)
Variable fitz_open : string -> string + list (string + string).

(** [Path(file_path).name] *)
Variable path_name : string -> string.

(** [datetime.now().isoformat()] at the time of the call. *)
Variable now_isoformat : string.

(** The [for page_num in range(len(doc))] loop of [_extract_pdf_content];
    [page_num] is the index of the head of [doc]. *)
Fixpoint extract_pages (doc : list (string + string)) (page_num : nat)
    (full_text : string) (page_contents : list Page)
  : string + (string * list Page) :=
  match doc with
  | [] => inr (full_text, page_contents)
  | inl e :: _ => inl e
  | inr page_text :: rest =>
      extract_pages rest (S page_num) (full_text ++ page_text ++ Str.nl)
        (page_contents ++
           [mkPage (page_num + 1) (Str.strip page_text) (String.length page_text)])%list
  end.

Definition _extract_pdf_content (doc : list (string + string))
  : string + (string * list Page) :=
  extract_pages doc 0 "" [].

Definition _generate_metadata (file_path : string) (pages : list Page)
    (full_text : string) (sections : list UniqueSection) : Metadata :=
  MetaOk (path_name file_path) (length pages) (String.length full_text)
    (length sections) now_isoformat.

(** The result comes with the lines written by [print]. *)
Definition _create_error_response (file_path error : string)
  : DocumentAnalysis * list string :=
  (mkAnalysis (MetaError (path_name file_path) error) "" [] [],
   ["Error analyzing document " ++ file_path ++ ": " ++ error]).

(** [try: ... except Exception as e: return self._create_error_response(...)] *)
Definition analyze_document (file_path : string)
  : DocumentAnalysis * list string :=
  match fitz_open file_path with
  | inl e => _create_error_response file_path e
  | inr doc =>
      match _extract_pdf_content doc with
      | inl e => _create_error_response file_path e
      | inr (full_text, page_contents) =>
          let sections :=
            _detect_sections full_text (path_name file_path) page_contents in
          let metadata :=
            _generate_metadata file_path page_contents full_text sections in
          (mkAnalysis metadata full_text page_contents sections, [])
      end
  end.

End Entry.

End DocumentAnalyzer.

(** ** [PersonaProcessor] (src/persona.py) *)

(** A section after [_augment_section_with_role_context]: the copy of the
    section dict with the five persona keys added. *)
Record AugmentedSection := mkAugmented {
  unique :> UniqueSection;
  persona_relevance_score : float;
  persona_insights : list string;
  key_concepts : list string;
  persona_priority : string;
  job_alignment_score : Q
}.

Record RoleAnalysisSummary := mkSummary {
  summary_persona_type : string;          (* key "persona_type" *)
  total_sections_analyzed : nat;
  high_priority_sections : nat;
  medium_priority_sections : nat;
  low_priority_sections : Z;
  average_relevance_score : float;
  top_insights : list string
}.

Record PersonaAnalysis := mkPersonaAnalysis {
  persona_type : string;
  persona_role : string;
  job_type : string;
  job_context : string;
  persona_sections : list AugmentedSection;   (* key "sections" *)
  persona_metadata : RoleAnalysisSummary      (* key "metadata" *)
}.

Module PersonaProcessor.

Import DocumentAnalyzer.

Definition role_terms : list (string * list string) :=
  [("researcher", ["research"; "study"; "analysis"; "methodology"; "data"; "experiment";
                   "hypothesis"; "literature"; "publication"; "findings"; "results"; "conclusion"]);
   ("student", ["learn"; "study"; "understand"; "concept"; "theory"; "practice";
                "example"; "exercise"; "exam"; "assignment"; "knowledge"; "skill"]);
   ("analyst", ["analyze"; "evaluate"; "assess"; "trend"; "pattern"; "metric";
                "performance"; "comparison"; "forecast"; "strategy"; "insight"; "recommendation"]);
   ("teacher", ["teach"; "explain"; "instruction"; "curriculum"; "lesson"; "education";
                "training"; "guidance"; "demonstration"; "assessment"; "learning"; "development"]);
   ("manager", ["manage"; "plan"; "organize"; "control"; "strategy"; "decision";
                "resource"; "team"; "process"; "objective"; "performance"; "leadership"]);
   ("entrepreneur", ["business"; "opportunity"; "market"; "innovation"; "startup"; "venture";
                     "revenue"; "growth"; "investment"; "competition"; "strategy"; "scalability"])].

Definition task_terms : list (string * list string) :=
  [("review", ["review"; "summary"; "overview"; "evaluation"; "assessment"; "analysis"]);
   ("learn", ["learn"; "understand"; "study"; "master"; "practice"; "acquire"]);
   ("analyze", ["analyze"; "examine"; "investigate"; "evaluate"; "assess"; "compare"]);
   ("prepare", ["prepare"; "plan"; "organize"; "design"; "develop"; "create"]);
   ("summarize", ["summarize"; "condense"; "extract"; "highlight"; "synthesize"; "distill"])].

(** [sum(1 for x in l if p(x))] *)
Definition sum_ones {A} (p : A -> bool) (l : list A) : nat :=
  fold_left (fun acc x => if p x then (acc + 1)%nat else acc) l 0%nat.

(** [x in l] for a list of strings. *)
Definition in_list (x : string) (l : list string) : bool :=
  List.existsb (String.eqb x) l.

(** [any(term in text for term in terms)] *)
Definition any_in (terms : list string) (text : string) : bool :=
  List.existsb (fun term => Str.contains term text) terms.

(** True division [m / n] of two non-negative integers. *)
Definition true_div (m n : nat) : Q :=
  (inject_Z (Z.of_nat m) / inject_Z (Z.of_nat n))%Q.

Definition _compute_relevance_score (text_content role_category task_category
    task_description : string) : float :=
  let normalized_content := Str.lower text_content in
  let word_tokens := Str.findall_words normalized_content in
  let token_count := length word_tokens in
  if (token_count =? 0)%nat then 0%float
  else
    let role_specific_terms := dict_get role_terms role_category [] in
    let role_matches :=
      sum_ones (fun token => in_list token role_specific_terms) word_tokens in
    let role_relevance := count_div role_matches token_count in
    let task_specific_terms := dict_get task_terms task_category [] in
    let task_matches :=
      sum_ones (fun token => in_list token task_specific_terms) word_tokens in
    let task_relevance := count_div task_matches token_count in
    let task_word_set : gset string :=
      list_to_set (Str.findall_words (Str.lower task_description)) in
    let direct_matches :=
      sum_ones (fun token => bool_decide (token ∈ task_word_set)
                             && (3 <? String.length token)%nat) word_tokens in
    let direct_relevance := count_div direct_matches token_count in
    let combined_score :=
      (0.4 * role_relevance + 0.3 * task_relevance + 0.3 * direct_relevance)%float in
    float_min (combined_score * 10)%float 1%float.

(** The scores dict built by the classifiers: one entry per category whose
    score is positive, in the order of [terms]. *)
Definition keyword_scores (terms : list (string * list string))
    (normalized : string) : list (string * nat) :=
  List.filter (fun '(_, score) => (0 <? score)%nat)
    (map (fun '(category, keyword_list) =>
            (category,
             sum_ones (fun keyword => Str.contains keyword normalized) keyword_list))
         terms).

(** The loop of [max(d, key=d.get)] after its first item: a later key
    replaces the current one only when its value is strictly greater. *)
Fixpoint max_loop (best : string) (best_val : nat) (l : list (string * nat))
  : string :=
  match l with
  | [] => best
  | (k, v) :: rest =>
      if (best_val <? v)%nat then max_loop k v rest
      else max_loop best best_val rest
  end.

Definition role_fallbacks : list (string * list string) :=
  [("researcher", ["phd"; "research"; "scientist"; "academic"]);
   ("student", ["student"; "undergraduate"; "graduate"]);
   ("analyst", ["analyst"; "investment"; "business"]);
   ("teacher", ["teacher"; "trainer"; "instructor"]);
   ("manager", ["manager"; "director"; "executive"]);
   ("entrepreneur", ["entrepreneur"; "founder"; "startup"])].

(** The [if any(...) ... elif any(...) ...] chain of [_classify_user_role]. *)
Fixpoint fallback_chain (chain : list (string * list string))
    (normalized_role : string) : string :=
  match chain with
  | [] => "general"
  | (category, terms) :: rest =>
      if any_in terms normalized_role then category
      else fallback_chain rest normalized_role
  end.

Definition _classify_user_role (role_description : string) : string :=
  let normalized_role := Str.lower role_description in
  let role_scores := keyword_scores role_terms normalized_role in
  match role_scores with
  | (k, v) :: rest => max_loop k v rest
  | [] => fallback_chain role_fallbacks normalized_role
  end.

Definition _classify_user_task (task_description : string) : string :=
  let normalized_task := Str.lower task_description in
  let task_scores := keyword_scores task_terms normalized_task in
  match task_scores with
  | (k, v) :: rest => max_loop k v rest
  | [] => "general"
  end.

Definition _compute_task_alignment_score (text_content task_description : string)
  : Q :=
  let normalized_content := Str.lower text_content in
  let normalized_task := Str.lower task_description in
  let task_keywords : gset string :=
    list_to_set (Str.findall_words4 normalized_task) in
  let content_keywords : gset string :=
    list_to_set (Str.findall_words4 normalized_content) in
  if bool_decide (task_keywords = ∅) then 0%Q
  else
    let matched_terms := size (task_keywords ∩ content_keywords) in
    let similarity_score := true_div matched_terms (size task_keywords) in
    py_min similarity_score 1%Q.

(** One rule of [_extract_role_specific_observations]: the trigger keywords
    and the observation appended when one of them occurs in the text. *)
Definition role_rules : list (string * list (list string * string)) :=
  [("researcher",
    [(["methodology"; "method"; "approach"], "Research methodology identified");
     (["data"; "dataset"; "sample"], "Data sources and datasets mentioned");
     (["result"; "finding"; "conclusion"], "Research findings and results presented")]);
   ("student",
    [(["concept"; "principle"; "theory"], "Key concepts for learning identified");
     (["example"; "illustration"; "case"], "Examples and illustrations available");
     (["exercise"; "problem"; "practice"], "Practice materials and exercises found")]);
   ("analyst",
    [(["trend"; "pattern"; "analysis"], "Analytical insights and trends identified");
     (["metric"; "kpi"; "performance"], "Performance metrics and KPIs mentioned");
     (["forecast"; "prediction"; "projection"], "Forecasting and predictive information")])].

Definition task_rules : list (string * list (list string * string)) :=
  [("review",
    [(["summary"; "overview"; "abstract"], "Summary content suitable for review")]);
   ("analyze",
    [(["comparison"; "contrast"; "versus"], "Comparative analysis opportunities")])].

(** The consecutive [if any(...): observations.append(...)] statements of
    one branch. *)
Definition fire_rules (rules : list (list string * string))
    (normalized_text : string) : list string :=
  omap (fun '(keywords, observation) =>
          if any_in keywords normalized_text then Some observation else None)
       rules.

Definition _extract_role_specific_observations (text_content role_category
    task_category : string) : list string :=
  let observations := [] in
  let normalized_text := Str.lower text_content in
  let observations :=
    (observations ++ fire_rules (dict_get role_rules role_category []) normalized_text)%list in
  let observations :=
    (observations ++ fire_rules (dict_get task_rules task_category []) normalized_text)%list in
  observations.

(** [collections.Counter]: counts by key, keys in order of first insertion. *)
Fixpoint counter_add (k : string) (c : list (string * nat)) : list (string * nat) :=
  match c with
  | [] => [(k, 1%nat)]
  | (k', n) :: rest =>
      if String.eqb k' k then (k', S n) :: rest
      else (k', n) :: counter_add k rest
  end.

Definition Counter (l : list string) : list (string * nat) :=
  fold_left (fun c k => counter_add k c) l [].

(** [Counter.most_common(n)] is [sorted(items, key=count, reverse=True)[:n]];
    the sort is stable, so items of equal count stay in order of first
    insertion.  [insert_desc] puts an item in front of a sorted list of
    items that came after it. *)
Fixpoint insert_desc (x : string * nat) (l : list (string * nat))
  : list (string * nat) :=
  match l with
  | [] => [x]
  | y :: rest =>
      if (x.2 <? y.2)%nat then y :: insert_desc x rest else x :: y :: rest
  end.

Definition sorted_desc (l : list (string * nat)) : list (string * nat) :=
  foldr insert_desc [] l.

Definition most_common (n : nat) (c : list (string * nat)) : list (string * nat) :=
  take n (sorted_desc c).

(** The [for token in word_tokens] loop of [_find_relevant_concepts]. *)
Fixpoint concepts_loop (applicable_terms : list string)
    (token_frequency : list (string * nat)) (word_tokens : list string)
    (important_concepts : list string) : list string :=
  match word_tokens with
  | [] => important_concepts
  | token :: rest =>
      if in_list token applicable_terms
         && (1 <=? dict_get token_frequency token 0%nat)%nat
         && (3 <? String.length token)%nat
         && negb (in_list token important_concepts)
      then concepts_loop applicable_terms token_frequency rest
             (important_concepts ++ [token])%list
      else concepts_loop applicable_terms token_frequency rest important_concepts
  end.

Definition _find_relevant_concepts (text_content role_category : string)
  : list string :=
  let normalized_content := Str.lower text_content in
  let word_tokens := Str.findall_words normalized_content in
  let applicable_terms := dict_get role_terms role_category [] in
  let token_frequency := Counter word_tokens in
  take 10 (concepts_loop applicable_terms token_frequency word_tokens []).

Definition _determine_importance_level (relevance_metric : float)
    (observation_list concept_list : list string) : string :=
  if (0.6 <=? relevance_metric)%float && (2 <=? length observation_list)%nat
  then "high"
  else if (0.3 <=? relevance_metric)%float
          && ((1 <=? length observation_list)%nat || (3 <=? length concept_list)%nat)
  then "medium"
  else "low".

Definition _augment_section_with_role_context (section_data : UniqueSection)
    (role_category task_category role_description task_description : string)
  : AugmentedSection :=
  let section_content := content section_data in
  let section_header := section_title section_data in
  let relevance_metric :=
    _compute_relevance_score (section_content ++ " " ++ section_header)
      role_category task_category task_description in
  let role_observations :=
    _extract_role_specific_observations section_content role_category task_category in
  let important_concepts := _find_relevant_concepts section_content role_category in
  mkAugmented section_data
    relevance_metric
    role_observations
    important_concepts
    (_determine_importance_level relevance_metric role_observations important_concepts)
    (_compute_task_alignment_score (section_content ++ " " ++ section_header)
       task_description).

(** Python's [round] to the nearest integer, ties to the even one. *)
Definition round_half_even (q : Q) : Z :=
  let f := Qfloor q in
  match (q - inject_Z f ?= 1 # 2)%Q with
  | Lt => f
  | Gt => (f + 1)%Z
  | Eq => if Z.even f then f else (f + 1)%Z
  end.

(** The [float] nearest to [k / 1000]; for [k = 0] the zero of the given
    sign. *)
Definition thousandths (negative : bool) (k : Z) : float :=
  match k with
  | Z0 => if negative then (-0)%float else 0%float
  | Zpos p =>
      SF2Prim (SFdiv prec emax (S754_finite false p 0) (S754_finite false 1000 0))
  | Zneg p =>
      SF2Prim (SFdiv prec emax (S754_finite true p 0) (S754_finite false 1000 0))
  end.

(** [round(x, 3)]: the number that [x] denotes is rounded to a multiple of
    0.001, ties to the even multiple, and the result is the float nearest to
    that decimal; zeros, infinities and NaN are returned as they are. *)
Definition py_round3 (x : float) : float :=
  match Prim2SF x with
  | S754_finite s _ _ => thousandths s (round_half_even (float_value x * 1000))
  | _ => x
  end.

Definition _build_role_analysis_summary (section_list : list AugmentedSection)
    (role_category role_description : string) : RoleAnalysisSummary :=
  let section_count := length section_list in
  let high_importance :=
    sum_ones (fun section => String.eqb (persona_priority section) "high") section_list in
  let medium_importance :=
    sum_ones (fun section => String.eqb (persona_priority section) "medium") section_list in
  let mean_relevance :=
    (float_sum (map persona_relevance_score section_list)
     / of_count (Nat.max section_count 1))%float in
  let combined_observations := concat (map persona_insights section_list) in
  let observation_frequency := Counter combined_observations in
  let key_observations := map fst (most_common 5 observation_frequency) in
  mkSummary role_category section_count high_importance medium_importance
    (Z.of_nat section_count - Z.of_nat high_importance - Z.of_nat medium_importance)
    (py_round3 mean_relevance)
    key_observations.

(** [d.get(k, "")] on the persona and job dicts. *)
Definition get_str (d : gmap string string) (k : string) : string :=
  default "" (d !! k).

Definition process_with_persona (doc_analysis : DocumentAnalysis)
    (user_persona user_job : gmap string string) : PersonaAnalysis :=
  let role_description := Str.lower (get_str user_persona "role") in
  let task_description := Str.lower (get_str user_job "task") in
  let detected_role := _classify_user_role role_description in
  let detected_task := _classify_user_task task_description in
  let processed_sections :=
    map (fun section_data =>
           _augment_section_with_role_context section_data detected_role
             detected_task role_description task_description)
        (sections doc_analysis) in
  let role_metadata :=
    _build_role_analysis_summary processed_sections detected_role role_description in
  mkPersonaAnalysis detected_role role_description task_description
    task_description processed_sections role_metadata.

End PersonaProcessor.

(** ** The batch pipeline (main.py, utils/parser.py, validate_schema.py)

    The pipeline reads each document of an input specification, takes its
    first pages that hold text and records one section and one preview per
    page.  Files and JSON are not modelled: the functions below work on the
    values that are read and written.  The lines the pipeline prints hold
    characters outside U+0000..U+00FF and are represented by constructors. *)

Module Pipeline.

(** One entry of the list [extract_text_from_pdf] returns. *)
Record PageText := mkPageText {
  page_number : nat;
  text : string
}.

(** One entry of [output_data["extracted_sections"]]. *)
Record ExtractedSection := mkExtracted {
  document : string;
  section_title : string;
  importance_rank : nat;
  section_page_number : nat
}.

(** One entry of [output_data["subsection_analysis"]]. *)
Record SubsectionAnalysis := mkSubsection {
  subsection_document : string;
  refined_text : string;
  subsection_page_number : nat
}.

(** The parts of [output_data] that [process_single_document] changes;
    [input_documents] is [output_data["metadata"]["input_documents"]]. *)
Record OutputData := mkOutput {
  input_documents : list string;
  extracted_sections : list ExtractedSection;
  subsection_analysis : list SubsectionAnalysis
}.

(** What [print] writes. *)
Inductive Printed :=
  | FileNotFound (pdf_path : string)
  | RanksNotSequential.

(** The line boundaries of [str.splitlines] among U+0000..U+00FF. *)
Definition is_line_boundary (c : ascii) : bool :=
  Char.in_range 10 13 c || Char.in_range 28 30 c || (Char.code c =? 133)%nat.

(** [s.splitlines()]: [cur] holds the current line; a carriage return
    followed by a line feed is one boundary, and no empty line is produced
    after the last boundary. *)
Fixpoint splitlines_go (cur : string) (s : string) : list string :=
  match s with
  | "" => if Str.nonempty cur then [cur] else []
  | String c r =>
      if is_line_boundary c then
        cur ::
        match r with
        | String d r' =>
            if (Char.code c =? 13)%nat && (Char.code d =? 10)%nat
            then splitlines_go "" r'
            else splitlines_go "" r
        | "" => splitlines_go "" r
        end
      else splitlines_go (cur ++ String c "") r
  end.

Definition splitlines (s : string) : list string := splitlines_go "" s.

(** *** utils/parser.py *)

(** The [for page_number in range(len(doc))] loop of
    [extract_text_from_pdf]; [page_number] is the index of the head of
    [doc].  A page is [inl] when loading it or reading its text raises. *)
Fixpoint read_pages (doc : list (string + string)) (page_number : nat)
    (extracted : list PageText) : string + list PageText :=
  match doc with
  | [] => inr extracted
  | inl e :: _ => inl e
  | inr text :: rest =>
      read_pages rest (S page_number)
        (if Str.nonempty (Str.strip text)
         then (extracted ++ [mkPageText (page_number + 1) text])%list
         else extracted)
  end.

Section Files.

(** PyMuPDF, as for [DocumentAnalyzer]. *)
Variable fitz_open : string -> string + list (string + string).

(** [Path(doc_path).exists()] *)
Variable path_exists : string -> bool.

(** [str(Path(doc_path))] *)
Variable path_str : string -> string.

(** [os.path.basename(doc_path)] *)
Variable basename : string -> string.

(** An exception is not caught: it ends the call, [inl] its message. *)
Definition extract_text_from_pdf (pdf_path : string) : string + list PageText :=
  match fitz_open pdf_path with
  | inl e => inl e
  | inr doc => read_pages doc 0 []
  end.

(** *** main.py *)

Definition extract_sample_pages (pdf_path : string) (num_pages : nat)
  : string + list PageText :=
  match extract_text_from_pdf pdf_path with
  | inl e => inl e
  | inr all_pages => inr (take num_pages all_pages)
  end.

Definition append_metadata (output_data : OutputData) (document_path : string)
  : OutputData :=
  let filename := basename document_path in
  mkOutput (input_documents output_data ++ [filename])%list
    (extracted_sections output_data) (subsection_analysis output_data).

Definition add_extracted_section (sections : list ExtractedSection)
    (doc_path : string) (rank page_num : nat) (section_title : string)
  : list ExtractedSection :=
  let filename := basename doc_path in
  (sections ++ [mkExtracted filename section_title rank page_num])%list.

Definition add_subsection_analysis (analysis : list SubsectionAnalysis)
    (doc_path text : string) (page_num : nat) : list SubsectionAnalysis :=
  let filename := basename doc_path in
  (analysis ++ [mkSubsection filename (Str.take 300 text) page_num])%list.

(** The [for line in lines] loop of [extract_section_title_from_text]. *)
Fixpoint first_clean_line (lines : list string) : string :=
  match lines with
  | [] => "Unknown Section"
  | line :: rest =>
      let clean_line := Str.strip line in
      if Str.nonempty clean_line then clean_line else first_clean_line rest
  end.

Definition extract_section_title_from_text (text : string) : string :=
  let lines := splitlines (Str.strip text) in
  first_clean_line lines.

(** The [for idx, page in enumerate(sample_pages)] loop of
    [process_single_document]; [idx] is the index of the head of
    [sample_pages]. *)
Fixpoint sample_loop (doc_path : string) (idx : nat)
    (sample_pages : list PageText) (output_data : OutputData) : OutputData :=
  match sample_pages with
  | [] => output_data
  | page :: rest =>
      let section_title := extract_section_title_from_text (text page) in
      let extracted :=
        add_extracted_section (extracted_sections output_data) doc_path
          (idx + 1) (page_number page) section_title in
      let analysis :=
        add_subsection_analysis (subsection_analysis output_data) doc_path
          (text page) (page_number page) in
      sample_loop doc_path (S idx) rest
        (mkOutput (input_documents output_data) extracted analysis)
  end.

(** The result is the updated [output_data] and what was printed. *)
Definition process_single_document (doc_path : string)
    (output_data : OutputData) : string + (OutputData * list Printed) :=
  if negb (path_exists doc_path)
  then inr (output_data, [FileNotFound (path_str doc_path)])
  else
    match extract_sample_pages (path_str doc_path) 3 with
    | inl e => inl e
    | inr sample_pages =>
        let output_data := append_metadata output_data doc_path in
        inr (sample_loop doc_path 0 sample_pages output_data, [])
    end.

(** The [for doc_path in config["documents"]] loop of [process_input_spec]. *)
Fixpoint process_documents (documents : list string) (output_data : OutputData)
    (printed : list Printed) : string + (OutputData * list Printed) :=
  match documents with
  | [] => inr (output_data, printed)
  | doc_path :: rest =>
      match process_single_document doc_path output_data with
      | inl e => inl e
      | inr (output_data, lines) =>
          process_documents rest output_data (printed ++ lines)%list
      end
  end.

End Files.

(** *** validate_schema.py *)

(** [sorted] on a list of integers. *)
Definition sorted (ranks : list nat) : list nat := merge_sort Nat.le ranks.

(** [check_importance_ranks]: each section dict is given by its
    ["importance_rank"] entry, [None] when it has none. *)
Definition check_importance_ranks (sections : list (option nat))
  : list Printed :=
  let ranks := map (fun s => default 0%nat s) sections in
  if negb (bool_decide (ranks = [])) && negb (bool_decide (ranks = sorted ranks))
  then [RanksNotSequential]
  else [].

End Pipeline.

(** ** Specification-side definitions

    These follow the words of the specification; the theorems below compare
    them with the program above. *)

Module Spec.

Import DocumentAnalyzer PersonaProcessor.

(** [sub] occurs in [s] as a substring. *)
Definition occurs_in (sub s : string) : Prop :=
  exists pre post : string, s = pre ++ sub ++ post.

(** The resolver's rule in the specification's words: scanning the
    candidates once in order, a candidate is kept when its title is not
    empty, is longer than 3 characters and equals no title kept before.
    [i] is the index of the head of [cands] in the full list; the result
    pairs each kept candidate with its index. *)
Fixpoint kept_from (i : nat) (cands : list CandidateSection)
    (kept_titles : list string) : list (nat * CandidateSection) :=
  match cands with
  | [] => []
  | c :: rest =>
      if decide (section_title c <> ""
                 /\ (3 < String.length (section_title c))%nat
                 /\ section_title c ∉ kept_titles)
      then (i, c) :: kept_from (S i) rest (section_title c :: kept_titles)
      else kept_from (S i) rest kept_titles
  end.

Definition kept (cands : list CandidateSection) : list (nat * CandidateSection) :=
  kept_from 0 cands [].

(** The share of the tokens that satisfy [P]: the number of such tokens
    divided by the number of tokens, as a float. *)
Definition fraction (P : string -> Prop) `{forall t, Decision (P t)}
    (toks : list string) : float :=
  (of_count (length (filter P toks)) / of_count (length toks))%float.

(** The tokens of length at least 4 of the lowercased text, as a set. *)
Definition long_tokens (s : string) : gset string :=
  list_to_set (filter (fun w => 4 <= String.length w)%nat
                 (Str.findall_words (Str.lower s))).

(** The declared order of the role categories. *)
Definition role_order : list string :=
  ["researcher"; "student"; "analyst"; "teacher"; "manager"; "entrepreneur"].

(** The lines that follow the first line containing the title. *)
Fixpoint after_header (header_line : string) (lines : list string)
  : list string :=
  match lines with
  | [] => []
  | line :: rest =>
      if _is_header_line line header_line then rest
      else after_header header_line rest
  end.

(** The lines that content gathering scans, among the [lines] that follow
    the header line: it passes over a line that contains the title again,
    and it ends, without taking the line, at the first line where the stop
    test holds; [gathered] is what has been gathered before [lines]. *)
Fixpoint scanned (header_line : string) (lines gathered : list string)
  : list string :=
  match lines with
  | [] => []
  | line :: rest =>
      if _is_header_line line header_line then scanned header_line rest gathered
      else if _should_stop_content_extraction line gathered then []
      else line :: scanned header_line rest (gathered ++ [Str.strip line])%list
  end.

Definition scanned_lines (page_text header_line : string) : list string :=
  scanned header_line
    (after_header header_line (Str.split_char Char.newline page_text)) [].

(** How often [x] occurs in [l]. *)
Definition count_of (x : string) (l : list string) : nat :=
  length (filter (fun y => y = x) l).

(** The position of the first occurrence of [x] in [l] ([length l] when
    there is none). *)
Fixpoint first_index (x : string) (l : list string) : nat :=
  match l with
  | [] => 0
  | y :: rest => if decide (y = x) then 0 else S (first_index x rest)
  end.

(** [x] ranks before [y] among the insights [all]: it is more frequent,
    or as frequent and seen first. *)
Definition ranks_before (all : list string) (x y : string) : Prop :=
  (count_of y all < count_of x all)%nat
  \/ (count_of x all = count_of y all
      /\ (first_index x all < first_index y all)%nat).

(** The unique section made of the candidate at index [i]. *)
Definition resolved (filename : string) (entry : nat * CandidateSection)
  : UniqueSection :=
  mkUnique entry.2 (filename ++ "_section_" ++ pretty (entry.1 + 1)%nat)
    (length (Str.split_ws (content entry.2)))
    (_calculate_confidence entry.2).

End Spec.

(** ** Auxiliary definitions for the proofs *)

(** *** Occurrence of a keyword is decidable *)

Lemma prefix_occurs (sub s : string) :
  String.prefix sub s = true <-> exists post : string, s = sub ++ post.
Proof.
  revert s. induction sub as [|a sub IH]; intros s.
  - split; [intros _; exists s; reflexivity|].
    intros _. by destruct s.
  - destruct s as [|b s].
    + split; [intros H; discriminate H|].
      intros (post & Hp). discriminate Hp.
    + cbn [String.prefix]. destruct (Ascii.ascii_dec a b) as [->|Hne].
      * rewrite IH. split; intros (post & Hp); exists post.
        -- simpl. by rewrite Hp.
        -- simpl in Hp. by inversion Hp.
      * split; [intros H; discriminate H|].
        intros (post & Hp). simpl in Hp. inversion Hp. congruence.
Qed.

Lemma contains_unfold (sub s : string) :
  Str.contains sub s
  = String.prefix sub s
    || match s with "" => false | String _ r => Str.contains sub r end.
Proof. by destruct s. Qed.

Lemma contains_occurs (sub s : string) :
  Str.contains sub s = true <-> Spec.occurs_in sub s.
Proof.
  unfold Spec.occurs_in. split.
  - induction s as [|c s IH]; rewrite contains_unfold, orb_true_iff;
      (intros [Hp|Hc]; [apply prefix_occurs in Hp as (post & ->); by exists "", post|]).
    + done.
    + destruct (IH Hc) as (pre & post & ->). by exists (String c pre), post.
  - intros (pre & post & ->). induction pre as [|c pre IH].
    + rewrite contains_unfold, orb_true_iff. left.
      apply prefix_occurs. by exists post.
    + rewrite contains_unfold, orb_true_iff. by right.
Qed.

(** Whether a keyword occurs in a text is decided by the program's test. *)
#[global] Instance occurs_in_dec : RelDecision Spec.occurs_in.
Proof.
  intros sub s. destruct (Str.contains sub s) eqn:Hc.
  - left. by apply contains_occurs.
  - right. intros Ho. apply contains_occurs in Ho. congruence.
Defined.

(** The number of keywords of a category that occur in a text. *)
Definition keyword_count (terms : list (string * list string))
    (category text : string) : nat :=
  length (filter (fun kw => Spec.occurs_in kw text)
            (DocumentAnalyzer.dict_get terms category [])).

(** [(r, v)] is the first entry of [L] with the greatest value. *)
Definition first_max (L : list (string * nat)) (r : string) (v : nat) : Prop :=
  exists L1 L2 : list (string * nat),
    L = (L1 ++ (r, v) :: L2)%list
    /\ Forall (fun e => (e.2 < v)%nat) L1
    /\ Forall (fun e => (e.2 <= v)%nat) L2.

(** The table of all categories with their scores, before the positive
    ones are entered in the scores dict. *)
Definition scored (terms : list (string * list string)) (text : string)
  : list (string * nat) :=
  map (fun '(category, keyword_list) =>
         (category,
          PersonaProcessor.sum_ones (fun keyword => Str.contains keyword text)
            keyword_list))
      terms.

(** The distinct elements of a list, in order of first occurrence. *)
Definition firsts (l : list string) : list string :=
  fold_left (fun acc x => if decide (x ∈ acc) then acc else (acc ++ [x])%list) l [].

(** Item [a] goes before item [b]: greater count, or equal count and a key
    seen earlier in [all]. *)
Definition item_before (all : list string) (a b : string * nat) : Prop :=
  (b.2 < a.2)%nat
  \/ (a.2 = b.2 /\ (Spec.first_index a.1 all < Spec.first_index b.1 all)%nat).

(** *** Example data *)

(** A page with a blank line between two content lines. *)
Definition blank_line_page : string :=
  "FINANCIAL OVERVIEW" ++ Str.nl ++ "A" ++ Str.nl ++ Str.nl ++ "B".

(** Two sections with the same content and different titles. *)
Definition titled_study : UniqueSection :=
  mkUnique (mkCandidate "Data study methodology" 1
              "The data and the method of the research" "paragraph")
           "doc.pdf_section_1" 8 0.8%float.

Definition titled_other : UniqueSection :=
  mkUnique (mkCandidate "Appendix" 1
              "The data and the method of the research" "paragraph")
           "doc.pdf_section_2" 8 0.7%float.

Definition titled_long : UniqueSection :=
  mkUnique (mkCandidate "Notes that we kept for later on how this part came about" 1
              "The data and the method of the research" "paragraph")
           "doc.pdf_section_3" 8 0.8%float.

(** *** Signs of binary64 numbers *)

(** A specification float that is not NaN and not negative: a zero, a
    positive number or the positive infinity. *)
Definition nonneg_sf (x : spec_float) : Prop :=
  match x with
  | S754_zero false | S754_infinity false | S754_finite false _ _ => True
  | _ => False
  end.

(** A positive number: finite and not zero. *)
Definition finpos_sf (x : spec_float) : Prop :=
  match x with S754_finite false _ _ => True | _ => False end.

Definition nonneg (x : float) : Prop := nonneg_sf (Prim2SF x).
Definition finpos (x : float) : Prop := finpos_sf (Prim2SF x).

(** *** Definitions for the further properties *)

(** The order of the priority tiers. *)
Definition priority_rank (priority : string) : nat :=
  if String.eqb priority "high" then 2
  else if String.eqb priority "medium" then 1
  else 0.

(** The declared order of the job categories. *)
Definition task_order : list string :=
  ["review"; "learn"; "analyze"; "prepare"; "summarize"].

(** [full_text] after reading the pages [texts]. *)
Definition joined_page_text (texts : list string) : string :=
  foldr (fun t acc => t ++ Str.nl ++ acc) "" texts.

(** The page records of the pages [texts]. *)
Definition page_records (texts : list string) : list Page :=
  imap (fun i t => mkPage (i + 1) (Str.strip t) (String.length t)) texts.

(** What holds of a line gathered as content below the header [header_line]. *)
Definition gathered_line (header_line line : string) : Prop :=
  Str.strip line = line
  /\ DocumentAnalyzer._is_header_line line header_line = false
  /\ DocumentAnalyzer.header_all_caps line = None
  /\ DocumentAnalyzer.header_numbered line = None.

(** The pages [extract_text_from_pdf] keeps of the page texts [texts], the
    first of which has index [n]: those whose text is not blank, each with
    its number in the document. *)
Definition pages_with_text_from (n : nat) (texts : list string)
  : list Pipeline.PageText :=
  List.filter (fun p => Str.nonempty (Str.strip (Pipeline.text p)))
    (imap (fun i t => Pipeline.mkPageText (n + i + 1) t) texts).

Definition pages_with_text (texts : list string) : list Pipeline.PageText :=
  pages_with_text_from 0 texts.

(** The sections and the previews that the sampled pages [pages] of the
    document named [filename] give, the first page having index [idx]. *)
Definition document_sections (filename : string) (idx : nat)
    (pages : list Pipeline.PageText) : list Pipeline.ExtractedSection :=
  imap (fun i p =>
          Pipeline.mkExtracted filename
            (Pipeline.extract_section_title_from_text (Pipeline.text p))
            (idx + i + 1) (Pipeline.page_number p)) pages.

Definition document_previews (filename : string)
    (pages : list Pipeline.PageText) : list Pipeline.SubsectionAnalysis :=
  map (fun p => Pipeline.mkSubsection filename (Str.take 300 (Pipeline.text p))
                  (Pipeline.page_number p)) pages.

(** The ["importance_rank"] entries of the sections the pipeline wrote. *)
Definition ranks_of (sections : list Pipeline.ExtractedSection)
  : list (option nat) :=
  map (fun s => Some (Pipeline.importance_rank s)) sections.

(** ** Binary64 arithmetic: signs and order

    The facts below follow from the specification of the primitive
    operations ([FloatAxioms]): the sum, the product and the quotient of
    numbers that are not negative are not negative and not NaN, a count
    converts to such a number, and [<=] is transitive. *)

Section Binary64Facts.

Local Open Scope Z_scope.

Lemma digits2_pos_iter_xO (p : positive) (k : positive) :
  Zpos (digits2_pos (Pos.iter xO p k)) = Zpos (digits2_pos p) + Zpos k.
Proof.
  revert p. induction k using Pos.peano_ind; intros p.
  - simpl. lia.
  - rewrite Pos.iter_succ. simpl. rewrite Pos2Z.inj_succ, IHk. lia.
Qed.

Lemma digits2_pos_bound (p : positive) :
  2 ^ (Zpos (digits2_pos p) - 1) <= Zpos p < 2 ^ Zpos (digits2_pos p).
Proof.
  induction p as [p IH|p IH|]; simpl digits2_pos.
  - rewrite Pos2Z.inj_succ.
    replace (Z.succ (Zpos (digits2_pos p)) - 1) with (Z.succ (Zpos (digits2_pos p) - 1)) by lia.
    rewrite !Z.pow_succ_r by lia. lia.
  - rewrite Pos2Z.inj_succ.
    replace (Z.succ (Zpos (digits2_pos p)) - 1) with (Z.succ (Zpos (digits2_pos p) - 1)) by lia.
    rewrite !Z.pow_succ_r by lia. lia.
  - simpl. lia.
Qed.

Lemma shr_1_digits (r : shr_record) :
  0 <= shr_m r -> Zdigits2 (shr_m (shr_1 r)) = Z.max 0 (Zdigits2 (shr_m r) - 1) /\ 0 <= shr_m (shr_1 r).
Proof.
  destruct r as [m b s]. simpl. intros Hm.
  destruct m as [|[p|p|]|p]; cbn [shr_m Zdigits2 digits2_pos]; try lia;
    rewrite ?Pos2Z.inj_succ; lia.
Qed.

Lemma iter_pos_shr_1_digits (k : positive) : forall r : shr_record,
  0 <= shr_m r ->
  Zdigits2 (shr_m (SpecFloat.iter_pos shr_1 k r)) = Z.max 0 (Zdigits2 (shr_m r) - Zpos k)
  /\ 0 <= shr_m (SpecFloat.iter_pos shr_1 k r).
Proof.
  induction k as [k IH|k IH|]; intros r Hr; cbn [SpecFloat.iter_pos].
  - destruct (shr_1_digits r Hr) as (H1 & H1').
    destruct (IH _ H1') as (H2 & H2').
    destruct (IH _ H2') as (H3 & H3').
    split; [|assumption]. rewrite H3, H2, H1. 
    assert (0 <= Zdigits2 (shr_m r)) by (destruct (shr_m r); simpl; lia).
    lia.
  - destruct (IH _ Hr) as (H2 & H2').
    destruct (IH _ H2') as (H3 & H3').
    split; [|assumption]. rewrite H3, H2.
    assert (0 <= Zdigits2 (shr_m r)) by (destruct (shr_m r); simpl; lia).
    lia.
  - apply shr_1_digits; assumption.
Qed.

Lemma shr_nonneg (r : shr_record) (e n : Z) :
  0 <= shr_m r -> 0 <= shr_m (fst (shr r e n)).
Proof.
  intros Hr. unfold shr. destruct n as [|k|k]; simpl; try assumption.
  apply iter_pos_shr_1_digits; assumption.
Qed.

Lemma shr_record_of_loc_m (m : Z) (l : location) : shr_m (shr_record_of_loc m l) = m.
Proof. destruct l as [|[]]; reflexivity. Qed.

Lemma round_nearest_even_nonneg (m : Z) (l : location) :
  0 <= m -> m <= round_nearest_even m l <= m + 1.
Proof.
  intros Hm. destruct l as [|[]]; simpl; try lia. destruct (Z.even m); lia.
Qed.

Lemma binary_round_aux_nonneg (m e : Z) (l : location) :
  0 <= m -> nonneg_sf (binary_round_aux prec emax false m e l).
Proof.
  intros Hm. unfold binary_round_aux, shr_fexp.
  destruct (shr (shr_record_of_loc m l) e _) as [r1 e1] eqn:H1.
  assert (Hr1 : 0 <= shr_m r1).
  { change r1 with (fst (r1, e1)). rewrite <- H1. apply shr_nonneg.
    now rewrite shr_record_of_loc_m. }
  destruct (shr (shr_record_of_loc (round_nearest_even (shr_m r1) (loc_of_shr_record r1)) loc_Exact) e1 _)
    as [r2 e2] eqn:H2.
  assert (Hr2 : 0 <= shr_m r2).
  { change r2 with (fst (r2, e2)). rewrite <- H2. apply shr_nonneg. simpl.
    pose proof (round_nearest_even_nonneg (shr_m r1) (loc_of_shr_record r1) Hr1). lia. }
  destruct (shr_m r2) as [|p|p]; [exact I| |lia].
  destruct (e2 <=? emax - prec); exact I.
Qed.

Lemma Zdigits2_nonneg (m : Z) : 0 <= Zdigits2 m.
Proof. destruct m; simpl; lia. Qed.

Lemma Zdigits2_pos_inv (m : Z) : 0 <= m -> 0 < Zdigits2 m -> exists p, m = Zpos p.
Proof. destruct m; simpl; try lia. eauto. Qed.

Lemma Zdigits2_succ (m : Z) : 0 < m -> Zdigits2 m <= Zdigits2 (m + 1) <= Zdigits2 m + 1.
Proof.
  intros Hm. destruct m as [|p|p]; try lia.
  replace (Zpos p + 1) with (Zpos (p + 1)) by lia. cbn [Zdigits2].
  pose proof (digits2_pos_bound p) as Hp. pose proof (digits2_pos_bound (p + 1)) as Hq.
  split.
  - destruct (Z_lt_le_dec (Zpos (digits2_pos (p + 1))) (Zpos (digits2_pos p))) as [Hlt|]; [|assumption].
    exfalso. assert (2 ^ Zpos (digits2_pos (p+1)) <= 2 ^ (Zpos (digits2_pos p) - 1)).
    { apply Z.pow_le_mono_r; lia. } lia.
  - destruct (Z_lt_le_dec (Zpos (digits2_pos p) + 1) (Zpos (digits2_pos (p + 1)))) as [Hlt|]; [|assumption].
    exfalso. assert (2 ^ (Zpos (digits2_pos p) + 1) <= 2 ^ (Zpos (digits2_pos (p+1)) - 1)).
    { apply Z.pow_le_mono_r; lia. }
    rewrite Z.pow_add_r in H by lia. lia.
Qed.

(** rounding a positive integer mantissa of at least 53 digits in the normal range *)
Lemma binary_round_aux_finite (q : positive) (e : Z) :
  53 <= Zpos (digits2_pos q) ->
  emin + 53 <= Zpos (digits2_pos q) + e <= 1023 ->
  finpos_sf (binary_round_aux prec emax false (Zpos q) e loc_Exact).
Proof.
  intros Hd (Hmin & Hmax). unfold binary_round_aux, shr_fexp.
  cbn [Zdigits2 shr_record_of_loc].
  set (d := Zpos (digits2_pos q)) in *.
  assert (Hf1 : fexp prec emax (d + e) - e = d - 53).
  { unfold fexp, SpecFloat.emin, prec, emax in *. lia. }
  rewrite Hf1.
  destruct (shr {| shr_m := Zpos q; shr_r := false; shr_s := false |} e (d - 53)) as [r1 e1] eqn:H1.
  assert (Hr1 : Zdigits2 (shr_m r1) = 53 /\ 0 <= shr_m r1 /\ e1 = e + (d - 53)
                /\ (d = 53 -> loc_of_shr_record r1 = loc_Exact)).
  { unfold shr in H1. destruct (d - 53) as [|k|k] eqn:Hk.
    - injection H1 as <- <-. cbn [shr_m Zdigits2]. fold d. repeat split; try lia. 
    - injection H1 as <- <-.
      destruct (iter_pos_shr_1_digits k {| shr_m := Zpos q; shr_r := false; shr_s := false |})
        as (Hdig & Hnn); [simpl; lia|].
      cbn [shr_m Zdigits2] in Hdig. fold d in Hdig. repeat split; try lia.
    - lia. }
  destruct Hr1 as (Hd1 & Hn1 & He1 & _).
  set (m2 := round_nearest_even (shr_m r1) (loc_of_shr_record r1)).
  assert (Hm1pos : 0 < shr_m r1).
  { destruct (Zdigits2_pos_inv (shr_m r1) Hn1) as (p1 & Hp1); lia. }
  assert (Hm2 : 0 < m2 /\ 53 <= Zdigits2 m2 <= 54).
  { pose proof (round_nearest_even_nonneg (shr_m r1) (loc_of_shr_record r1) Hn1) as Hr.
    fold m2 in Hr. split; [lia|].
    assert (m2 = shr_m r1 \/ m2 = shr_m r1 + 1) as [->| ->] by lia; [lia|].
    pose proof (Zdigits2_succ (shr_m r1) Hm1pos). lia. }
  destruct Hm2 as (Hm2pos & Hd2).
  assert (Hf2 : fexp prec emax (Zdigits2 m2 + e1) - e1 = Zdigits2 m2 - 53).
  { unfold fexp, SpecFloat.emin, prec, emax in *. lia. }
  rewrite Hf2.
  destruct (shr {| shr_m := m2; shr_r := false; shr_s := false |} e1 (Zdigits2 m2 - 53)) as [r2 e2] eqn:H2.
  assert (Hr2 : 0 < Zdigits2 (shr_m r2) /\ 0 <= shr_m r2 /\ e2 <= e1 + 1).
  { unfold shr in H2. destruct (Zdigits2 m2 - 53) as [|k|k] eqn:Hk.
    - injection H2 as <- <-. cbn [shr_m]. lia.
    - injection H2 as <- <-.
      destruct (iter_pos_shr_1_digits k {| shr_m := m2; shr_r := false; shr_s := false |})
        as (Hdig & Hnn); [simpl; lia|].
      cbn [shr_m] in Hdig. lia.
    - lia. }
  destruct Hr2 as (Hd3 & Hn3 & He2).
  destruct (Zdigits2_pos_inv _ Hn3 Hd3) as (p3 & ->).
  replace (e2 <=? emax - prec) with true; [exact I|].
  symmetry. apply Z.leb_le. unfold emax, prec. lia.
Qed.

Lemma binary_round_finite (p : positive) (e : Z) :
  emin + 53 <= Zpos (digits2_pos p) + e <= 1023 ->
  finpos_sf (binary_round prec emax false p e).
Proof.
  intros Hr. unfold binary_round.
  assert (Hf : fexp prec emax (Zpos (digits2_pos p) + e) = Zpos (digits2_pos p) + e - 53).
  { unfold fexp, SpecFloat.emin, prec, emax in *. lia. }
  rewrite Hf. unfold shl_align.
  destruct (Zpos (digits2_pos p) + e - 53 - e) as [|k|k] eqn:Hk.
  - clear Hf. apply binary_round_aux_finite; unfold SpecFloat.emin, prec, emax in *; lia.
  - clear Hf. apply binary_round_aux_finite; unfold SpecFloat.emin, prec, emax in *; lia.
  - clear Hf. pose proof (digits2_pos_iter_xO p k) as Hd.
    apply binary_round_aux_finite; rewrite ?Hd; unfold SpecFloat.emin, prec, emax in *; lia.
Qed.

Lemma binary_round_nonneg (p : positive) (e : Z) :
  nonneg_sf (binary_round prec emax false p e).
Proof.
  unfold binary_round. destruct (shl_align p e _) as [mz ez].
  apply binary_round_aux_nonneg. lia.
Qed.

Lemma finpos_is_nonneg (x : float) : finpos x -> nonneg x.
Proof. unfold finpos, nonneg. destruct (Prim2SF x) as [[]|[]| |[] m e]; simpl; tauto. Qed.

Lemma of_count_0 : of_count 0 = 0%float.
Proof. reflexivity. Qed.

Lemma of_count_finpos (n : nat) : (0 < n)%nat -> finpos (of_count n).
Proof.
  intros Hn. unfold finpos, of_count. rewrite of_uint63_spec.
  set (z := Z.min (Z.of_nat n) 9223372036854775807).
  assert (Hz : 0 < z < 2 ^ 63) by (unfold z; lia).
  rewrite Uint63.of_Z_spec. change Uint63.wB with (2 ^ 63). rewrite Z.mod_small by lia.
  destruct z as [|p|p]; try lia. cbn [binary_normalize].
  apply binary_round_finite.
  pose proof (digits2_pos_bound p) as Hp.
  assert (Zpos (digits2_pos p) <= 63).
  { destruct (Z_lt_le_dec 63 (Zpos (digits2_pos p))) as [Hlt|]; [|assumption].
    exfalso. assert (2 ^ 63 <= 2 ^ (Zpos (digits2_pos p) - 1)) by (apply Z.pow_le_mono_r; lia).
    lia. }
  unfold SpecFloat.emin, prec, emax. lia.
Qed.

Lemma of_count_nonneg (n : nat) : nonneg (of_count n).
Proof.
  destruct n as [|n]; [exact I|]. apply finpos_is_nonneg, of_count_finpos. lia.
Qed.

Lemma float_add_nonneg (x y : float) : nonneg x -> nonneg y -> nonneg (x + y).
Proof.
  unfold nonneg. rewrite FloatAxioms.add_spec. unfold SF64add.
  destruct (Prim2SF x) as [[]|[]| |[] mx ex]; destruct (Prim2SF y) as [[]|[]| |[] my ey];
    try (simpl; tauto).
  intros _ _. cbn [SFadd cond_Zopp].
  generalize (fst (shl_align mx ex (Z.min ex ey))) (fst (shl_align my ey (Z.min ex ey))).
  intros a b. change (Zpos a + Zpos b) with (Zpos (a + b)). cbn [binary_normalize].
  apply binary_round_nonneg.
Qed.

Lemma float_mul_nonneg (x y : float) : finpos x -> nonneg y -> nonneg (x * y).
Proof.
  unfold nonneg, finpos. rewrite FloatAxioms.mul_spec. unfold SF64mul.
  destruct (Prim2SF x) as [[]|[]| |[] mx ex]; destruct (Prim2SF y) as [[]|[]| |[] my ey];
    try (simpl; tauto).
  intros _ _. cbn [SFmul xorb]. apply binary_round_aux_nonneg. lia.
Qed.

Lemma float_mul_nonneg_r (x y : float) : nonneg x -> finpos y -> nonneg (x * y).
Proof.
  unfold nonneg, finpos. rewrite FloatAxioms.mul_spec. unfold SF64mul.
  destruct (Prim2SF x) as [[]|[]| |[] mx ex]; destruct (Prim2SF y) as [[]|[]| |[] my ey];
    try (simpl; tauto).
  intros _ _. cbn [SFmul xorb]. apply binary_round_aux_nonneg. lia.
Qed.

Lemma float_div_nonneg (x y : float) :
  (Prim2SF x = S754_zero false \/ finpos x) -> finpos y -> nonneg (x / y).
Proof.
  unfold nonneg, finpos. rewrite FloatAxioms.div_spec. unfold SF64div.
  destruct (Prim2SF x) as [[]|[]| |[] mx ex]; destruct (Prim2SF y) as [[]|[]| |[] my ey];
    try (simpl; tauto); try (simpl; intros [H|H]; (discriminate H || tauto)).
  intros _ _. cbn [SFdiv xorb]. unfold SFdiv_core_binary.
  set (m' := match _ with Z0 => Z.pos mx | Zpos _ => _ | Zneg _ => 0 end).
  assert (Hm' : 0 <= m').
  { unfold m'. destruct (_ - _)%Z; try lia. apply Z.shiftl_nonneg. lia. }
  pose proof (Z_div_mod m' (Zpos my) ltac:(lia)) as Hdm.
  destruct (Z.div_eucl m' (Z.pos my)) as [q r].
  apply binary_round_aux_nonneg. destruct Hdm as [Heq Hr]. nia.
Qed.

Lemma float_leb_0_nonneg (x : float) : nonneg x -> (0 <=? x)%float = true.
Proof.
  unfold nonneg. rewrite FloatAxioms.leb_spec.
  change (Prim2SF 0) with (S754_zero false).
  destruct (Prim2SF x) as [[]|[]| |[] mx ex]; simpl; tauto.
Qed.

Lemma SFcompare_finite_antisym (m1 m2 : positive) (e1 e2 : Z) :
  SFcompare (S754_finite false m1 e1) (S754_finite false m2 e2)
  = option_map CompOpp (SFcompare (S754_finite false m2 e2) (S754_finite false m1 e1)).
Proof.
  cbn [SFcompare option_map]. f_equal. rewrite (Z.compare_antisym e1 e2).
  destruct (e1 ?= e2); cbn [CompOpp]; try reflexivity.
  change (Pos.compare_cont Eq m1 m2) with (Pos.compare m1 m2).
  change (Pos.compare_cont Eq m2 m1) with (Pos.compare m2 m1).
  apply Pos.compare_antisym.
Qed.

Lemma float_min_1_range (x : float) :
  nonneg x -> (0 <=? float_min x 1)%float = true /\ (float_min x 1 <=? 1)%float = true.
Proof.
  intros Hx. unfold float_min. destruct (1 <? x)%float eqn:Hlt.
  - split; reflexivity.
  - split; [now apply float_leb_0_nonneg|].
    rewrite FloatAxioms.ltb_spec in Hlt. rewrite FloatAxioms.leb_spec. unfold nonneg in Hx.
    change (Prim2SF 1) with (S754_finite false 4503599627370496 (-52)) in *.
    destruct (Prim2SF x) as [[]|[]| |[] mx ex]; simpl in Hx; try tauto; try reflexivity.
    + discriminate Hlt.
    + unfold SFltb in Hlt. unfold SFleb.
      rewrite SFcompare_finite_antisym. cbn [SFcompare option_map] in *.
      destruct (match (-52 ?= ex) with Eq => _ | Lt => Lt | Gt => Gt end);
        cbn [CompOpp]; try reflexivity; discriminate.
Qed.

Lemma float_mul_comm (x y : float) : (x * y = y * x)%float.
Proof.
  apply Prim2SF_inj. rewrite !FloatAxioms.mul_spec. unfold SF64mul.
  destruct (Prim2SF x) as [[]|[]| |[] mx ex]; destruct (Prim2SF y) as [[]|[]| |[] my ey];
    try reflexivity; cbn [SFmul xorb]; rewrite (Pos.mul_comm mx my), (Z.add_comm ex ey);
    reflexivity.
Qed.

Ltac cmp_cases :=
  repeat match goal with
  | |- context [Pos.compare_cont Eq ?a ?b] =>
      change (Pos.compare_cont Eq a b) with (Pos.compare a b)
  | H : context [Pos.compare_cont Eq ?a ?b] |- _ =>
      change (Pos.compare_cont Eq a b) with (Pos.compare a b) in H
  end;
  repeat match goal with
  | H : context [Z.compare ?a ?b] |- _ => destruct (Z.compare_spec a b)
  | |- context [Z.compare ?a ?b] => destruct (Z.compare_spec a b)
  | H : context [Pos.compare ?a ?b] |- _ => destruct (Pos.compare_spec a b)
  | |- context [Pos.compare ?a ?b] => destruct (Pos.compare_spec a b)
  end.

Lemma SFleb_trans (x y z : spec_float) :
  SFleb x y = true -> SFleb y z = true -> SFleb x z = true.
Proof.
  unfold SFleb.
  destruct x as [[]|[]| |[] mx ex]; destruct y as [[]|[]| |[] my ey];
    destruct z as [[]|[]| |[] mz ez]; cbn [SFcompare];
    try (intros; reflexivity); try (intros; discriminate);
    intros H1 H2; cmp_cases; cbn [CompOpp] in *;
    try reflexivity; try discriminate; try lia.
Qed.

Lemma float_leb_trans (x y z : float) :
  (x <=? y)%float = true -> (y <=? z)%float = true -> (x <=? z)%float = true.
Proof. rewrite !FloatAxioms.leb_spec. apply SFleb_trans. Qed.

End Binary64Facts.

(** ** The section resolver *)

Section Resolver.

Import DocumentAnalyzer.

Lemma nonempty_true (s : string) : Str.nonempty s = true <-> s <> "".
Proof.
  unfold Str.nonempty. rewrite negb_true_iff.
  destruct (String.eqb_spec s ""); split; congruence.
Qed.

Lemma _is_valid_section_spec (c : CandidateSection) (seen : gset string)
    (kept_titles : list string) :
  (forall t, t ∈ seen <-> t ∈ kept_titles) ->
  _is_valid_section c seen = true <->
  section_title c <> "" /\ (3 < String.length (section_title c))%nat
  /\ section_title c ∉ kept_titles.
Proof.
  intros Hseen. unfold _is_valid_section.
  rewrite !andb_true_iff, nonempty_true, negb_true_iff, Nat.ltb_lt.
  rewrite bool_decide_eq_false, Hseen. tauto.
Qed.

(** The loop computes the specification's kept list, each entry with the
    identifier built from its index. *)
Lemma process_loop_kept (filename : string) (cands : list CandidateSection) :
  forall (i : nat) (acc : list UniqueSection) (seen : gset string)
         (kept_titles : list string),
    (forall t, t ∈ seen <-> t ∈ kept_titles) ->
    process_loop filename i cands acc seen
    = (acc ++ map (Spec.resolved filename) (Spec.kept_from i cands kept_titles))%list.
Proof.
  induction cands as [|c rest IH]; intros i acc seen kt Hseen; simpl.
  - by rewrite app_nil_r.
  - destruct (_is_valid_section c seen) eqn:Hv.
    + apply (_is_valid_section_spec _ _ _ Hseen) in Hv.
      rewrite decide_True by done.
      rewrite (IH (S i) _ _ (section_title c :: kt)).
      * by rewrite <- app_assoc.
      * intros t. rewrite elem_of_union, elem_of_singleton, elem_of_cons, Hseen.
        tauto.
    + rewrite decide_False.
      * by apply IH.
      * intros Hk. apply (_is_valid_section_spec _ _ _ Hseen) in Hk. congruence.
Qed.

Lemma kept_from_elem (cands : list CandidateSection) :
  forall (i : nat) (kept_titles : list string) (j : nat) (c : CandidateSection),
    (j, c) ∈ Spec.kept_from i cands kept_titles ->
    (i <= j)%nat /\ cands !! (j - i)%nat = Some c
    /\ section_title c <> "" /\ (3 < String.length (section_title c))%nat
    /\ section_title c ∉ kept_titles.
Proof.
  induction cands as [|c0 rest IH]; intros i kt j c Hin; simpl in Hin.
  - by apply elem_of_nil in Hin.
  - assert (Hrest : forall kt', (j, c) ∈ Spec.kept_from (S i) rest kt' ->
              (i <= j)%nat /\ (c0 :: rest) !! (j - i)%nat = Some c
              /\ section_title c <> "" /\ (3 < String.length (section_title c))%nat
              /\ section_title c ∉ kt').
    { intros kt' H. destruct (IH _ _ _ _ H) as (Hle & Hl & H1 & H2 & H3).
      split; [lia|]. split; [|done].
      replace (j - i)%nat with (S (j - S i)) by lia. done. }
    destruct (decide _) as [(H1 & H2 & H3)|Hno].
    + apply elem_of_cons in Hin as [Heq|Hin].
      * inversion Heq; subst. rewrite Nat.sub_diag. simpl. done.
      * destruct (Hrest _ Hin) as (? & ? & ? & ? & Hn).
        repeat split; try done. intros Hk. apply Hn. by right.
    + by apply Hrest.
Qed.

(** Indices grow strictly along the kept list. *)
Lemma kept_from_sorted (cands : list CandidateSection) :
  forall (i : nat) (kept_titles : list string),
    StronglySorted (fun a b => (a.1 < b.1)%nat) (Spec.kept_from i cands kept_titles).
Proof.
  induction cands as [|c0 rest IH]; intros i kt; simpl.
  - constructor.
  - destruct (decide _); [|apply IH].
    apply StronglySorted_cons. split; [|apply IH].
    apply Forall_forall. intros [j c] Hin. simpl.
    apply kept_from_elem in Hin. lia.
Qed.

(** No kept title repeats, and none was kept before. *)
Lemma kept_from_titles (cands : list CandidateSection) :
  forall (i : nat) (kept_titles : list string),
    NoDup (map (fun e => section_title e.2) (Spec.kept_from i cands kept_titles)).
Proof.
  induction cands as [|c0 rest IH]; intros i kt; simpl.
  - constructor.
  - destruct (decide _); [|apply IH].
    simpl. constructor; [|apply IH].
    intros Hin. apply list_elem_of_fmap in Hin as ([j c] & Heq & Hin).
    apply kept_from_elem in Hin. simpl in Heq.
    destruct Hin as (_ & _ & _ & _ & Hn). apply Hn. rewrite Heq. by left.
Qed.

(** A valid title that is not kept at some index was kept at an earlier one. *)
Lemma kept_from_covers (cands : list CandidateSection) :
  forall (i : nat) (kept_titles : list string) (k : nat) (c : CandidateSection),
    cands !! k = Some c ->
    section_title c <> "" -> (3 < String.length (section_title c))%nat ->
    section_title c ∈ kept_titles
    \/ exists j c', (j, c') ∈ Spec.kept_from i cands kept_titles
                    /\ (j <= i + k)%nat /\ section_title c' = section_title c.
Proof.
  induction cands as [|c0 rest IH]; intros i kt k c Hk Hne Hlen; [done|].
  simpl. destruct k as [|k]; simpl in Hk.
  - inversion Hk; subst c0.
    destruct (decide _) as [|Hno].
    + right. exists i, c. split; [by left|]. split; [lia|done].
    + left. destruct (decide (section_title c ∈ kt)); [done|]. tauto.
  - destruct (decide _) as [|Hno].
    + destruct (IH (S i) (section_title c0 :: kt) k c Hk Hne Hlen)
        as [Hin|(j & c' & Hin & Hle & Heq)].
      * apply elem_of_cons in Hin as [Heq|Hin]; [|by left].
        right. exists i, c0. split; [by left|]. split; [lia|done].
      * right. exists j, c'. split; [by right|]. split; [lia|done].
    + destruct (IH (S i) kt k c Hk Hne Hlen) as [Hin|(j & c' & Hin & Hle & Heq)].
      * by left.
      * right. exists j, c'. split; [done|]. split; [lia|done].
Qed.

Lemma kept_elem (cands : list CandidateSection) (j : nat) (c : CandidateSection) :
  (j, c) ∈ Spec.kept cands ->
  cands !! j = Some c /\ section_title c <> ""
  /\ (3 < String.length (section_title c))%nat.
Proof.
  intros Hin. apply kept_from_elem in Hin. rewrite Nat.sub_0_r in Hin. tauto.
Qed.

(** The kept entry of a title is the first candidate that carries it. *)
Lemma kept_first_occurrence (cands : list CandidateSection)
    (j : nat) (c : CandidateSection) :
  (j, c) ∈ Spec.kept cands ->
  forall (j' : nat) (c' : CandidateSection),
    (j' < j)%nat -> cands !! j' = Some c' -> section_title c' <> section_title c.
Proof.
  intros Hin j' c' Hlt Hl Heq.
  destruct (kept_elem _ _ _ Hin) as (_ & Hne & Hlen).
  rewrite <- Heq in Hne, Hlen.
  destruct (kept_from_covers cands 0 [] j' c' Hl Hne Hlen)
    as [Hnil|(j0 & c0 & Hin0 & Hle & Heq0)].
  { by apply elem_of_nil in Hnil. }
  fold (Spec.kept cands) in Hin0.
  pose proof (kept_from_titles cands 0 []) as Hnd.
  fold (Spec.kept cands) in Hnd.
  apply list_elem_of_lookup in Hin as [a Ha].
  apply list_elem_of_lookup in Hin0 as [b Hb].
  assert (a = b).
  { eapply (NoDup_lookup _ a b (section_title c)) in Hnd; [done| |].
    - by rewrite list_lookup_fmap, Ha.
    - rewrite list_lookup_fmap, Hb. simpl. congruence. }
  subst b. rewrite Ha in Hb. inversion Hb; subst. simpl in Hle. lia.
Qed.

End Resolver.

Section ResolverClaims.

Import DocumentAnalyzer.

Lemma kept_iff (cands : list CandidateSection) (j : nat) (c : CandidateSection) :
  (j, c) ∈ Spec.kept cands <->
  cands !! j = Some c /\ section_title c <> ""
  /\ (3 < String.length (section_title c))%nat
  /\ forall (j' : nat) (c' : CandidateSection),
       (j', c') ∈ Spec.kept cands -> (j' < j)%nat ->
       section_title c' <> section_title c.
Proof.
  split.
  - intros Hin. destruct (kept_elem _ _ _ Hin) as (Hl & Hne & Hlen).
    repeat split; try done. intros j' c' Hin' Hlt.
    apply (kept_first_occurrence _ _ _ Hin j' c' Hlt).
    apply kept_elem in Hin'. tauto.
  - intros (Hl & Hne & Hlen & Hfirst).
    destruct (kept_from_covers cands 0 [] j c Hl Hne Hlen)
      as [Hnil|(j0 & c0 & Hin0 & Hle & Heq0)].
    { by apply elem_of_nil in Hnil. }
    fold (Spec.kept cands) in Hin0. simpl in Hle.
    destruct (decide (j0 = j)) as [->|Hneq].
    + apply kept_elem in Hin0 as Hk. destruct Hk as (Hl0 & _).
      rewrite Hl in Hl0. by inversion Hl0; subst.
    + exfalso. apply (Hfirst j0 c0 Hin0); [lia|done].
Qed.

Lemma process_detected_sections_kept (cands : list CandidateSection)
    (filename : string) :
  _process_detected_sections cands filename
  = map (Spec.resolved filename) (take max_sections (Spec.kept cands)).
Proof.
  unfold _process_detected_sections.
  rewrite (process_loop_kept filename cands 0 [] ∅ []).
  - simpl. by rewrite fmap_take.
  - intros t. set_solver.
Qed.

Lemma take_elem_of {A} (n : nat) (l : list A) (x : A) : x ∈ take n l -> x ∈ l.
Proof.
  intros H. rewrite <- (take_drop n l). apply elem_of_app. by left.
Qed.

Lemma sorted_lt_NoDup (l : list nat) : StronglySorted lt l -> NoDup l.
Proof.
  induction 1 as [|i l Hl IH Hall]; constructor; [|done].
  intros Hin. rewrite Forall_forall in Hall. specialize (Hall _ Hin). lia.
Qed.

Lemma section_id_inj (filename : string) (i j : nat) :
  filename ++ "_section_" ++ pretty (i + 1)%nat
  = filename ++ "_section_" ++ pretty (j + 1)%nat -> i = j.
Proof.
  intros H. apply (inj (String.app filename)) in H.
  apply (inj (String.app "_section_")) in H.
  apply (inj pretty) in H. lia.
Qed.

(** C4.  Each section of the resolver's output carries the identifier
    [filename ++ "_section_" ++ (i+1)], where [i] is the position of its
    candidate in the whole candidate list given to the resolver, before any
    filtering; the positions grow strictly along the output, so the numeric
    suffixes strictly increase and the identifiers are pairwise distinct.
    [_detect_sections] gives the resolver the header candidates, then the
    paragraph candidates, then the list candidates. *)
Theorem section_ids_follow_candidate_indices :
  forall (cands : list CandidateSection) (filename : string),
    (exists idxs : list nat,
       Forall2 (fun (u : UniqueSection) (i : nat) =>
                  cands !! i = Some (candidate u)
                  /\ section_id u = filename ++ "_section_" ++ pretty (i + 1)%nat)
               (_process_detected_sections cands filename) idxs
       /\ StronglySorted lt idxs)
    /\ NoDup (map section_id (_process_detected_sections cands filename))
    /\ forall (text : string) (pages : list Page),
         _detect_sections text filename pages
         = _process_detected_sections
             (_detect_by_headers text pages ++ _detect_by_paragraphs text pages
              ++ _detect_by_lines text pages)%list filename.
Proof.
  intros cands filename. rewrite process_detected_sections_kept.
  pose proof (kept_from_sorted cands 0 []) as Hs. fold (Spec.kept cands) in Hs.
  assert (Hst : StronglySorted lt (map fst (take max_sections (Spec.kept cands)))).
  { rewrite <- (take_drop max_sections (Spec.kept cands)) in Hs.
    apply StronglySorted_app_1_l in Hs.
    induction Hs as [|e l Hl IH Hall]; simpl; constructor; [done|].
    apply Forall_fmap. eapply Forall_impl; [exact Hall|]. by intros []. }
  split; [|split].
  - exists (map fst (take max_sections (Spec.kept cands))). split; [|done].
    apply Forall2_fmap, Forall_Forall2_diag, Forall_forall.
    intros [j c] Hin. apply take_elem_of, kept_elem in Hin. simpl. tauto.
  - rewrite <- list_fmap_compose. apply NoDup_fmap_2_strong.
    + intros [i c] [j d] Hi Hj Heq. simpl in Heq.
      apply section_id_inj in Heq. subst j.
      apply take_elem_of, kept_elem in Hi. apply take_elem_of, kept_elem in Hj.
      destruct Hi as (Hi & _), Hj as (Hj & _). congruence.
    + apply (NoDup_fmap_1 fst). by apply sorted_lt_NoDup.
  - intros text pages. unfold _detect_sections. simpl. by rewrite <- app_assoc.
Qed.

(** C5.  Scanning the candidates once in order, the resolver keeps a
    candidate exactly when its title is not empty, is longer than 3
    characters and differs from every title kept before; its output is the
    first 50 kept sections.  So no two output sections have the same title,
    the kept candidate of a title is the first candidate carrying it, and the
    output has at most 50 sections. *)
Theorem resolver_keeps_first_valid_titles :
  forall (cands : list CandidateSection) (filename : string),
    process_loop filename 0 cands [] ∅
    = map (Spec.resolved filename) (Spec.kept cands)
    /\ (forall (j : nat) (c : CandidateSection),
          (j, c) ∈ Spec.kept cands <->
          cands !! j = Some c /\ section_title c <> ""
          /\ (3 < String.length (section_title c))%nat
          /\ forall (j' : nat) (c' : CandidateSection),
               (j', c') ∈ Spec.kept cands -> (j' < j)%nat ->
               section_title c' <> section_title c)
    /\ _process_detected_sections cands filename
       = take 50 (process_loop filename 0 cands [] ∅)
    /\ NoDup (map (fun u : UniqueSection => section_title u)
                (_process_detected_sections cands filename))
    /\ (forall (j : nat) (c : CandidateSection),
          (j, c) ∈ Spec.kept cands ->
          forall (j' : nat) (c' : CandidateSection),
            (j' < j)%nat -> cands !! j' = Some c' ->
            section_title c' <> section_title c)
    /\ (length (_process_detected_sections cands filename) <= 50)%nat.
Proof.
  intros cands filename.
  assert (Hloop : process_loop filename 0 cands [] ∅
                  = map (Spec.resolved filename) (Spec.kept cands)).
  { rewrite (process_loop_kept filename cands 0 [] ∅ []); [done|].
    intros t. set_solver. }
  split; [exact Hloop|]. split; [apply kept_iff|]. split; [done|].
  split; [|split].
  - rewrite process_detected_sections_kept, <- list_fmap_compose.
    pose proof (kept_from_titles cands 0 []) as Hnd.
    fold (Spec.kept cands) in Hnd.
    rewrite <- (take_drop max_sections (Spec.kept cands)), fmap_app in Hnd.
    by apply NoDup_app in Hnd as (Hnd & _).
  - apply kept_first_occurrence.
  - unfold _process_detected_sections. rewrite length_take. unfold max_sections. lia.
Qed.

Lemma elem_of_concat {A} (x : A) (ls : list (list A)) :
  x ∈ concat ls <-> exists l, l ∈ ls /\ x ∈ l.
Proof.
  rewrite list_elem_of_In, in_concat. split; intros (l & H1 & H2); exists l;
    by rewrite ?list_elem_of_In in *.
Qed.

(** The candidates of each detector carry the detector's method string. *)
Lemma detected_methods (text : string) (pages : list Page) :
  Forall (fun c => detection_method c = "header") (_detect_by_headers text pages)
  /\ Forall (fun c => detection_method c = "paragraph")
            (_detect_by_paragraphs text pages)
  /\ Forall (fun c => detection_method c = "list") (_detect_by_lines text pages).
Proof.
  split; [|split]; apply Forall_forall; intros c Hin;
    apply elem_of_concat in Hin as (l & Hl & Hc);
    apply list_elem_of_fmap in Hl as (pg & -> & _).
  - apply list_elem_of_omap in Hc as (line & _ & Hc). cbv beta zeta in Hc.
    destruct (negb _); [done|].
    destruct (_match_header_patterns _ _); [|done].
    unfold _create_header_section in Hc.
    destruct (Str.nonempty _); by inversion Hc.
  - apply list_elem_of_fmap in Hc as (par & -> & _). done.
  - apply list_elem_of_omap in Hc as ([i line] & _ & Hc). cbv beta zeta in Hc.
    destruct (_is_list_item _); [|done].
    unfold _create_list_section in Hc.
    destruct (_ <? _)%nat; by inversion Hc.
Qed.

Lemma _calculate_confidence_bounds (c : CandidateSection) :
  detection_method c ∈ ["header"; "paragraph"; "list"] ->
  (0.6 <=? _calculate_confidence c)%float = true
  /\ (_calculate_confidence c <=? 1)%float = true.
Proof.
  intros Hm. unfold _calculate_confidence, _get_method_score,
    _get_content_quality_score, _get_base_confidence_score.
  repeat (apply elem_of_cons in Hm as [->|Hm]); [| | |by apply elem_of_nil in Hm];
    destruct (100 <? _)%nat, (10 <? _)%nat; by vm_compute.
Qed.

Lemma process_detected_sections_confidence (cands : list CandidateSection)
    (filename : string) :
  Forall (fun c => detection_method c ∈ ["header"; "paragraph"; "list"]) cands ->
  Forall (fun u : UniqueSection =>
            (0.6 <=? confidence_score u)%float = true
            /\ (confidence_score u <=? 1)%float = true)
         (_process_detected_sections cands filename).
Proof.
  intros Hall. rewrite process_detected_sections_kept.
  apply Forall_fmap, Forall_forall. intros [j c] Hin. simpl.
  apply _calculate_confidence_bounds.
  apply take_elem_of, kept_elem in Hin as (Hl & _).
  rewrite Forall_forall in Hall. apply Hall. by eapply list_elem_of_lookup_2.
Qed.

(** C10.  Every section that section detection returns for a document has a
    confidence score between 0.6 and 1.0: the candidates given to the
    resolver come from the three detectors, whose method weights are at
    least 0.1 on top of the base score 0.5, and the sum is capped at 1.0. *)
Theorem detected_sections_confidence_range :
  forall (text filename : string) (pages : list Page),
    Forall (fun u : UniqueSection =>
              detection_method u ∈ ["header"; "paragraph"; "list"]
              /\ (0.6 <=? confidence_score u)%float = true
              /\ (confidence_score u <=? 1)%float = true)
           (_detect_sections text filename pages).
Proof.
  intros text filename pages.
  destruct (detected_methods text pages) as (Hh & Hp & Hl).
  assert (Hall : Forall (fun c => detection_method c ∈ ["header"; "paragraph"; "list"])
                   (_detect_by_headers text pages ++ _detect_by_paragraphs text pages
                    ++ _detect_by_lines text pages)%list).
  { rewrite !Forall_app. repeat split;
      (eapply Forall_impl; [eassumption|]); intros c ->; set_solver. }
  unfold _detect_sections. simpl. rewrite <- app_assoc.
  pose proof (process_detected_sections_confidence _ filename Hall) as Hc.
  rewrite process_detected_sections_kept in Hc |- *.
  apply Forall_fmap, Forall_forall. intros [j c] Hin. simpl. split.
  - apply take_elem_of, kept_elem in Hin as (Hlk & _).
    rewrite Forall_forall in Hall. apply Hall. by eapply list_elem_of_lookup_2.
  - rewrite Forall_fmap, Forall_forall in Hc. apply (Hc _ Hin).
Qed.

End ResolverClaims.

(** ** Relevance and alignment scores *)

Section Scores.

Import DocumentAnalyzer PersonaProcessor.

Lemma sum_ones_filter {A} (p : A -> bool) (P : A -> Prop)
    `{forall x, Decision (P x)} (l : list A) :
  (forall x, p x = true <-> P x) ->
  sum_ones p l = length (filter P l).
Proof.
  intros Hp. unfold sum_ones.
  assert (Hgen : forall acc : nat,
            fold_left (fun acc x => if p x then (acc + 1)%nat else acc) l acc
            = (acc + length (filter P l))%nat).
  { induction l as [|x l IH]; intros acc; simpl; [lia|].
    rewrite IH. destruct (p x) eqn:Hx.
    - rewrite filter_cons_True by (by apply Hp). simpl. lia.
    - rewrite filter_cons_False; [done|].
      intros HP. apply Hp in HP. congruence. }
  by rewrite Hgen.
Qed.

Lemma in_list_true (x : string) (l : list string) :
  in_list x l = true <-> x ∈ l.
Proof.
  unfold in_list. rewrite existsb_exists, list_elem_of_In. split.
  - intros (y & Hy & Heq). apply String.eqb_eq in Heq. by subst.
  - intros Hin. exists x. split; [done|]. apply String.eqb_refl.
Qed.

Lemma py_min_Qmin (a b : Q) : (py_min a b == Qmin a b)%Q.
Proof.
  unfold py_min. destruct (Qle_bool a b) eqn:Hle.
  - apply Qle_bool_iff in Hle. by rewrite Q.min_l.
  - rewrite Q.min_r; [reflexivity|].
    destruct (Qlt_le_dec b a) as [Hlt|Hge].
    + by apply Qlt_le_weak.
    + apply Qle_bool_iff in Hge. congruence.
Qed.

(** C1.  The relevance score of a text is 0.0 when the lowercased text has
    no word token, and otherwise min(10 * (0.4 rr + 0.3 tr + 0.3 dr), 1.0),
    where rr and tr are the shares of tokens found in the keyword list of
    the role category and of the job category, and dr is the share of tokens
    longer than 3 characters that are tokens of the lowercased job
    description; the arithmetic is binary64, in this order.  A section is
    scored on its content, a space and its title.  For content "research
    study", empty title, role researcher, job review and job description
    "review study": 2 tokens, rr = 1.0, tr = 0.0, dr = 0.5, score 1.0. *)
Theorem relevance_score_formula :
  (forall text role_category task_category task_description : string,
     let toks := Str.findall_words (Str.lower text) in
     let role_relevance :=
       Spec.fraction (fun t => t ∈ dict_get role_terms role_category []) toks in
     let task_relevance :=
       Spec.fraction (fun t => t ∈ dict_get task_terms task_category []) toks in
     let direct_relevance :=
       Spec.fraction
         (fun t => (3 < String.length t)%nat
                   /\ t ∈ Str.findall_words (Str.lower task_description)) toks in
     _compute_relevance_score text role_category task_category task_description
     = if decide (length toks = 0%nat) then 0%float
       else float_min (10 * (0.4 * role_relevance + 0.3 * task_relevance
                             + 0.3 * direct_relevance))%float 1%float)
  /\ (forall (s : UniqueSection) (role task role_description task_description : string),
        persona_relevance_score
          (_augment_section_with_role_context s role task role_description
             task_description)
        = _compute_relevance_score (content s ++ " " ++ section_title s)
            role task task_description)
  /\ (let text := "research study" ++ " " ++ "" in
      let toks := Str.findall_words (Str.lower text) in
      length toks = 2%nat
      /\ Spec.fraction (fun t => t ∈ dict_get role_terms "researcher" []) toks
         = 1%float
      /\ Spec.fraction (fun t => t ∈ dict_get task_terms "review" []) toks
         = 0%float
      /\ Spec.fraction
           (fun t => (3 < String.length t)%nat
                     /\ t ∈ Str.findall_words (Str.lower "review study")) toks
         = 0.5%float
      /\ _compute_relevance_score text "researcher" "review" "review study"
         = 1%float).
Proof.
  split; [|split].
  - intros text role task desc toks rr tr dr.
    unfold _compute_relevance_score. fold toks.
    destruct (length toks =? 0)%nat eqn:Hn.
    + apply Nat.eqb_eq in Hn. by rewrite decide_True.
    + apply Nat.eqb_neq in Hn. rewrite decide_False by done.
      rewrite float_mul_comm. unfold count_div.
      rewrite (sum_ones_filter _ (fun t => t ∈ dict_get role_terms role []))
        by (intros t; apply in_list_true).
      rewrite (sum_ones_filter _ (fun t => t ∈ dict_get task_terms task []))
        by (intros t; apply in_list_true).
      rewrite (sum_ones_filter _
                 (fun t => (3 < String.length t)%nat
                           /\ t ∈ Str.findall_words (Str.lower desc))).
      * reflexivity.
      * intros t. rewrite andb_true_iff, bool_decide_eq_true,
          elem_of_list_to_set, Nat.ltb_lt. tauto.
  - reflexivity.
  - vm_compute. repeat split; reflexivity.
Qed.

(** In binary64 the score is not always the decimal value of the formula:
    among 32 tokens, 3 keywords of the role and 2 tokens of the job
    description give 0.5625000000000001, above 9/16, and among 35 tokens, 2
    keywords of the job category and 5 tokens of the job description give
    0.5999999999999999, below the constant 0.6 of the priority rule. *)
Example relevance_score_rounding :
  ((0.4 * count_div 3 32 + 0.3 * count_div 0 32 + 0.3 * count_div 2 32) * 10
   = 0.5625 + 0x1p-53)%float
  /\ ((0.4 * count_div 0 35 + 0.3 * count_div 2 35 + 0.3 * count_div 5 35) * 10
      = 0.6 - 0x1p-53)%float
  /\ (0.6 - 0x1p-53 <? 0.6)%float = true.
Proof. by vm_compute. Qed.

Lemma ratio_nonneg (m n : nat) :
  (0 < n)%nat -> (0 <= inject_Z (Z.of_nat m) / inject_Z (Z.of_nat n))%Q.
Proof.
  intros Hn. apply Qle_shift_div_l.
  - replace 0%Q with (inject_Z 0) by reflexivity. rewrite <- Zlt_Qlt. lia.
  - rewrite Qmult_0_l. replace 0%Q with (inject_Z 0) by reflexivity.
    rewrite <- Zle_Qle. lia.
Qed.

(** C2.  The job alignment score of a text is 0 when the job description
    has no token of length at least 4, and otherwise the number of such
    tokens that also occur among those of the text, divided by the number of
    such tokens of the job description, capped at 1; the tokens are taken
    from the lowercased strings and counted as sets.  The score lies in
    [0, 1].  A section is scored on its content, a space and its title.  For
    the text "research study " and the job description "review study" the
    score is 0.5. *)
Theorem task_alignment_formula :
  (forall text task_description : string,
     let task_keywords := Spec.long_tokens task_description in
     let content_keywords := Spec.long_tokens text in
     let score := _compute_task_alignment_score text task_description in
     (score == if decide (task_keywords = ∅) then 0
               else Qmin (inject_Z (Z.of_nat (size (task_keywords ∩ content_keywords)))
                          / inject_Z (Z.of_nat (size task_keywords))) 1)%Q
     /\ (0 <= score <= 1)%Q)
  /\ (forall (s : UniqueSection) (role task role_description task_description : string),
        job_alignment_score
          (_augment_section_with_role_context s role task role_description
             task_description)
        = _compute_task_alignment_score (content s ++ " " ++ section_title s)
            task_description)
  /\ (Spec.long_tokens "review study" = {[ "review"; "study" ]}
      /\ Spec.long_tokens "research study " = {[ "research"; "study" ]}
      /\ size (Spec.long_tokens "review study" ∩ Spec.long_tokens "research study ")
         = 1%nat
      /\ (_compute_task_alignment_score "research study " "review study" == 0.5)%Q).
Proof.
  split; [|split].
  - intros text desc tk ck score.
    assert (Hscore : (score == if decide (tk = ∅) then 0
                      else Qmin (inject_Z (Z.of_nat (size (tk ∩ ck)))
                                 / inject_Z (Z.of_nat (size tk))) 1)%Q).
    { unfold score, _compute_task_alignment_score.
      change (list_to_set (Str.findall_words4 (Str.lower desc))) with tk.
      change (list_to_set (Str.findall_words4 (Str.lower text))) with ck.
      destruct (decide (tk = ∅)) as [He|Hne].
      - rewrite bool_decide_eq_true_2 by done. reflexivity.
      - rewrite bool_decide_eq_false_2 by done. apply py_min_Qmin. }
    split; [exact Hscore|]. rewrite Hscore.
    destruct (decide (tk = ∅)) as [He|Hne]; [split; discriminate|].
    split.
    + apply Q.min_glb; [|discriminate].
      apply ratio_nonneg.
      assert (size tk <> 0%nat) by (by rewrite size_empty_iff, leibniz_equiv_iff).
      lia.
    + apply Q.le_min_r.
  - reflexivity.
  - repeat split; by vm_compute.
Qed.

End Scores.

(** ** Role classification *)

Section Classifier.

Import DocumentAnalyzer PersonaProcessor.

Lemma max_loop_invariant (l : list (string * nat)) :
  forall (pre mid : list (string * nat)) (best : string) (bv : nat),
    Forall (fun e => (e.2 < bv)%nat) pre ->
    Forall (fun e => (e.2 <= bv)%nat) mid ->
    exists v, first_max (pre ++ (best, bv) :: mid ++ l)%list (max_loop best bv l) v.
Proof.
  induction l as [|[k v'] rest IH]; intros pre mid best bv Hpre Hmid; simpl.
  - exists bv, pre, mid. by rewrite app_nil_r.
  - destruct (bv <? v')%nat eqn:Hlt.
    + apply Nat.ltb_lt in Hlt.
      destruct (IH (pre ++ (best, bv) :: mid)%list [] k v') as (v & Hv).
      * rewrite Forall_app, Forall_cons. repeat split.
        -- eapply Forall_impl; [exact Hpre|]. simpl. lia.
        -- simpl. lia.
        -- eapply Forall_impl; [exact Hmid|]. simpl. lia.
      * constructor.
      * exists v. simpl in Hv. by rewrite <- app_assoc in Hv.
    + apply Nat.ltb_ge in Hlt.
      destruct (IH pre (mid ++ [(k, v')])%list best bv Hpre) as (v & Hv).
      * rewrite Forall_app, Forall_singleton. done.
      * exists v. by rewrite <- app_assoc in Hv.
Qed.

Lemma max_loop_first_max (k : string) (v0 : nat) (l : list (string * nat)) :
  exists v, first_max ((k, v0) :: l) (max_loop k v0 l) v.
Proof. apply (max_loop_invariant l [] [] k v0); constructor. Qed.

Lemma filter_split {A} (p : A -> bool) (L : list A) :
  forall (x : A) (L1' L2' : list A),
    List.filter p L = (L1' ++ x :: L2')%list ->
    exists L1 L2 : list A,
      L = (L1 ++ x :: L2)%list /\ List.filter p L1 = L1' /\ List.filter p L2 = L2'.
Proof.
  induction L as [|a L IH]; intros x L1' L2' Hf; simpl in Hf.
  - by destruct L1'.
  - destruct (p a) eqn:Hp.
    + destruct L1' as [|b L1']; simpl in Hf; injection Hf as Ha Hf.
      * subst. by exists [], L.
      * destruct (IH _ _ _ Hf) as (L1 & L2 & -> & HL1 & HL2).
        exists (a :: L1), L2. simpl. rewrite Hp. by subst.
    + destruct (IH _ _ _ Hf) as (L1 & L2 & -> & HL1 & HL2).
      exists (a :: L1), L2. simpl. by rewrite Hp.
Qed.

Lemma dict_get_NoDup {V} (d : list (string * V)) (k : string) (v def : V) :
  NoDup (map fst d) -> (k, v) ∈ d -> dict_get d k def = v.
Proof.
  induction d as [|[k' v'] d IH]; intros Hnd Hin; [by apply elem_of_nil in Hin|].
  simpl in *. apply NoDup_cons in Hnd as (Hk' & Hnd).
  apply elem_of_cons in Hin as [Heq|Hin].
  - inversion Heq; subst. by rewrite String.eqb_refl.
  - destruct (String.eqb_spec k' k) as [->|Hne]; [|by apply IH].
    exfalso. apply Hk'. apply list_elem_of_fmap. by exists (k, v).
Qed.

Lemma scored_values (terms : list (string * list string)) (text : string)
    (e : string * nat) :
  NoDup (map fst terms) -> e ∈ scored terms text ->
  e.1 ∈ map fst terms /\ e.2 = keyword_count terms e.1 text.
Proof.
  intros Hnd Hin. unfold scored in Hin.
  apply list_elem_of_fmap in Hin as ([c kws] & -> & Hin). simpl. split.
  - apply list_elem_of_fmap. by exists (c, kws).
  - unfold keyword_count. rewrite (dict_get_NoDup _ _ kws) by done.
    apply sum_ones_filter. intros kw. apply contains_occurs.
Qed.

Lemma scored_keys (terms : list (string * list string)) (text : string) :
  map fst (scored terms text) = map fst terms.
Proof.
  unfold scored. rewrite map_map. apply map_ext. by intros [].
Qed.

Lemma keyword_scores_scored (terms : list (string * list string)) (text : string) :
  keyword_scores terms text
  = List.filter (fun e => (0 <? e.2)%nat) (scored terms text).
Proof.
  unfold keyword_scores, scored. apply List.filter_ext. by intros [].
Qed.

Lemma classify_by_scores (terms : list (string * list string)) (text : string)
    (k : string) (v : nat) (rest : list (string * nat)) :
  NoDup (map fst terms) ->
  keyword_scores terms text = (k, v) :: rest ->
  let r := max_loop k v rest in
  (0 < keyword_count terms r text)%nat
  /\ exists before after : list string,
       map fst terms = (before ++ r :: after)%list
       /\ (forall c, c ∈ before ->
             (keyword_count terms c text < keyword_count terms r text)%nat)
       /\ (forall c, c ∈ after ->
             (keyword_count terms c text <= keyword_count terms r text)%nat).
Proof.
  intros Hnd Hks r.
  destruct (max_loop_first_max k v rest) as (vmax & L1' & L2' & Hsplit & Hlt & Hle).
  fold r in Hsplit. rewrite <- Hks, keyword_scores_scored in Hsplit.
  destruct (filter_split _ _ _ _ _ Hsplit) as (L1 & L2 & Hsc & HL1 & HL2).
  assert (Hin : forall e, e ∈ (L1 ++ (r, vmax) :: L2)%list ->
                          e.2 = keyword_count terms e.1 text).
  { intros e He. rewrite <- Hsc in He.
    by destruct (scored_values terms text e Hnd He). }
  assert (Hpos : (0 < vmax)%nat).
  { assert (Hm : In (r, vmax)
                   (List.filter (fun e => (0 <? e.2)%nat) (scored terms text))).
    { rewrite Hsplit. apply in_or_app. right. by left. }
    apply filter_In in Hm as (_ & Hm). by apply Nat.ltb_lt in Hm. }
  assert (Hr : vmax = keyword_count terms r text).
  { apply (Hin (r, vmax)). apply elem_of_app. right. by left. }
  split; [by rewrite <- Hr|].
  exists (map fst L1), (map fst L2). split; [|split].
  - by rewrite <- (scored_keys terms text), Hsc, map_app.
  - intros c Hc. apply list_elem_of_fmap in Hc as (e & -> & He).
    rewrite <- Hr, <- (Hin e) by (apply elem_of_app; by left).
    destruct (0 <? e.2)%nat eqn:Hp.
    + rewrite Forall_forall in Hlt. apply Hlt. rewrite <- HL1.
      apply list_elem_of_In, filter_In. by rewrite <- list_elem_of_In.
    + apply Nat.ltb_ge in Hp. lia.
  - intros c Hc. apply list_elem_of_fmap in Hc as (e & -> & He).
    rewrite <- Hr, <- (Hin e) by (apply elem_of_app; right; by right).
    destruct (0 <? e.2)%nat eqn:Hp.
    + rewrite Forall_forall in Hle. apply Hle. rewrite <- HL2.
      apply list_elem_of_In, filter_In. by rewrite <- list_elem_of_In.
    + apply Nat.ltb_ge in Hp. lia.
Qed.

Lemma keyword_scores_nil (terms : list (string * list string)) (text : string) :
  NoDup (map fst terms) ->
  keyword_scores terms text = [] <->
  forall c, c ∈ map fst terms -> keyword_count terms c text = 0%nat.
Proof.
  intros Hnd. rewrite keyword_scores_scored. split.
  - intros Hnil c Hc. rewrite <- (scored_keys terms text) in Hc.
    apply list_elem_of_fmap in Hc as (e & -> & He).
    destruct (scored_values terms text e Hnd He) as (_ & <-).
    destruct (0 <? e.2)%nat eqn:Hp; [|apply Nat.ltb_ge in Hp; lia].
    assert (Hm : In e (List.filter (fun e => (0 <? e.2)%nat) (scored terms text)))
      by (apply filter_In; by rewrite <- list_elem_of_In).
    by rewrite Hnil in Hm.
  - intros Hz. destruct (List.filter _ _) as [|e l] eqn:Hf; [done|].
    assert (Hm : In e (List.filter (fun e => (0 <? e.2)%nat) (scored terms text)))
      by (rewrite Hf; by left).
    apply filter_In in Hm as (Hm & Hp). apply Nat.ltb_lt in Hp.
    apply list_elem_of_In in Hm.
    destruct (scored_values terms text e Hnd Hm) as (Hk & Hv).
    specialize (Hz _ Hk). lia.
Qed.

Lemma any_in_true (terms : list string) (text : string) :
  any_in terms text = true <-> exists kw, kw ∈ terms /\ Spec.occurs_in kw text.
Proof.
  unfold any_in. rewrite existsb_exists.
  split; intros (kw & Hin & Hc); exists kw;
    by rewrite ?list_elem_of_In, ?contains_occurs in *.
Qed.

Lemma fallback_chain_spec (chain : list (string * list string)) (text : string) :
  let r := fallback_chain chain text in
  (exists before kws after,
      chain = (before ++ (r, kws) :: after)%list
      /\ (exists kw, kw ∈ kws /\ Spec.occurs_in kw text)
      /\ forall c ks kw, (c, ks) ∈ before -> kw ∈ ks -> ~ Spec.occurs_in kw text)
  \/ (r = "general"
      /\ forall c ks kw, (c, ks) ∈ chain -> kw ∈ ks -> ~ Spec.occurs_in kw text).
Proof.
  induction chain as [|[c0 ks0] chain IH]; simpl.
  - right. split; [done|]. intros c ks kw Hin. by apply elem_of_nil in Hin.
  - destruct (any_in ks0 text) eqn:Hany.
    + left. exists [], ks0, chain. split; [done|]. split.
      * by apply any_in_true.
      * intros c ks kw Hin. by apply elem_of_nil in Hin.
    + assert (Hno : forall kw, kw ∈ ks0 -> ~ Spec.occurs_in kw text).
      { intros kw Hkw Ho.
        assert (any_in ks0 text = true) by (apply any_in_true; eauto).
        congruence. }
      destruct IH as [(before & kws & after & Hch & Hhit & Hbef)|(Hgen & Hall)].
      * left. exists ((c0, ks0) :: before), kws, after.
        split; [simpl; by f_equal|].
        split; [done|]. intros c ks kw Hin Hkw.
        apply elem_of_cons in Hin as [Heq|Hin]; [|by eapply Hbef].
        inversion Heq; subst. by apply Hno.
      * right. split; [done|]. intros c ks kw Hin Hkw.
        apply elem_of_cons in Hin as [Heq|Hin]; [|by eapply Hall].
        inversion Heq; subst. by apply Hno.
Qed.

Lemma role_terms_keys : map fst role_terms = Spec.role_order.
Proof. reflexivity. Qed.

Lemma role_order_NoDup : NoDup Spec.role_order.
Proof. apply (bool_decide_unpack _). by vm_compute. Qed.

(** C6.  The role classifier counts, for each category, the keywords of
    the category that occur as substrings of the lowercased description.
    If some count is positive it returns a category of greatest count, the
    earliest one in the declared order (researcher, student, analyst,
    teacher, manager, entrepreneur).  If all counts are 0 it returns the
    first category, in that same order, one of whose fallback keywords
    occurs in the description, and "general" when there is none.  The
    description "I am a middle manager overseeing a product team" has count
    2 for manager and is classified manager by the counts. *)
Theorem role_classifier_spec :
  (forall role_description : string,
     let text := Str.lower role_description in
     let count := fun c => keyword_count role_terms c text in
     let result := _classify_user_role role_description in
     ((exists c, c ∈ Spec.role_order /\ (0 < count c)%nat) ->
      (0 < count result)%nat
      /\ exists before after : list string,
           Spec.role_order = (before ++ result :: after)%list
           /\ (forall c, c ∈ before -> (count c < count result)%nat)
           /\ (forall c, c ∈ after -> (count c <= count result)%nat))
     /\ ((forall c, c ∈ Spec.role_order -> count c = 0%nat) ->
         (exists before kws after,
             role_fallbacks = (before ++ (result, kws) :: after)%list
             /\ (exists kw, kw ∈ kws /\ Spec.occurs_in kw text)
             /\ forall c ks kw, (c, ks) ∈ before -> kw ∈ ks ->
                               ~ Spec.occurs_in kw text)
         \/ (result = "general"
             /\ forall c ks kw, (c, ks) ∈ role_fallbacks -> kw ∈ ks ->
                               ~ Spec.occurs_in kw text)))
  /\ map fst role_terms = Spec.role_order
  /\ map fst role_fallbacks = Spec.role_order
  /\ (let d := "I am a middle manager overseeing a product team" in
      _classify_user_role d = "manager"
      /\ keyword_count role_terms "manager" (Str.lower d) = 2%nat
      /\ keyword_scores role_terms (Str.lower d) = [("manager", 2%nat)]).
Proof.
  split; [|split; [done|split; [done|by vm_compute]]].
  intros role_description text count result.
  pose proof role_order_NoDup as Hnd. rewrite <- role_terms_keys in Hnd.
  destruct (keyword_scores_nil role_terms text Hnd) as [Hfwd Hbwd].
  unfold result, _classify_user_role. fold text.
  destruct (keyword_scores role_terms text) as [|[k v] rest] eqn:Hks.
  - split.
    + intros (c & Hc & Hpos). exfalso.
      specialize (Hfwd eq_refl c Hc). unfold count in Hpos. lia.
    + intros _. apply fallback_chain_spec.
  - split.
    + intros _. rewrite <- role_terms_keys.
      apply (classify_by_scores role_terms text k v rest Hnd Hks).
    + intros Hz. exfalso. by specialize (Hbwd Hz).
Qed.

End Classifier.

(** ** Content gathered after a header *)

Section HeaderContent.

Import DocumentAnalyzer.

Lemma extract_loop_found (header_line : string) (lines : list string) :
  forall content_lines : list string,
    extract_loop header_line lines true content_lines
    = (content_lines
       ++ map Str.strip (Spec.scanned header_line lines content_lines))%list.
Proof.
  induction lines as [|line rest IH]; intros acc; simpl.
  - by rewrite app_nil_r.
  - destruct (_is_header_line line header_line); [apply IH|].
    destruct (_should_stop_content_extraction line acc).
    + by rewrite app_nil_r.
    + rewrite IH. simpl. by rewrite <- app_assoc.
Qed.

Lemma extract_loop_not_found (header_line : string) (lines : list string) :
  extract_loop header_line lines false []
  = map Str.strip (Spec.scanned header_line (Spec.after_header header_line lines) []).
Proof.
  induction lines as [|line rest IH]; simpl; [done|].
  destruct (_is_header_line line header_line); [|apply IH].
  by rewrite extract_loop_found.
Qed.

(** What gathering computes.  A blank line never ends it, and it is
    gathered like any other scanned line: the content is the single-space
    join of the stripped text of every line scanned between the header line
    and the stop point, the empty text of a blank line included.  When no
    scanned line is blank this is the join of the non-empty stripped
    lines. *)
Lemma header_content_joins_all_scanned_lines :
  (forall (line : string) (content_lines : list string),
     Str.strip line = "" ->
     _should_stop_content_extraction line content_lines = false)
  /\ (forall page_text title : string,
        _extract_content_after_header page_text title
        = Str.join " " (map Str.strip (Spec.scanned_lines page_text title)))
  /\ (forall page_text title : string,
        Forall (fun line => Str.strip line <> "") (Spec.scanned_lines page_text title) ->
        _extract_content_after_header page_text title
        = Str.join " " (List.filter Str.nonempty
                          (map Str.strip (Spec.scanned_lines page_text title)))).
Proof.
  assert (Hall : forall page_text title : string,
            _extract_content_after_header page_text title
            = Str.join " " (map Str.strip (Spec.scanned_lines page_text title))).
  { intros page_text title. unfold _extract_content_after_header.
    by rewrite extract_loop_not_found. }
  split; [|split; [exact Hall|]].
  - intros line acc Hblank. unfold _should_stop_content_extraction.
    by rewrite Hblank.
  - intros page_text title Hnb. rewrite Hall. f_equal.
    induction Hnb as [|line l Hline Hl IH]; [done|].
    simpl. apply nonempty_true in Hline. rewrite Hline. by f_equal.
Qed.

(** C3 fails on the program.  The claim: the content of a header section is
    the single-space join of only the non-empty stripped lines scanned
    between the header line and the stop point.  On [blank_line_page], for
    the title "FINANCIAL OVERVIEW", the scanned lines are "A", a blank line
    and "B"; the program gathers the blank line too and returns "A  B", with
    two spaces, where the claim gives "A B". *)
Theorem header_content_keeps_blank_lines :
  Spec.scanned_lines blank_line_page "FINANCIAL OVERVIEW" = ["A"; ""; "B"]
  /\ _extract_content_after_header blank_line_page "FINANCIAL OVERVIEW" = "A  B"
  /\ Str.join " " (List.filter Str.nonempty
                     (map Str.strip
                        (Spec.scanned_lines blank_line_page "FINANCIAL OVERVIEW")))
     = "A B"
  /\ _extract_content_after_header blank_line_page "FINANCIAL OVERVIEW"
     <> Str.join " " (List.filter Str.nonempty
                        (map Str.strip
                           (Spec.scanned_lines blank_line_page "FINANCIAL OVERVIEW"))).
Proof. by vm_compute. Qed.

(** A consequence: a header followed by blank lines only, up to the next
    header, gets the content " " and is kept as a section, although no
    content line was gathered. *)
Example blank_content_section :
  _create_header_section "FIRST HEADER"
    ("FIRST HEADER" ++ Str.nl ++ Str.nl ++ Str.nl ++ "SECOND HEADER" ++ Str.nl ++ "body")
    1
  = Some (mkCandidate "FIRST HEADER" 1 " " "header").
Proof. by vm_compute. Qed.

End HeaderContent.

(** ** Insights and concepts do not depend on the title *)

Section TitleIndependence.

Import DocumentAnalyzer PersonaProcessor.

(** C9.  The insights and the key concepts of an augmented section are
    computed from the section's content and the classified categories only:
    two sections with the same content get the same insights and the same
    key concepts, whatever their titles.  The priority is computed from the
    relevance score, the insights and the key concepts: it follows the title
    only through the relevance score, and is the same when that score is. *)
Theorem insights_and_concepts_ignore_title :
  forall (s1 s2 : UniqueSection)
         (role_category task_category role_description task_description : string),
    content s1 = content s2 ->
    let a1 := _augment_section_with_role_context s1 role_category task_category
                role_description task_description in
    let a2 := _augment_section_with_role_context s2 role_category task_category
                role_description task_description in
    persona_insights a1 = persona_insights a2
    /\ key_concepts a1 = key_concepts a2
    /\ (persona_relevance_score a1 = persona_relevance_score a2 ->
        persona_priority a1 = persona_priority a2).
Proof.
  intros s1 s2 role task rd td Hc a1 a2.
  unfold a1, a2, _augment_section_with_role_context.
  cbn [persona_insights key_concepts persona_relevance_score persona_priority].
  rewrite Hc. split; [done|]. split; [done|]. by intros ->.
Qed.

Lemma insights_and_concepts_ignore_title_witness :
  content titled_study = content titled_other
  /\ section_title titled_study <> section_title titled_other
  /\ (let a1 := _augment_section_with_role_context titled_study "researcher"
                  "review" "phd researcher" "review the study" in
      let a2 := _augment_section_with_role_context titled_other "researcher"
                  "review" "phd researcher" "review the study" in
      persona_insights a1 = persona_insights a2
      /\ key_concepts a1 = key_concepts a2
      /\ (persona_relevance_score a1 = persona_relevance_score a2 ->
          persona_priority a1 = persona_priority a2)).
Proof.
  split; [reflexivity|]. split; [discriminate|].
  apply (insights_and_concepts_ignore_title titled_study titled_other).
  reflexivity.
Defined.

(** The priority is among what the title changes: of two sections with the
    same content, the one titled "Appendix" gets the priority high and the
    one with a title of 12 words the priority medium, under the same
    categories and descriptions. *)
Lemma priority_depends_on_title :
  content titled_other = content titled_long
  /\ persona_insights
       (_augment_section_with_role_context titled_other "researcher" "review"
          "phd researcher" "review the study")
     = persona_insights
         (_augment_section_with_role_context titled_long "researcher" "review"
            "phd researcher" "review the study")
  /\ persona_priority
       (_augment_section_with_role_context titled_other "researcher" "review"
          "phd researcher" "review the study") = "high"
  /\ persona_priority
       (_augment_section_with_role_context titled_long "researcher" "review"
          "phd researcher" "review the study") = "medium".
Proof. by vm_compute. Qed.

(** What does use the title: on the two sections of the witness the
    relevance score and the alignment score differ. *)
Example title_changes_scores :
  let a := _augment_section_with_role_context titled_study "researcher" "review"
             "phd researcher" "review the study" in
  let b := _augment_section_with_role_context titled_other "researcher" "review"
             "phd researcher" "review the study" in
  persona_insights a
  = ["Research methodology identified"; "Data sources and datasets mentioned"]
  /\ key_concepts a = ["data"; "research"]
  /\ persona_relevance_score a = 1%float
  /\ (persona_relevance_score b <? 1)%float = true
  /\ (job_alignment_score a == 1 # 2)%Q /\ (job_alignment_score b == 0)%Q.
Proof. by vm_compute. Qed.

End TitleIndependence.

(** ** Failure of text extraction *)

Section ExtractionFailure.

Import DocumentAnalyzer.

Variable fitz_open : string -> string + list (string + string).
Variable path_name : string -> string.
Variable now_isoformat : string.

(** Extraction stops at the first page whose [get_text] raises. *)
Lemma extract_pages_raises (texts : list string) (e : string)
    (rest : list (string + string)) :
  forall (page_num : nat) (full_text : string) (page_contents : list Page),
    extract_pages (map inr texts ++ inl e :: rest)%list page_num full_text
      page_contents = inl e.
Proof.
  induction texts as [|t texts IH]; intros page_num full_text page_contents;
    simpl; [done|apply IH].
Qed.

(** C8.  When opening the document raises, or reading the text of one of
    its pages raises, [analyze_document] returns normally: the result has the
    file name and the exception message as metadata, the empty string as
    full text, and no pages and no sections; the message is also printed. *)
Theorem extraction_failure_gives_error_response :
  forall (file_path e : string),
    (fitz_open file_path = inl e
     \/ exists (texts : list string) (rest : list (string + string)),
          fitz_open file_path = inr (map inr texts ++ inl e :: rest)%list) ->
    analyze_document fitz_open path_name now_isoformat file_path
    = (mkAnalysis (MetaError (path_name file_path) e) "" [] [],
       ["Error analyzing document " ++ file_path ++ ": " ++ e]).
Proof.
  intros file_path e [Hopen|(texts & rest & Hopen)];
    unfold analyze_document; rewrite Hopen; [done|].
  unfold _extract_pdf_content. by rewrite extract_pages_raises.
Qed.

End ExtractionFailure.

Lemma extraction_failure_gives_error_response_witness :
  let fitz_open := fun path : string =>
    if String.eqb path "broken.pdf"
    then inl "cannot open broken document"
    else inr [inr "page one"; inl "page is damaged"; inr "page three"] in
  (fitz_open "broken.pdf" = inl "cannot open broken document"
   /\ DocumentAnalyzer.analyze_document fitz_open (fun p => p) "2025-01-01T00:00:00"
        "broken.pdf"
      = (mkAnalysis (MetaError "broken.pdf" "cannot open broken document") "" [] [],
         ["Error analyzing document broken.pdf: cannot open broken document"]))
  /\ (fitz_open "torn.pdf" = inr (map inr ["page one"] ++ inl "page is damaged"
                                   :: [inr "page three"])%list
      /\ DocumentAnalyzer.analyze_document fitz_open (fun p => p) "2025-01-01T00:00:00"
           "torn.pdf"
         = (mkAnalysis (MetaError "torn.pdf" "page is damaged") "" [] [],
            ["Error analyzing document torn.pdf: page is damaged"])).
Proof.
  split; (split; [reflexivity|]).
  - apply (extraction_failure_gives_error_response _ (fun p => p)).
    left. reflexivity.
  - apply (extraction_failure_gives_error_response _ (fun p => p)).
    right. exists ["page one"], [inr "page three"]. reflexivity.
Defined.

(** ** The analysis summary *)

Section Summary.

Import DocumentAnalyzer PersonaProcessor.

(** *** Rounding *)

Lemma round_half_even_near (q : Q) :
  (Qabs (inject_Z (round_half_even q) - q) <= 1 # 2)%Q.
Proof.
  unfold round_half_even.
  pose proof (Qfloor_le q) as Hlo. pose proof (Qlt_floor q) as Hhi.
  set (f := Qfloor q) in *.
  assert (Hf1 : (inject_Z (f + 1) == inject_Z f + 1)%Q)
    by (rewrite inject_Z_plus; reflexivity).
  rewrite Hf1 in Hhi.
  apply Qabs_Qle_condition.
  destruct (q - inject_Z f ?= 1 # 2)%Q eqn:Hc.
  - apply Qeq_alt in Hc. destruct (Z.even f); [|rewrite Hf1]; split; lra.
  - apply Qlt_alt in Hc. split; lra.
  - apply Qgt_alt in Hc. rewrite Hf1. split; lra.
Qed.

Lemma py_round3_near (x : float) :
  match Prim2SF x with
  | S754_finite negative _ _ =>
      exists k : Z,
        py_round3 x = thousandths negative k
        /\ (Qabs (inject_Z k / 1000 - float_value x) <= 1 # 2000)%Q
  | _ => py_round3 x = x
  end.
Proof.
  unfold py_round3. destruct (Prim2SF x) as [| | |negative m e]; try done.
  exists (round_half_even (float_value x * 1000)). split; [done|].
  pose proof (round_half_even_near (float_value x * 1000)) as Hn.
  set (k := round_half_even (float_value x * 1000)) in *.
  apply Qabs_Qle_condition in Hn. apply Qabs_Qle_condition.
  assert (Hk : (inject_Z k / 1000 == inject_Z k * (1 # 1000))%Q) by reflexivity.
  rewrite Hk. split; lra.
Qed.

(** *** The counter *)

Lemma firsts_snoc (l : list string) (x : string) :
  firsts (l ++ [x])
  = if decide (x ∈ firsts l) then firsts l else (firsts l ++ [x])%list.
Proof. unfold firsts. by rewrite fold_left_app. Qed.

Lemma firsts_elem (l : list string) (k : string) : k ∈ firsts l <-> k ∈ l.
Proof.
  induction l as [|x l IH] using rev_ind; [done|].
  rewrite firsts_snoc, elem_of_app, list_elem_of_singleton.
  destruct (decide (x ∈ firsts l)) as [Hin|Hnin].
  - rewrite IH. split; [tauto|]. intros [?| ->]; [done|]. by apply IH.
  - by rewrite elem_of_app, list_elem_of_singleton, IH.
Qed.

Lemma firsts_NoDup (l : list string) : NoDup (firsts l).
Proof.
  induction l as [|x l IH] using rev_ind; [constructor|].
  rewrite firsts_snoc. destruct (decide (x ∈ firsts l)); [done|].
  apply NoDup_app. split; [done|]. split; [|apply NoDup_singleton].
  intros y Hy Hx. apply list_elem_of_singleton in Hx. by subst.
Qed.

Lemma first_index_app_in (y : string) (l l' : list string) :
  y ∈ l -> Spec.first_index y (l ++ l') = Spec.first_index y l.
Proof.
  induction l as [|x l IH]; intros Hin; [by apply elem_of_nil in Hin|].
  simpl. destruct (decide (x = y)); [done|].
  apply elem_of_cons in Hin as [->|Hin]; [done|]. by rewrite IH.
Qed.

Lemma first_index_lt (y : string) (l : list string) :
  y ∈ l -> (Spec.first_index y l < length l)%nat.
Proof.
  induction l as [|x l IH]; intros Hin; [by apply elem_of_nil in Hin|].
  simpl. destruct (decide (x = y)); [lia|].
  apply elem_of_cons in Hin as [->|Hin]; [done|]. specialize (IH Hin). lia.
Qed.

Lemma first_index_app_notin (y : string) (l l' : list string) :
  y ∉ l -> Spec.first_index y (l ++ l') = (length l + Spec.first_index y l')%nat.
Proof.
  induction l as [|x l IH]; intros Hnin; [done|].
  simpl. apply not_elem_of_cons in Hnin as (Hne & Hnin).
  rewrite decide_False by done. by rewrite IH.
Qed.

Lemma firsts_sorted (l : list string) :
  StronglySorted (fun a b => (Spec.first_index a l < Spec.first_index b l)%nat)
                 (firsts l).
Proof.
  induction l as [|x l IH] using rev_ind; [constructor|].
  assert (Hmono : StronglySorted
            (fun a b => (Spec.first_index a (l ++ [x]) < Spec.first_index b (l ++ [x]))%nat)
            (firsts l)).
  { assert (Hsub : Forall (fun k => k ∈ l) (firsts l))
      by (apply Forall_forall; intros k; apply firsts_elem).
    revert Hsub. induction IH as [|a ks Hks IHks Hall]; intros Hsub; [constructor|].
    apply Forall_cons in Hsub as (Ha & Hsub). constructor; [by apply IHks|].
    rewrite Forall_forall in Hall, Hsub |- *. intros b Hb.
    rewrite !first_index_app_in by auto. by apply Hall. }
  rewrite firsts_snoc. destruct (decide (x ∈ firsts l)) as [Hin|Hnin]; [done|].
  apply StronglySorted_app. split; [|split; [done|repeat constructor]].
  intros a b Ha Hb. apply list_elem_of_singleton in Hb as ->.
  rewrite firsts_elem in Ha, Hnin.
  rewrite first_index_app_in by done.
  rewrite first_index_app_notin by done.
  pose proof (first_index_lt a l Ha). lia.
Qed.

Lemma count_of_snoc (k x : string) (l : list string) :
  Spec.count_of k (l ++ [x])
  = (Spec.count_of k l + if decide (x = k) then 1 else 0)%nat.
Proof.
  unfold Spec.count_of. rewrite filter_app, length_app. f_equal.
  destruct (decide (x = k)).
  - by rewrite filter_cons_True.
  - by rewrite filter_cons_False.
Qed.

Lemma count_of_notin (k : string) (l : list string) :
  k ∉ l -> Spec.count_of k l = 0%nat.
Proof.
  intros Hnin. unfold Spec.count_of.
  induction l as [|x l IH]; [done|].
  apply not_elem_of_cons in Hnin as (Hne & Hnin).
  rewrite filter_cons_False by congruence. by apply IH.
Qed.

Lemma counter_add_table (c c' : string -> nat) (x : string) (ks : list string) :
  NoDup ks ->
  (forall k, k <> x -> c' k = c k) -> c' x = S (c x) -> (x ∉ ks -> c x = 0%nat) ->
  counter_add x (map (fun k => (k, c k)) ks)
  = map (fun k => (k, c' k)) (if decide (x ∈ ks) then ks else (ks ++ [x])%list).
Proof.
  intros Hnd Hother Hx Hzero.
  induction ks as [|k ks IH].
  - destruct (decide (x ∈ [])) as [Hin|_]; [by apply elem_of_nil in Hin|].
    simpl. rewrite Hx, Hzero; [done|apply not_elem_of_nil].
  - apply NoDup_cons in Hnd as (Hk & Hnd). cbn [map counter_add].
    destruct (String.eqb_spec k x) as [->|Hne].
    + destruct (decide (x ∈ x :: ks)) as [_|Hnin]; [|exfalso; apply Hnin; by left].
      cbn [map]. rewrite Hx. f_equal.
      apply map_ext_in. intros k' Hk'. rewrite Hother; [done|].
      intros ->. apply Hk. by apply list_elem_of_In.
    + rewrite IH; [|done|].
      * destruct (decide (x ∈ ks)) as [Hin|Hnin].
        -- destruct (decide (x ∈ k :: ks)) as [_|Hn]; [|exfalso; apply Hn; by right].
           cbn [map]. by rewrite Hother.
        -- destruct (decide (x ∈ k :: ks)) as [Hc|_].
           { apply elem_of_cons in Hc as [->|?]; done. }
           cbn [map app]. by rewrite Hother.
      * intros Hnin. apply Hzero. intros Hc.
        apply elem_of_cons in Hc as [->|?]; done.
Qed.

(** The counter of a list: its distinct elements in order of first
    occurrence, each with its number of occurrences. *)
Lemma Counter_table (l : list string) :
  Counter l = map (fun k => (k, Spec.count_of k l)) (firsts l).
Proof.
  induction l as [|x l IH] using rev_ind; [done|].
  unfold Counter in *. rewrite fold_left_app. simpl. rewrite IH.
  rewrite firsts_snoc. apply counter_add_table.
  - apply firsts_NoDup.
  - intros k Hne. rewrite count_of_snoc. rewrite decide_False by congruence. lia.
  - rewrite count_of_snoc. rewrite decide_True by done. lia.
  - intros Hnin. apply count_of_notin. by rewrite <- firsts_elem.
Qed.

(** *** The most common items *)

Lemma insert_desc_elem (x z : string * nat) (s : list (string * nat)) :
  z ∈ insert_desc x s <-> z = x \/ z ∈ s.
Proof.
  induction s as [|y s IH]; simpl.
  - rewrite list_elem_of_singleton, elem_of_nil. tauto.
  - destruct (x.2 <? y.2)%nat.
    + rewrite !elem_of_cons, IH. tauto.
    + rewrite !elem_of_cons. tauto.
Qed.

Lemma insert_desc_length (x : string * nat) (s : list (string * nat)) :
  length (insert_desc x s) = S (length s).
Proof.
  induction s as [|y s IH]; simpl; [done|].
  destruct (x.2 <? y.2)%nat; simpl; by rewrite ?IH.
Qed.

Lemma insert_desc_sorted (all : list string) (x : string * nat)
    (s : list (string * nat)) :
  StronglySorted (item_before all) s ->
  Forall (fun y => (Spec.first_index x.1 all < Spec.first_index y.1 all)%nat) s ->
  StronglySorted (item_before all) (insert_desc x s).
Proof.
  induction 1 as [|y s Hs IH Hy]; intros Hx; simpl.
  - repeat constructor.
  - apply Forall_cons in Hx as (Hxy & Hx).
    destruct (x.2 <? y.2)%nat eqn:Hlt.
    + apply Nat.ltb_lt in Hlt. constructor; [by apply IH|].
      apply Forall_forall. intros z Hz. apply insert_desc_elem in Hz as [->|Hz].
      * by left.
      * rewrite Forall_forall in Hy. by apply Hy.
    + apply Nat.ltb_ge in Hlt. constructor; [by constructor|].
      constructor.
      * unfold item_before. lia.
      * rewrite Forall_forall in Hy, Hx |- *. intros z Hz.
        specialize (Hy z Hz). specialize (Hx z Hz).
        unfold item_before in *. lia.
Qed.

Lemma sorted_desc_elem (z : string * nat) (c : list (string * nat)) :
  z ∈ sorted_desc c <-> z ∈ c.
Proof.
  induction c as [|x c IH]; simpl; [done|].
  rewrite insert_desc_elem, elem_of_cons, IH. tauto.
Qed.

Lemma sorted_desc_length (c : list (string * nat)) :
  length (sorted_desc c) = length c.
Proof.
  induction c as [|x c IH]; simpl; [done|]. by rewrite insert_desc_length, IH.
Qed.

Lemma sorted_desc_sorted (all : list string) (c : list (string * nat)) :
  StronglySorted
    (fun a b => (Spec.first_index a.1 all < Spec.first_index b.1 all)%nat) c ->
  StronglySorted (item_before all) (sorted_desc c).
Proof.
  induction 1 as [|x c Hc IH Hx]; simpl; [constructor|].
  apply insert_desc_sorted; [done|].
  rewrite Forall_forall in Hx |- *. intros y Hy. apply Hx.
  by apply sorted_desc_elem.
Qed.

Lemma sorted_fmap {A B} (R : B -> B -> Prop) (f : A -> B) (l : list A) :
  StronglySorted (fun a b => R (f a) (f b)) l -> StronglySorted R (map f l).
Proof.
  induction 1 as [|x l Hl IH Hx]; simpl; constructor; [done|].
  by apply Forall_fmap.
Qed.

Lemma sorted_impl {A} (R R' : A -> A -> Prop) (l : list A) :
  (forall a b, a ∈ l -> b ∈ l -> R a b -> R' a b) ->
  StronglySorted R l -> StronglySorted R' l.
Proof.
  intros Himpl Hs. induction Hs as [|x l Hl IH Hx]; constructor.
  - apply IH. intros a b Ha Hb. apply Himpl; by right.
  - rewrite Forall_forall in Hx |- *. intros b Hb.
    apply Himpl; [by left|by right|by apply Hx].
Qed.

(** The items of the counter of [all], most common first. *)
Lemma most_common_items (all : list string) :
  let items := sorted_desc (Counter all) in
  StronglySorted (Spec.ranks_before all) (map fst items)
  /\ (forall k, k ∈ map fst items <-> k ∈ all)
  /\ length items = length (remove_dups all).
Proof.
  intros items. unfold items. rewrite Counter_table.
  assert (Hel : forall e, e ∈ sorted_desc
                              (map (fun k => (k, Spec.count_of k all)) (firsts all)) ->
                          e.2 = Spec.count_of e.1 all /\ e.1 ∈ all).
  { intros e He. apply sorted_desc_elem, list_elem_of_fmap in He as (k & -> & Hk).
    split; [done|]. by apply firsts_elem. }
  split; [|split].
  - apply sorted_fmap.
    eapply sorted_impl; cycle 1.
    { apply (sorted_desc_sorted all).
      apply (sorted_fmap
               (fun a b : string * nat =>
                  (Spec.first_index a.1 all < Spec.first_index b.1 all)%nat)
               (fun k => (k, Spec.count_of k all))).
      apply firsts_sorted. }
    intros a b Ha Hb Hab.
    destruct (Hel a Ha) as (Hca & _), (Hel b Hb) as (Hcb & _).
    unfold item_before in Hab. unfold Spec.ranks_before. rewrite <- Hca, <- Hcb.
    exact Hab.
  - intros k. rewrite list_elem_of_fmap. split.
    + intros (e & -> & He). by apply Hel.
    + intros Hk. exists (k, Spec.count_of k all). split; [done|].
      apply sorted_desc_elem, list_elem_of_fmap. exists k. split; [done|].
      by apply firsts_elem.
  - rewrite sorted_desc_length, length_map.
    apply Permutation_length, NoDup_Permutation.
    + apply firsts_NoDup.
    + apply NoDup_remove_dups.
    + intros k. by rewrite firsts_elem, elem_of_remove_dups.
Qed.

(** C7.  For every list of augmented sections, the summary's average
    relevance score is the mean of the sections' relevance scores rounded to
    3 decimals: the scores are summed in order and divided by their number,
    in binary64, and the average is the float nearest to the multiple of
    0.001 that is nearest to that mean, at most 0.0005 away from it.  It is
    0.0 when the list is empty: the sum is then divided by 1.  The top
    insights are the most frequent insight strings over all sections, at
    most 5 of them and exactly 5 when there are that many distinct ones, most
    frequent first; among equally frequent insights the one seen first goes
    first, in the list and in the choice of what enters it. *)
Theorem summary_average_and_top_insights :
  forall (section_list : list AugmentedSection)
         (role_category role_description : string),
    let summary :=
      _build_role_analysis_summary section_list role_category role_description in
    let n := length section_list in
    let mean :=
      (float_sum (map persona_relevance_score section_list)
       / of_count (Nat.max n 1))%float in
    let all := concat (map persona_insights section_list) in
    let top := top_insights summary in
    average_relevance_score summary = py_round3 mean
    /\ (n = 0%nat -> average_relevance_score summary = 0%float)
    /\ match Prim2SF mean with
       | S754_finite negative _ _ =>
           exists k : Z,
             average_relevance_score summary = thousandths negative k
             /\ (Qabs (inject_Z k / 1000 - float_value mean) <= 1 # 2000)%Q
       | _ => average_relevance_score summary = mean
       end
    /\ length top = Nat.min 5 (length (remove_dups all))
    /\ (forall x, x ∈ top -> x ∈ all)
    /\ StronglySorted (Spec.ranks_before all) top
    /\ (forall x y, x ∈ top -> y ∈ all -> y ∉ top -> Spec.ranks_before all x y).
Proof.
  intros section_list role desc summary n mean all top.
  assert (Havg : average_relevance_score summary = py_round3 mean) by reflexivity.
  split; [exact Havg|]. split; [|split].
  - intros Hz. unfold n in Hz. clear Havg.
    destruct section_list as [|a rest]; [|discriminate Hz]. by vm_compute.
  - rewrite Havg. apply py_round3_near.
  - destruct (most_common_items all) as (Hsorted & Hkeys & Hlen).
    set (items := sorted_desc (Counter all)) in *.
    assert (Htop : top = map fst (take 5 items)) by reflexivity.
    assert (Hsplit : map fst items = (top ++ map fst (drop 5 items))%list).
    { by rewrite Htop, <- map_app, take_drop. }
    rewrite Hsplit in Hsorted, Hkeys.
    apply StronglySorted_app in Hsorted as (Hcross & Htops & _).
    split; [|split; [|split]].
    + rewrite Htop, length_map, length_take, Hlen. lia.
    + intros x Hx. apply Hkeys, elem_of_app. by left.
    + exact Htops.
    + intros x y Hx Hy Hny. apply Hcross; [done|].
      apply Hkeys, elem_of_app in Hy as [Hy|Hy]; done.
Qed.

End Summary.

(** ** Scenarios of the specification *)

Section Scenarios.

Import DocumentAnalyzer PersonaProcessor.

(** Scenario A: a page made of an all-caps line and one sentence yields the
    header section "FINANCIAL OVERVIEW" with the sentence as content. *)
Example scenario_header_section :
  _detect_by_headers ""
    [mkPage 1 ("FINANCIAL OVERVIEW" ++ Str.nl ++ "The quarterly revenue grew by 15%.") 53]
  = [mkCandidate "FINANCIAL OVERVIEW" 1 "The quarterly revenue grew by 15%." "header"].
Proof. by vm_compute. Qed.

(** Scenario B: the categories the classifiers give for the two descriptions. *)
Example scenario_categories :
  _classify_user_role "PhD researcher" = "researcher"
  /\ _classify_user_task "review study" = "review".
Proof. by vm_compute. Qed.

(** Scenario D: no section, average 0 and no insight. *)
Example scenario_empty_summary :
  _build_role_analysis_summary [] "general" ""
  = mkSummary "general" 0 0 0 0 0%float [].
Proof. by vm_compute. Qed.

(** The mean is taken in binary64 before it is rounded: the scores
    0.5625000000000001 and 0.5625 sum to 1.125, their mean is 0.5625, a tie
    between 0.562 and 0.563, and the average is 0.562. *)
Example summary_average_rounding :
  average_relevance_score
    (_build_role_analysis_summary
       [mkAugmented titled_study (0.5625 + 0x1p-53) [] [] "medium" 0;
        mkAugmented titled_other 0.5625 [] [] "medium" 0]
       "general" "")
  = 0.562%float.
Proof. by vm_compute. Qed.

(** The fallback chain is reached only when no category keyword occurs. *)
Example scenario_fallback :
  keyword_scores role_terms "phd scientist" = []
  /\ _classify_user_role "PhD scientist" = "researcher"
  /\ _classify_user_role "plumber" = "general".
Proof. by vm_compute. Qed.

End Scenarios.

(** * Further properties *)

(** ** Tactics *)

(** Membership of a closed string in a closed list, and its negation from
    inequalities in the context. *)
Ltac closed_list_fact := apply (bool_decide_unpack _); by vm_compute.

Ltac not_in_list :=
  let Hin := fresh "Hin" in
  intros Hin;
  repeat (apply elem_of_cons in Hin as [Hin|Hin]; [congruence|]);
  by apply elem_of_nil in Hin.

(** ** Scores *)

Section MoreScores.

Import DocumentAnalyzer PersonaProcessor.

Lemma true_div_nonneg (m n : nat) : (0 <= true_div m n)%Q.
Proof.
  unfold true_div. destruct n as [|n].
  - unfold Qdiv, Qinv. simpl. rewrite Qmult_0_r. discriminate.
  - apply ratio_nonneg. lia.
Qed.

Lemma py_min_range (x : Q) : (0 <= x)%Q -> (0 <= py_min x 1 <= 1)%Q.
Proof.
  intros Hx. rewrite py_min_Qmin. split.
  - apply Q.min_glb; [done|discriminate].
  - apply Q.le_min_r.
Qed.

Lemma count_div_nonneg (m n : nat) : (0 < n)%nat -> nonneg (count_div m n).
Proof.
  intros Hn. unfold count_div. apply float_div_nonneg; [|by apply of_count_finpos].
  destruct m as [|m]; [by left|right]. apply of_count_finpos. lia.
Qed.

(** X1.  The relevance score of any text, for any categories and job
    description, lies between 0 and 1. *)
Theorem relevance_score_range :
  forall text role_category task_category task_description : string,
    (0 <=? _compute_relevance_score text role_category task_category
             task_description)%float = true
    /\ (_compute_relevance_score text role_category task_category
          task_description <=? 1)%float = true.
Proof.
  intros text role task desc. unfold _compute_relevance_score.
  destruct (_ =? 0)%nat eqn:Hn; [by vm_compute|].
  apply Nat.eqb_neq in Hn.
  apply float_min_1_range, float_mul_nonneg_r; [|by vm_compute].
  repeat apply float_add_nonneg;
    (apply float_mul_nonneg; [by vm_compute|apply count_div_nonneg; lia]).
Qed.

Lemma inject_nat_pos (n : nat) : (0 < n)%nat -> ~ (inject_Z (Z.of_nat n) == 0)%Q.
Proof.
  intros Hn He. unfold Qeq in He. simpl in He. lia.
Qed.

Lemma true_div_eq_1 (m n : nat) :
  (0 < n)%nat -> (true_div m n == 1)%Q <-> m = n.
Proof.
  intros Hn. pose proof (inject_nat_pos n Hn) as Hnz. unfold true_div. split.
  - intros He.
    assert (Hm : (inject_Z (Z.of_nat m) == inject_Z (Z.of_nat n))%Q).
    { rewrite <- (Qmult_div_r (inject_Z (Z.of_nat m)) (inject_Z (Z.of_nat n))) by done.
      rewrite He. ring. }
    unfold Qeq in Hm. simpl in Hm. lia.
  - intros ->. unfold Qdiv. by apply Qmult_inv_r.
Qed.

Lemma true_div_eq_0 (m n : nat) :
  (0 < n)%nat -> (true_div m n == 0)%Q <-> m = 0%nat.
Proof.
  intros Hn. pose proof (inject_nat_pos n Hn) as Hnz. unfold true_div. split.
  - intros He.
    assert (Hm : (inject_Z (Z.of_nat m) == inject_Z 0)%Q).
    { rewrite <- (Qmult_div_r (inject_Z (Z.of_nat m)) (inject_Z (Z.of_nat n))) by done.
      rewrite He. ring. }
    unfold Qeq in Hm. simpl in Hm. lia.
  - intros ->. unfold Qdiv. simpl. ring.
Qed.

Lemma true_div_le_1 (m n : nat) :
  (m <= n)%nat -> (0 < n)%nat -> (true_div m n <= 1)%Q.
Proof.
  intros Hmn Hn. unfold true_div. apply Qle_shift_div_r.
  - replace 0%Q with (inject_Z 0) by reflexivity. rewrite <- Zlt_Qlt. lia.
  - rewrite Qmult_1_l. rewrite <- Zle_Qle. lia.
Qed.

(** X2.  The job alignment score is 1 exactly when the job description has
    a token of length at least 4 and every such token occurs among those of
    the text; it is 0 exactly when no such token of the job description
    occurs in the text; in between it is the plain share of the job
    description's tokens found in the text (the cap at 1 never cuts). *)
Theorem task_alignment_extremes :
  forall text task_description : string,
    let task_keywords := Spec.long_tokens task_description in
    let content_keywords := Spec.long_tokens text in
    let score := _compute_task_alignment_score text task_description in
    ((score == 1)%Q <-> task_keywords <> ∅ /\ task_keywords ⊆ content_keywords)
    /\ ((score == 0)%Q <-> task_keywords ∩ content_keywords = ∅)
    /\ (task_keywords = ∅
        \/ (score == inject_Z (Z.of_nat (size (task_keywords ∩ content_keywords)))
                      / inject_Z (Z.of_nat (size task_keywords)))%Q).
Proof.
  intros text desc tk ck score. unfold score, _compute_task_alignment_score.
  change (list_to_set (Str.findall_words4 (Str.lower desc))) with tk.
  change (list_to_set (Str.findall_words4 (Str.lower text))) with ck.
  destruct (decide (tk = ∅)) as [He|Hne].
  - rewrite bool_decide_eq_true_2 by done. split; [|split; [|by left]].
    + split; [discriminate|]. by intros (? & _).
    + split; [intros _; rewrite He; apply leibniz_equiv, intersection_empty_l
             |reflexivity].
  - rewrite bool_decide_eq_false_2 by done.
    assert (Hn : (0 < size tk)%nat).
    { assert (size tk <> 0%nat) by (by rewrite size_empty_iff, leibniz_equiv_iff). lia. }
    assert (Hmn : (size (tk ∩ ck) <= size tk)%nat)
      by apply subseteq_size, intersection_subseteq_l.
    assert (Hs : (py_min (true_div (size (tk ∩ ck)) (size tk)) 1
                  == true_div (size (tk ∩ ck)) (size tk))%Q).
    { rewrite py_min_Qmin. apply Q.min_l. by apply true_div_le_1. }
    split; [|split; [|right; exact Hs]]; rewrite Hs.
    + rewrite true_div_eq_1 by done. split.
      * intros Hsz. split; [done|].
        assert (Heq : tk ∩ ck = tk).
        { apply set_subseteq_size_eq; [apply intersection_subseteq_l|lia]. }
        rewrite <- Heq. apply intersection_subseteq_r.
      * intros (_ & Hsub). f_equal. apply leibniz_equiv.
        by apply subseteq_intersection_1.
    + rewrite true_div_eq_0 by done.
      by rewrite size_empty_iff, leibniz_equiv_iff.
Qed.

End MoreScores.

(** ** Priority tiers and the summary counts *)

Section MorePriority.

Import DocumentAnalyzer PersonaProcessor.

Ltac bool_cases :=
  repeat match goal with
    | |- context [PrimFloat.leb ?a ?b] =>
        let H := fresh "Hq" in
        destruct (PrimFloat.leb a b) eqn:H
    | |- context [(?a <=? ?b)%nat] =>
        let H := fresh "Hn" in
        destruct (a <=? b)%nat eqn:H;
        [apply Nat.leb_le in H|apply Nat.leb_nle in H]
    end.

Lemma importance_rank_ge_2 (r : float) (obs cs : list string) :
  (2 <= priority_rank (_determine_importance_level r obs cs))%nat
  <-> (0.6 <=? r)%float = true /\ (2 <= length obs)%nat.
Proof.
  unfold _determine_importance_level. bool_cases; unfold priority_rank; simpl;
    split; intros ?; first [lia|tauto|intuition discriminate].
Qed.

Lemma importance_rank_ge_1 (r : float) (obs cs : list string) :
  (1 <= priority_rank (_determine_importance_level r obs cs))%nat
  <-> ((0.6 <=? r)%float = true /\ (2 <= length obs)%nat)
      \/ ((0.3 <=? r)%float = true
          /\ ((1 <= length obs)%nat \/ (3 <= length cs)%nat)).
Proof.
  unfold _determine_importance_level. bool_cases; unfold priority_rank; simpl;
    split; intros ?; first [lia|tauto|intuition discriminate].
Qed.

Lemma importance_level_values (r : float) (obs cs : list string) :
  _determine_importance_level r obs cs ∈ ["high"; "medium"; "low"].
Proof.
  unfold _determine_importance_level.
  destruct (_ && _); [|destruct (_ && _)]; apply (bool_decide_unpack _); by vm_compute.
Qed.

(** X3.  The priority tier is one of high, medium and low, and it is
    monotone: a section with a relevance score, a number of insights and a
    number of key concepts that are each at least those of another section
    never gets a lower tier. *)
Theorem importance_level_monotone :
  forall (r1 r2 : float) (obs1 obs2 cs1 cs2 : list string),
    (r1 <=? r2)%float = true ->
    (length obs1 <= length obs2)%nat ->
    (length cs1 <= length cs2)%nat ->
    _determine_importance_level r1 obs1 cs1 ∈ ["high"; "medium"; "low"]
    /\ (priority_rank (_determine_importance_level r1 obs1 cs1)
        <= priority_rank (_determine_importance_level r2 obs2 cs2))%nat.
Proof.
  intros r1 r2 obs1 obs2 cs1 cs2 Hr Ho Hc.
  split; [apply importance_level_values|].
  pose proof (importance_rank_ge_2 r1 obs1 cs1) as H12.
  pose proof (importance_rank_ge_2 r2 obs2 cs2) as H22.
  pose proof (importance_rank_ge_1 r1 obs1 cs1) as H11.
  pose proof (importance_rank_ge_1 r2 obs2 cs2) as H21.
  assert (Hmax : (priority_rank (_determine_importance_level r1 obs1 cs1) <= 2)%nat).
  { unfold priority_rank. repeat destruct (String.eqb _ _); lia. }
  assert (Hup : forall c : float, (c <=? r1)%float = true -> (c <=? r2)%float = true)
    by (intros c Hc1; by apply (float_leb_trans c r1 r2)).
  destruct (priority_rank (_determine_importance_level r1 obs1 cs1))
    as [|[|[|k]]]; [lia| | |lia].
  - apply H21. destruct H11 as [[H|H] _]; [lia| |].
    + left. destruct H. split; [by apply Hup|lia].
    + right. destruct H as (? & Hd). split; [by apply Hup|].
      destruct Hd; [left|right]; lia.
  - apply H22. destruct H12 as [H _]; destruct H; [lia|]. split; [by apply Hup|lia].
Qed.

Lemma importance_level_monotone_witness :
  (0.2 <=? 0.7)%float = true
  /\ (length ["Data sources and datasets mentioned"]
      <= length ["Research methodology identified";
                 "Data sources and datasets mentioned"])%nat
  /\ (length (@nil string) <= length ["data"])%nat
  /\ _determine_importance_level 0.2 ["Data sources and datasets mentioned"] []
     ∈ ["high"; "medium"; "low"]
  /\ (priority_rank
        (_determine_importance_level 0.2 ["Data sources and datasets mentioned"] [])
      <= priority_rank
           (_determine_importance_level 0.7
              ["Research methodology identified";
               "Data sources and datasets mentioned"] ["data"]))%nat.
Proof.
  split; [reflexivity|]. split; [simpl; lia|]. split; [simpl; lia|].
  apply importance_level_monotone; [reflexivity|simpl; lia|simpl; lia].
Defined.

End MorePriority.

Section MoreSummary.

Import DocumentAnalyzer PersonaProcessor.

Lemma three_way_count {A} (P Q : A -> Prop)
    `{forall x, Decision (P x)} `{forall x, Decision (Q x)} (l : list A) :
  (forall x, P x -> Q x -> False) ->
  (length (filter P l) + length (filter Q l)
   + length (filter (fun x => ~ P x /\ ~ Q x) l) = length l)%nat.
Proof.
  intros Hex. induction l as [|x l IH]; [done|].
  destruct (decide (P x)) as [HP|HP], (decide (Q x)) as [HQ|HQ].
  - by destruct (Hex x).
  - rewrite (filter_cons_True P) by done.
    rewrite (filter_cons_False Q) by done.
    rewrite (filter_cons_False (fun x => ~ P x /\ ~ Q x)) by tauto.
    simpl. lia.
  - rewrite (filter_cons_False P) by done.
    rewrite (filter_cons_True Q) by done.
    rewrite (filter_cons_False (fun x => ~ P x /\ ~ Q x)) by tauto.
    simpl. lia.
  - rewrite (filter_cons_False P) by done.
    rewrite (filter_cons_False Q) by done.
    rewrite (filter_cons_True (fun x => ~ P x /\ ~ Q x)) by tauto.
    simpl. lia.
Qed.

(** X4.  The summary counts every section once: the number of sections
    analysed is the length of the list, the high and medium counts are the
    numbers of sections with that priority, and the low count is the number
    of all other sections, so the three counts add up to the total and the
    low count is never negative. *)
Theorem summary_counts_partition :
  forall (section_list : list AugmentedSection)
         (role_category role_description : string),
    let summary :=
      _build_role_analysis_summary section_list role_category role_description in
    total_sections_analyzed summary = length section_list
    /\ high_priority_sections summary
       = length (filter (fun a => persona_priority a = "high") section_list)
    /\ medium_priority_sections summary
       = length (filter (fun a => persona_priority a = "medium") section_list)
    /\ low_priority_sections summary
       = Z.of_nat
           (length (filter (fun a => persona_priority a <> "high"
                                     /\ persona_priority a <> "medium")
                      section_list))
    /\ (Z.of_nat (high_priority_sections summary)
        + Z.of_nat (medium_priority_sections summary)
        + low_priority_sections summary
        = Z.of_nat (total_sections_analyzed summary))%Z
    /\ summary_persona_type summary = role_category.
Proof.
  intros l role desc summary.
  assert (Hh : high_priority_sections summary
               = length (filter (fun a => persona_priority a = "high") l)).
  { apply sum_ones_filter. intros a. apply String.eqb_eq. }
  assert (Hm : medium_priority_sections summary
               = length (filter (fun a => persona_priority a = "medium") l)).
  { apply sum_ones_filter. intros a. apply String.eqb_eq. }
  pose proof (three_way_count (fun a : AugmentedSection => persona_priority a = "high")
                (fun a => persona_priority a = "medium") l) as Hsum.
  assert (Hlow : low_priority_sections summary
                 = (Z.of_nat (length l) - Z.of_nat (high_priority_sections summary)
                    - Z.of_nat (medium_priority_sections summary))%Z) by reflexivity.
  assert (Htot : total_sections_analyzed summary = length l) by reflexivity.
  rewrite Hlow, Htot, Hh, Hm.
  specialize (Hsum ltac:(intros a H1 H2; congruence)).
  repeat split; try done; lia.
Qed.

End MoreSummary.

(** ** Insights and key concepts *)

Section MoreInsights.

Import DocumentAnalyzer PersonaProcessor.

Lemma fire_rules_sublist (rules : list (list string * string)) (text : string) :
  sublist (fire_rules rules text) (map snd rules).
Proof.
  unfold fire_rules. induction rules as [|[keywords observation] rules IH]; simpl.
  - constructor.
  - destruct (any_in keywords text); simpl.
    + by apply sublist_skip.
    + by apply sublist_cons.
Qed.

Lemma role_rules_cases (role : string) :
  ((role ∈ ["researcher"; "student"; "analyst"])
   /\ length (dict_get role_rules role []) = 3%nat)
  \/ ((role ∉ ["researcher"; "student"; "analyst"])
      /\ dict_get role_rules role [] = []).
Proof.
  unfold role_rules. cbn [dict_get].
  destruct (String.eqb_spec "researcher" role) as [<-|H1];
    [left; split; [closed_list_fact|done]|].
  destruct (String.eqb_spec "student" role) as [<-|H2];
    [left; split; [closed_list_fact|done]|].
  destruct (String.eqb_spec "analyst" role) as [<-|H3];
    [left; split; [closed_list_fact|done]|].
  right. split; [|done]. not_in_list.
Qed.

Lemma task_rules_cases (task : string) :
  ((task ∈ ["review"; "analyze"])
   /\ length (dict_get task_rules task []) = 1%nat)
  \/ ((task ∉ ["review"; "analyze"]) /\ dict_get task_rules task [] = []).
Proof.
  unfold task_rules. cbn [dict_get].
  destruct (String.eqb_spec "review" task) as [<-|H1];
    [left; split; [closed_list_fact|done]|].
  destruct (String.eqb_spec "analyze" task) as [<-|H2];
    [left; split; [closed_list_fact|done]|].
  right. split; [|done]. not_in_list.
Qed.

Lemma rule_observations_NoDup (role task : string) :
  NoDup (map snd (dict_get role_rules role [])
         ++ map snd (dict_get task_rules task []))%list.
Proof.
  unfold role_rules, task_rules. cbn [dict_get].
  destruct (String.eqb "researcher" role), (String.eqb "student" role),
    (String.eqb "analyst" role), (String.eqb "review" task),
    (String.eqb "analyze" task);
    apply (bool_decide_unpack _); by vm_compute.
Qed.

Lemma observations_split (text role task : string) :
  _extract_role_specific_observations text role task
  = (fire_rules (dict_get role_rules role []) (Str.lower text)
     ++ fire_rules (dict_get task_rules task []) (Str.lower text))%list.
Proof. reflexivity. Qed.

Lemma observations_length (text role task : string) :
  (length (_extract_role_specific_observations text role task)
   <= length (dict_get role_rules role []) + length (dict_get task_rules task []))%nat.
Proof.
  rewrite observations_split, length_app.
  pose proof (sublist_length _ _ (fire_rules_sublist (dict_get role_rules role [])
                                    (Str.lower text))) as H1.
  pose proof (sublist_length _ _ (fire_rules_sublist (dict_get task_rules task [])
                                    (Str.lower text))) as H2.
  rewrite length_map in H1, H2. lia.
Qed.

(** X5.  The insights of a section are pairwise distinct and at most 4: at
    most 3 from the rules of the role category and at most 1 from the rule
    of the job category.  Only the roles researcher, student and analyst and
    the jobs review and analyze have rules: for any other role there is at
    most 1 insight, and for any other role and job there is none, whatever
    the text. *)
Theorem observations_wellformed :
  forall text role_category task_category : string,
    let observations :=
      _extract_role_specific_observations text role_category task_category in
    NoDup observations
    /\ (length observations <= 4)%nat
    /\ (role_category ∈ ["researcher"; "student"; "analyst"]
        \/ (length observations <= 1)%nat)
    /\ (role_category ∈ ["researcher"; "student"; "analyst"]
        \/ task_category ∈ ["review"; "analyze"]
        \/ observations = []).
Proof.
  intros text role task observations.
  pose proof (observations_length text role task) as Hlen. fold observations in Hlen.
  split; [|split; [|split]].
  - unfold observations. rewrite observations_split.
    eapply sublist_NoDup; [apply rule_observations_NoDup|].
    apply sublist_app; apply fire_rules_sublist.
  - destruct (role_rules_cases role) as [(_ & Hr)|(_ & Hr)],
      (task_rules_cases task) as [(_ & Ht)|(_ & Ht)];
      rewrite Hr, Ht in Hlen; simpl in Hlen; lia.
  - destruct (role_rules_cases role) as [(Hin & _)|(_ & Hr)]; [by left|right].
    destruct (task_rules_cases task) as [(_ & Ht)|(_ & Ht)];
      rewrite Hr, Ht in Hlen; simpl in Hlen; lia.
  - destruct (role_rules_cases role) as [(Hin & _)|(_ & Hr)]; [by left|right].
    destruct (task_rules_cases task) as [(Hin & _)|(_ & Ht)]; [by left|right].
    rewrite Hr, Ht in Hlen. simpl in Hlen.
    apply length_zero_iff_nil. lia.
Qed.

(** X6.  A section is never given the priority high under a role category
    other than researcher, student and analyst (so not under teacher,
    manager, entrepreneur or general): high needs two insights, and such a
    role leaves at most the one insight of the job category. *)
Theorem no_high_priority_without_role_rules :
  forall (s : UniqueSection)
         (role_category task_category role_description task_description : string),
    role_category ∉ ["researcher"; "student"; "analyst"] ->
    persona_priority
      (_augment_section_with_role_context s role_category task_category
         role_description task_description)
    ∈ ["medium"; "low"].
Proof.
  intros s role task rd td Hrole.
  unfold _augment_section_with_role_context. cbn [persona_priority].
  pose proof (observations_length (content s) role task) as Hlen.
  destruct (role_rules_cases role) as [(Hin & _)|(_ & Hr)]; [done|].
  assert (Hle : (length (_extract_role_specific_observations (content s) role task)
                 <= 1)%nat).
  { destruct (task_rules_cases task) as [(_ & Ht)|(_ & Ht)];
      rewrite Hr, Ht in Hlen; simpl in Hlen; lia. }
  unfold _determine_importance_level.
  replace (2 <=? length (_extract_role_specific_observations (content s) role task))%nat
    with false by (symmetry; apply Nat.leb_gt; lia).
  rewrite andb_false_r. destruct (_ && _); closed_list_fact.
Qed.

Lemma no_high_priority_without_role_rules_witness :
  ("manager" ∉ ["researcher"; "student"; "analyst"])
  /\ persona_priority
       (_augment_section_with_role_context titled_study "manager" "review"
          "project manager" "review the plan")
     ∈ ["medium"; "low"].
Proof.
  split; [apply (bool_decide_unpack _); by vm_compute|].
  apply no_high_priority_without_role_rules.
  apply (bool_decide_unpack _). by vm_compute.
Defined.

(** The counter of a list gives every string its number of occurrences. *)
Lemma dict_get_table (c : string -> nat) (ks : list string) (k : string) :
  dict_get (map (fun k => (k, c k)) ks) k 0%nat = if decide (k ∈ ks) then c k else 0%nat.
Proof.
  induction ks as [|k' ks IH]; [done|]. cbn [map dict_get].
  destruct (String.eqb_spec k' k) as [->|Hne].
  - rewrite decide_True; [done|by left].
  - rewrite IH. destruct (decide (k ∈ ks)) as [Hin|Hnin].
    + rewrite decide_True; [done|by right].
    + rewrite decide_False; [done|].
      intros Hc. apply elem_of_cons in Hc as [->|?]; done.
Qed.

Lemma Counter_get (l : list string) (k : string) :
  dict_get (Counter l) k 0%nat = Spec.count_of k l.
Proof.
  rewrite Counter_table, dict_get_table.
  destruct (decide (k ∈ firsts l)) as [Hin|Hnin]; [done|].
  symmetry. apply count_of_notin. by rewrite <- firsts_elem.
Qed.

Lemma count_of_pos (k : string) (l : list string) :
  k ∈ l -> (1 <= Spec.count_of k l)%nat.
Proof.
  intros Hin. unfold Spec.count_of.
  assert (Hk : k ∈ filter (fun y => y = k) l) by (by apply list_elem_of_filter).
  destruct (filter (fun y => y = k) l); [by apply elem_of_nil in Hk|simpl; lia].
Qed.

(** What the loop of [_find_relevant_concepts] adds to the concepts
    collected so far. *)
Lemma concepts_loop_spec (terms : list string) (freq : list (string * nat))
    (toks : list string) :
  (forall k, k ∈ toks -> (1 <= dict_get freq k 0)%nat) ->
  forall acc : list string,
    NoDup acc ->
    exists new : list string,
      concepts_loop terms freq toks acc = (acc ++ new)%list
      /\ NoDup (acc ++ new)%list
      /\ sublist new toks
      /\ forall k, k ∈ new <->
                   (k ∉ acc) /\ k ∈ toks /\ k ∈ terms /\ (3 < String.length k)%nat.
Proof.
  induction toks as [|token rest IH]; intros Hfreq acc Hnd.
  - exists []. rewrite app_nil_r. split; [done|]. split; [done|].
    split; [constructor|]. intros k. split.
    + intros Hk. by apply elem_of_nil in Hk.
    + intros (_ & Hk & _). by apply elem_of_nil in Hk.
  - assert (Hfreq' : forall k, k ∈ rest -> (1 <= dict_get freq k 0)%nat)
      by (intros k Hk; apply Hfreq; by right).
    cbn [concepts_loop].
    destruct (in_list token terms) eqn:Hterm;
      [apply in_list_true in Hterm
      |assert (token ∉ terms) as Hnt
         by (intros Hc; apply in_list_true in Hc; congruence); clear Hterm].
    2: { destruct (IH Hfreq' acc Hnd) as (new & Heq & Hnd' & Hsub & Hiff).
         exists new. cbn [andb]. split; [done|]. split; [done|].
         split; [by apply sublist_cons|].
         intros k. rewrite Hiff, elem_of_cons. split; [tauto|].
         intros (Ha & [->|Hk] & Ht & Hl); [done|tauto]. }
    replace (1 <=? dict_get freq token 0)%nat with true
      by (symmetry; apply Nat.leb_le, Hfreq; by left).
    cbn [andb].
    destruct (3 <? String.length token)%nat eqn:Hlen;
      [apply Nat.ltb_lt in Hlen|apply Nat.ltb_ge in Hlen].
    2: { destruct (IH Hfreq' acc Hnd) as (new & Heq & Hnd' & Hsub & Hiff).
         exists new. cbn [andb]. split; [done|]. split; [done|].
         split; [by apply sublist_cons|].
         intros k. rewrite Hiff, elem_of_cons. split; [tauto|].
         intros (Ha & [->|Hk] & Ht & Hl); [lia|tauto]. }
    cbn [andb].
    destruct (in_list token acc) eqn:Hacc;
      [apply in_list_true in Hacc
      |assert (token ∉ acc) as Hna
         by (intros Hc; apply in_list_true in Hc; congruence); clear Hacc].
    + destruct (IH Hfreq' acc Hnd) as (new & Heq & Hnd' & Hsub & Hiff).
      exists new. cbn [negb]. split; [done|]. split; [done|].
      split; [by apply sublist_cons|].
      intros k. rewrite Hiff, elem_of_cons. split; [tauto|].
      intros (Ha & [->|Hk] & Ht & Hl); [done|tauto].
    + cbn [negb].
      assert (Hnd1 : NoDup (acc ++ [token])%list).
      { apply NoDup_app. split; [done|]. split; [|apply NoDup_singleton].
        intros x Hx Hx'. apply list_elem_of_singleton in Hx'. by subst. }
      destruct (IH Hfreq' _ Hnd1) as (new & Heq & Hnd' & Hsub & Hiff).
      exists (token :: new). rewrite Heq, <- app_assoc. split; [done|].
      split; [by rewrite <- app_assoc in Hnd'|].
      split; [by apply sublist_skip|].
      intros k. rewrite elem_of_cons, Hiff, elem_of_app, list_elem_of_singleton,
        elem_of_cons.
      split.
      * intros [->|(Hn & Hk & Ht & Hl)]; [tauto|]. tauto.
      * intros (Ha & [->|Hk] & Ht & Hl); [by left|].
        destruct (decide (k = token)) as [->|Hne]; [by left|right]. tauto.
Qed.

Lemma StronglySorted_sublist (R : relation string) (l k : list string) :
  sublist l k -> StronglySorted R k -> StronglySorted R l.
Proof.
  induction 1 as [|x l k Hs IH|x l k Hs IH]; intros Hk; [done| |].
  - apply StronglySorted_inv in Hk as (Hk & Hall). constructor; [by apply IH|].
    rewrite Forall_forall in Hall |- *. intros y Hy. apply Hall.
    by eapply elem_of_sublist.
  - apply StronglySorted_inv in Hk as (Hk & _). by apply IH.
Qed.

(** Filtering commutes with keeping the first occurrences. *)
Lemma firsts_filter (P : string -> Prop) `{!forall x, Decision (P x)}
    (l : list string) :
  firsts (filter P l) = filter P (firsts l).
Proof.
  induction l as [|x l IH] using rev_ind; [done|].
  rewrite filter_app, firsts_snoc.
  destruct (decide (P x)) as [HP|HP].
  - rewrite (filter_cons_True P x []) by done. rewrite filter_nil, firsts_snoc, IH.
    destruct (decide (x ∈ firsts l)) as [Hin|Hnin].
    + rewrite decide_True; [done|]. by apply list_elem_of_filter.
    + rewrite decide_False.
      * rewrite filter_app, (filter_cons_True P x []) by done. by rewrite filter_nil.
      * intros Hc. apply list_elem_of_filter in Hc. tauto.
  - rewrite (filter_cons_False P x []) by done. rewrite filter_nil, app_nil_r, IH.
    destruct (decide (x ∈ firsts l)) as [Hin|Hnin]; [done|].
    rewrite filter_app, (filter_cons_False P x []) by done.
    by rewrite filter_nil, app_nil_r.
Qed.

(** The loop of [_find_relevant_concepts] appends, in token order, each
    token that is a keyword longer than 3 characters and not collected yet. *)
Lemma concepts_loop_firsts (terms : list string) (freq : list (string * nat))
    (toks : list string) :
  (forall k, k ∈ toks -> (1 <= dict_get freq k 0)%nat) ->
  forall acc : list string,
    concepts_loop terms freq toks acc
    = fold_left (fun acc x => if decide (x ∈ acc) then acc else (acc ++ [x])%list)
        (filter (fun k => k ∈ terms /\ (3 < String.length k)%nat) toks) acc.
Proof.
  induction toks as [|token rest IH]; intros Hfreq acc; [done|].
  assert (Hfreq' : forall k, k ∈ rest -> (1 <= dict_get freq k 0)%nat)
    by (intros k Hk; apply Hfreq; by right).
  cbn [concepts_loop].
  replace (1 <=? dict_get freq token 0)%nat with true
    by (symmetry; apply Nat.leb_le, Hfreq; by left).
  destruct (in_list token terms) eqn:Hterm;
    [apply in_list_true in Hterm
    |assert (token ∉ terms) as Hnt
       by (intros Hc; apply in_list_true in Hc; congruence); clear Hterm].
  2: { cbn [andb]. rewrite filter_cons_False by tauto. by apply IH. }
  cbn [andb].
  destruct (3 <? String.length token)%nat eqn:Hlen;
    [apply Nat.ltb_lt in Hlen|apply Nat.ltb_ge in Hlen].
  2: { cbn [andb]. rewrite filter_cons_False by lia. by apply IH. }
  cbn [andb]. rewrite filter_cons_True by done. cbn [fold_left].
  destruct (in_list token acc) eqn:Hacc;
    [apply in_list_true in Hacc
    |assert (token ∉ acc) as Hna
       by (intros Hc; apply in_list_true in Hc; congruence); clear Hacc].
  - cbn [negb]. rewrite decide_True by done. by apply IH.
  - cbn [negb]. rewrite decide_False by done. by apply IH.
Qed.

(** X7.  The key concepts of a text are the first 10 of the distinct word
    tokens of the lowercased text, in order of first occurrence, that are
    keywords of the role category longer than 3 characters.  So they are at
    most 10, pairwise distinct, a subsequence of the tokens ordered by first
    occurrence, each such a keyword; and when fewer than 10 are returned,
    every token that is such a keyword is among them. *)
Theorem key_concepts_wellformed :
  forall text role_category : string,
    let tokens := Str.findall_words (Str.lower text) in
    let terms := dict_get role_terms role_category [] in
    let concepts := _find_relevant_concepts text role_category in
    (length concepts <= 10)%nat
    /\ NoDup concepts
    /\ sublist concepts tokens
    /\ (forall k, k ∈ concepts -> k ∈ terms /\ (3 < String.length k)%nat)
    /\ ((length concepts < 10)%nat ->
        forall k, k ∈ tokens -> k ∈ terms -> (3 < String.length k)%nat ->
                  k ∈ concepts)
    /\ concepts
       = take 10 (filter (fun k => k ∈ terms /\ (3 < String.length k)%nat)
                    (firsts tokens))
    /\ StronglySorted
         (fun a b => (Spec.first_index a tokens < Spec.first_index b tokens)%nat)
         concepts.
Proof.
  intros text role tokens terms concepts.
  destruct (concepts_loop_spec terms (Counter tokens) tokens
              ltac:(intros k Hk; rewrite Counter_get; by apply count_of_pos)
              [] (NoDup_nil_2)) as (new & Heq & Hnd & Hsub & Hiff).
  assert (Hc : concepts = take 10 new) by (unfold concepts, _find_relevant_concepts;
    fold tokens; fold terms; by rewrite Heq).
  assert (Hnew : new = filter (fun k => k ∈ terms /\ (3 < String.length k)%nat)
                         (firsts tokens)).
  { rewrite <- firsts_filter. simpl in Heq. rewrite <- Heq.
    apply concepts_loop_firsts.
    intros k Hk. rewrite Counter_get. by apply count_of_pos. }
  simpl in Hnd. rewrite Hc.
  split; [rewrite length_take; lia|].
  split; [eapply sublist_NoDup; [exact Hnd|apply sublist_take]|].
  split; [etrans; [apply sublist_take|done]|].
  split; [intros k Hk; apply take_elem_of, Hiff in Hk; tauto|].
  split.
  - intros Hlt k Hk Ht Hl. rewrite length_take in Hlt.
    rewrite take_ge by lia. apply Hiff. repeat split; try done.
    apply not_elem_of_nil.
  - split; [by rewrite Hnew|].
    eapply StronglySorted_sublist; [|apply firsts_sorted].
    etrans; [apply sublist_take|]. rewrite Hnew. apply sublist_filter.
Qed.

(** The order is that of first occurrence, not that of the keyword list. *)
Example key_concepts_first_occurrence :
  _find_relevant_concepts "Data of the study; more data on methodology."
    "researcher"
  = ["data"; "study"; "methodology"].
Proof. by vm_compute. Qed.

End MoreInsights.

(** ** The classifiers *)

Section MoreClassifiers.

Import DocumentAnalyzer PersonaProcessor.

Lemma task_terms_keys : map fst task_terms = task_order.
Proof. reflexivity. Qed.

Lemma task_order_NoDup : NoDup task_order.
Proof. apply (bool_decide_unpack _). by vm_compute. Qed.

(** X8.  The job classifier counts, for each job category, the keywords of
    the category that occur as substrings of the lowercased description.  If
    some count is positive it returns a category of greatest count, the
    earliest one in the declared order (review, learn, analyze, prepare,
    summarize); if all counts are 0 it returns "general": there is no
    fallback list. *)
Theorem task_classifier_spec :
  forall task_description : string,
    let text := Str.lower task_description in
    let count := fun c => keyword_count task_terms c text in
    let result := _classify_user_task task_description in
    ((exists c, c ∈ task_order /\ (0 < count c)%nat) ->
     (0 < count result)%nat
     /\ exists before after : list string,
          task_order = (before ++ result :: after)%list
          /\ (forall c, c ∈ before -> (count c < count result)%nat)
          /\ (forall c, c ∈ after -> (count c <= count result)%nat))
    /\ ((forall c, c ∈ task_order -> count c = 0%nat) -> result = "general")
    /\ (result = "general" <-> forall c, c ∈ task_order -> count c = 0%nat).
Proof.
  intros task_description text count result.
  pose proof task_order_NoDup as Hnd. rewrite <- task_terms_keys in Hnd.
  destruct (keyword_scores_nil task_terms text Hnd) as [Hfwd Hbwd].
  unfold result, _classify_user_task. fold text.
  destruct (keyword_scores task_terms text) as [|[k v] rest] eqn:Hks.
  - split; [|split; [done|]].
    + intros (c & Hc & Hpos). exfalso.
      specialize (Hfwd eq_refl c Hc). unfold count in Hpos. lia.
    + split; [intros _; by apply Hfwd|done].
  - pose proof (classify_by_scores task_terms text k v rest Hnd Hks)
      as (Hpos & before & after & Hsplit & Hb & Ha).
    split; [|split].
    + intros _. rewrite <- task_terms_keys. split; [done|]. by exists before, after.
    + intros Hz. exfalso. by specialize (Hbwd Hz).
    + split.
      * intros Hgen. exfalso.
        assert (Hin : max_loop k v rest ∈ map fst task_terms).
        { rewrite Hsplit. apply elem_of_app. right. by left. }
        rewrite Hgen in Hin. revert Hin. apply (bool_decide_unpack _). by vm_compute.
      * intros Hz. exfalso. by specialize (Hbwd Hz).
Qed.

Lemma fallback_chain_range (chain : list (string * list string)) (text : string) :
  fallback_chain chain text ∈ (map fst chain ++ ["general"])%list.
Proof.
  induction chain as [|[c ks] chain IH]; simpl.
  - by left.
  - destruct (any_in ks text); [by left|by right].
Qed.

(** X9.  The role classifier returns one of the six role categories or
    "general", and the job classifier one of the five job categories or
    "general", for every description; the empty description is classified
    "general" by both. *)
Theorem classifier_ranges :
  forall description : string,
    _classify_user_role description
    ∈ ["researcher"; "student"; "analyst"; "teacher"; "manager"; "entrepreneur";
       "general"]
    /\ _classify_user_task description
       ∈ ["review"; "learn"; "analyze"; "prepare"; "summarize"; "general"]
    /\ _classify_user_role "" = "general"
    /\ _classify_user_task "" = "general".
Proof.
  intros description. split; [|split; [|by vm_compute]].
  - pose proof role_order_NoDup as Hnd. rewrite <- role_terms_keys in Hnd.
    unfold _classify_user_role.
    destruct (keyword_scores role_terms (Str.lower description))
      as [|[k v] rest] eqn:Hks.
    + apply (fallback_chain_range role_fallbacks).
    + pose proof (classify_by_scores role_terms _ k v rest Hnd Hks)
        as (_ & before & after & Hsplit & _).
      change (max_loop k v rest ∈ (map fst role_terms ++ ["general"])%list).
      rewrite Hsplit, <- app_assoc. apply elem_of_app. right. by left.
  - pose proof task_order_NoDup as Hnd. rewrite <- task_terms_keys in Hnd.
    unfold _classify_user_task.
    destruct (keyword_scores task_terms (Str.lower description))
      as [|[k v] rest] eqn:Hks.
    + closed_list_fact.
    + pose proof (classify_by_scores task_terms _ k v rest Hnd Hks)
        as (_ & before & after & Hsplit & _).
      change (max_loop k v rest ∈ (map fst task_terms ++ ["general"])%list).
      rewrite Hsplit, <- app_assoc. apply elem_of_app. right. by left.
Qed.

End MoreClassifiers.

(** ** The persona pass over a document analysis *)

Section MoreProcess.

Import DocumentAnalyzer PersonaProcessor.

Lemma char_lower_idempotent (c : ascii) : Char.lower (Char.lower c) = Char.lower c.
Proof. destruct c as [[] [] [] [] [] [] [] []]; reflexivity. Qed.

Lemma lower_idempotent (s : string) : Str.lower (Str.lower s) = Str.lower s.
Proof.
  unfold Str.lower. induction s as [|c s IH]; [done|].
  simpl. by rewrite char_lower_idempotent, IH.
Qed.

(** X10.  [process_with_persona] augments the sections of the analysis one
    by one, in order, with the categories classified from the two
    descriptions, and leaves every field of a section as it was.  The role
    and the job description are reported in lowercase, and lowering them
    before classification changes no category.  The entry "job_type" holds
    the job description, not the classified job category.  A persona
    without the key "role", or with an empty role, is classified "general";
    a job without the key "task" gives every section the job alignment
    score 0. *)
Theorem process_with_persona_structure :
  forall (doc_analysis : DocumentAnalysis) (user_persona user_job : gmap string string),
    let role := default "" (user_persona !! "role") in
    let task := default "" (user_job !! "task") in
    let result := process_with_persona doc_analysis user_persona user_job in
    persona_sections result
    = map (fun s => _augment_section_with_role_context s
                      (_classify_user_role role) (_classify_user_task task)
                      (Str.lower role) (Str.lower task))
          (sections doc_analysis)
    /\ map unique (persona_sections result) = sections doc_analysis
    /\ persona_type result = _classify_user_role role
    /\ persona_role result = Str.lower role
    /\ job_type result = Str.lower task
    /\ job_context result = Str.lower task
    /\ total_sections_analyzed (persona_metadata result)
       = length (sections doc_analysis)
    /\ summary_persona_type (persona_metadata result) = persona_type result
    /\ (user_persona !! "role" = None \/ user_persona !! "role" = Some ""
        -> persona_type result = "general")
    /\ (user_job !! "task" = None ->
        Forall (fun a : AugmentedSection => (job_alignment_score a == 0)%Q)
               (persona_sections result)).
Proof.
  intros doc persona job role task result.
  assert (Hsec : persona_sections result
                 = map (fun s => _augment_section_with_role_context s
                                   (_classify_user_role role) (_classify_user_task task)
                                   (Str.lower role) (Str.lower task))
                       (sections doc)).
  { unfold result, process_with_persona, get_str. cbn [persona_sections].
    fold role. fold task.
    unfold _classify_user_role at 1, _classify_user_task at 1.
    rewrite !lower_idempotent. reflexivity. }
  assert (Htype : persona_type result = _classify_user_role role).
  { unfold result, process_with_persona, get_str. cbn [persona_type]. fold role.
    unfold _classify_user_role. by rewrite lower_idempotent. }
  split; [exact Hsec|]. split.
  { rewrite Hsec, map_map. simpl. apply map_id. }
  split; [exact Htype|]. split; [done|]. split; [done|]. split; [done|]. split.
  { unfold result, process_with_persona. cbn [persona_metadata].
    unfold _build_role_analysis_summary. cbn [total_sections_analyzed].
    by rewrite length_map. }
  split; [done|]. split.
  - intros Hrole. rewrite Htype. unfold role. by destruct Hrole as [-> | ->].
  - intros Htask. rewrite Hsec. apply Forall_fmap, Forall_forall. intros s _.
    simpl. unfold task. rewrite Htask. simpl.
    unfold _compute_task_alignment_score.
    by rewrite bool_decide_eq_true_2 by (by vm_compute).
Qed.

End MoreProcess.

(** ** Strings: facts about the [str] methods *)

Section StrFacts.

Lemma app_cons_str (c : ascii) (a b : string) : String c a ++ b = String c (a ++ b).
Proof. reflexivity. Qed.

Lemma str_length_app (a b : string) :
  String.length (a ++ b) = (String.length a + String.length b)%nat.
Proof. induction a as [|c a IH]; simpl; [done|by rewrite IH]. Qed.

Lemma take_length_le (n : nat) (s : string) : (String.length (Str.take n s) <= n)%nat.
Proof.
  revert s. induction n as [|n IH]; intros [|c s]; simpl; try lia.
  specialize (IH s). lia.
Qed.

Lemma take_drop_str (n : nat) (s : string) : s = Str.take n s ++ Str.drop n s.
Proof.
  revert s. induction n as [|n IH]; intros [|c s]; try done.
  change (String c s = String c (Str.take n s ++ Str.drop n s)).
  f_equal. apply IH.
Qed.

Lemma take_app_exact (s t : string) : Str.take (String.length s) (s ++ t) = s.
Proof.
  induction s as [|c s IH]; [by destruct t|].
  rewrite app_cons_str. simpl. by rewrite IH.
Qed.

Lemma app_assoc_str (a b c : string) : (a ++ b) ++ c = a ++ b ++ c.
Proof.
  induction a as [|x a IH]; [done|]. rewrite !app_cons_str. by rewrite IH.
Qed.

Lemma app_nil_r_str (a : string) : a ++ "" = a.
Proof.
  induction a as [|x a IH]; [done|]. rewrite app_cons_str. by rewrite IH.
Qed.

(** The title rule shared by the paragraph and list detectors: the first 50
    characters and an ellipsis when the text is longer than 50 characters. *)
Lemma truncated_title (s : string) :
  let title := if (50 <? String.length s)%nat then Str.take 50 s ++ "..." else s in
  (String.length title <= 53)%nat
  /\ Str.take 50 title = Str.take 50 s
  /\ ((String.length s <= 50)%nat -> title = s).
Proof.
  cbv zeta. destruct (50 <? String.length s)%nat eqn:Hl.
  - apply Nat.ltb_lt in Hl. pose proof (take_length_le 50 s) as Ht.
    assert (Hlen : String.length (Str.take 50 s) = 50%nat).
    { pose proof (f_equal String.length (take_drop_str 50 s)) as He.
      rewrite str_length_app in He.
      assert (String.length (Str.drop 50 s) = String.length s - 50)%nat; [|lia].
      clear. generalize 50%nat. intros n. revert s.
      induction n as [|n IH]; intros [|c s]; simpl; try done; try lia. }
    assert (H3 : String.length "..." = 3%nat) by reflexivity.
    split; [rewrite str_length_app; lia|]. split.
    + rewrite <- Hlen at 1. apply take_app_exact.
    + lia.
  - apply Nat.ltb_ge in Hl. split; [lia|]. split; done.
Qed.

(** [strip] removes all white space at both ends, and only that. *)
Lemma rstrip_cons (c : ascii) (s : string) :
  Str.rstrip (String c s)
  = match Str.rstrip s with
    | "" => if Char.is_space c then "" else String c ""
    | r' => String c r'
    end.
Proof. reflexivity. Qed.

Lemma rstrip_idempotent (s : string) : Str.rstrip (Str.rstrip s) = Str.rstrip s.
Proof.
  induction s as [|c s IH]; [done|]. rewrite rstrip_cons.
  destruct (Str.rstrip s) as [|d r] eqn:Hr.
  - destruct (Char.is_space c) eqn:Hc; [done|].
    rewrite rstrip_cons. simpl. by rewrite Hc.
  - rewrite rstrip_cons, IH. done.
Qed.

Lemma rstrip_head (c : ascii) (s : string) :
  Char.is_space c = false -> exists r, Str.rstrip (String c s) = String c r.
Proof.
  intros Hc. rewrite rstrip_cons. destruct (Str.rstrip s); [rewrite Hc|]; eauto.
Qed.

Lemma lstrip_head (s : string) :
  Str.lstrip s = "" \/ exists c r, Str.lstrip s = String c r /\ Char.is_space c = false.
Proof.
  induction s as [|c s IH]; [by left|]. simpl.
  destruct (Char.is_space c) eqn:Hc; [done|]. right. eauto.
Qed.

Lemma strip_idempotent (s : string) : Str.strip (Str.strip s) = Str.strip s.
Proof.
  unfold Str.strip. destruct (lstrip_head s) as [->|(c & r & -> & Hc)]; [done|].
  destruct (rstrip_head c r Hc) as (r' & Hr). rewrite Hr.
  cbn [Str.lstrip]. rewrite Hc, <- Hr. apply rstrip_idempotent.
Qed.

End StrFacts.

(** ** What the detectors emit *)

Section MoreDetectors.

Import DocumentAnalyzer.

Lemma match_header_title_length (line : string)
    (patterns : list (string -> option string)) (title : string) :
  _match_header_patterns line patterns = Some title ->
  (5 < String.length title)%nat /\ (String.length title < 80)%nat.
Proof.
  induction patterns as [|pattern rest IH]; [done|]. cbn [_match_header_patterns].
  destruct (pattern line) as [g|]; [|exact IH].
  destruct (_ && _) eqn:Hlen; [|exact IH].
  intros [= <-]. apply andb_true_iff in Hlen as (H1 & H2).
  by apply Nat.ltb_lt in H1, H2.
Qed.

Lemma extract_loop_no_header (title : string) (lines : list string) :
  Forall (fun line => _is_header_line line title = false) lines ->
  extract_loop title lines false [] = [].
Proof.
  induction 1 as [|line lines Hline _ IH]; [done|].
  cbn [extract_loop]. by rewrite Hline.
Qed.

Lemma content_needs_header_line (page_text title : string) :
  _extract_content_after_header page_text title <> "" ->
  Exists (fun line => _is_header_line line title = true)
         (Str.split_char Char.newline page_text).
Proof.
  intros Hne.
  destruct (decide (Exists (fun line => _is_header_line line title = true)
                           (Str.split_char Char.newline page_text)))
    as [He|Hn]; [done|].
  exfalso. apply Hne. unfold _extract_content_after_header.
  rewrite extract_loop_no_header; [done|].
  apply not_Exists_Forall in Hn; [|intros line; apply _].
  eapply Forall_impl; [exact Hn|]. intros line Hl. simpl in Hl.
  by destruct (_is_header_line line title).
Qed.

(** X11.  Every candidate of the header detector has a title of 6 to 79
    characters and a non-empty content, which is the content gathered for
    that title on one of the given pages; the candidate carries that page's
    number, and some line of that page contains the title. *)
Theorem header_candidates_wellformed :
  forall (full_text : string) (pages : list Page),
    Forall (fun c =>
              detection_method c = "header"
              /\ (5 < String.length (section_title c))%nat
              /\ (String.length (section_title c) < 80)%nat
              /\ content c <> ""
              /\ exists page_info,
                   page_info ∈ pages
                   /\ section_page c = page_number page_info
                   /\ content c
                      = _extract_content_after_header (text page_info)
                          (section_title c)
                   /\ Exists (fun line => _is_header_line line (section_title c) = true)
                             (Str.split_char Char.newline (text page_info)))
           (_detect_by_headers full_text pages).
Proof.
  intros full_text pages. apply Forall_forall. intros c Hin.
  apply elem_of_concat in Hin as (l & Hl & Hc).
  apply list_elem_of_fmap in Hl as (pg & -> & Hpg).
  apply list_elem_of_omap in Hc as (line & _ & Hc). cbv beta zeta in Hc.
  destruct (negb _); [done|].
  destruct (_match_header_patterns _ _) as [title|] eqn:Hm; [|done].
  apply match_header_title_length in Hm as (H5 & H80).
  unfold _create_header_section in Hc.
  destruct (Str.nonempty _) eqn:Hne; [|done]. injection Hc as <-.
  apply nonempty_true in Hne. cbn [detection_method section_title content section_page].
  repeat split; try done.
  exists pg. repeat split; try done. by apply content_needs_header_line.
Qed.

(** X12.  When no line of the page contains the title, no content is
    gathered and no header section is made. *)
Theorem header_not_on_page :
  forall (page_text title : string) (page_num : nat),
    Forall (fun line => _is_header_line line title = false)
           (Str.split_char Char.newline page_text) ->
    _extract_content_after_header page_text title = ""
    /\ _create_header_section title page_text page_num = None.
Proof.
  intros page_text title page_num Hno.
  assert (Hc : _extract_content_after_header page_text title = "").
  { unfold _extract_content_after_header. by rewrite extract_loop_no_header. }
  split; [done|]. unfold _create_header_section. by rewrite Hc.
Qed.

Lemma header_not_on_page_witness :
  Forall (fun line => _is_header_line line "RISK FACTORS" = false)
         (Str.split_char Char.newline blank_line_page)
  /\ (_extract_content_after_header blank_line_page "RISK FACTORS" = ""
      /\ _create_header_section "RISK FACTORS" blank_line_page 1 = None).
Proof.
  assert (H : Forall (fun line => _is_header_line line "RISK FACTORS" = false)
                (Str.split_char Char.newline blank_line_page))
    by (apply (bool_decide_unpack _); by vm_compute).
  split; [exact H|]. apply header_not_on_page. exact H.
Defined.

Lemma split_str_go_hd (sep : string) (fuel : nat) :
  forall cur s : string,
    exists rest, cur ++ s = hd "" (Str.split_str_go fuel sep cur s) ++ rest.
Proof.
  induction fuel as [|fuel IH]; intros cur s.
  - exists "". simpl. by rewrite app_nil_r_str.
  - destruct s as [|c r].
    + exists "". done.
    + cbn [Str.split_str_go]. destruct (String.prefix sep (String c r)).
      * by exists (String c r).
      * destruct (IH (cur ++ String c "") r) as (rest & Hrest).
        exists rest. rewrite <- Hrest. by rewrite app_assoc_str.
Qed.

(** A generated title repeats the start of its text: the first 50 characters
    of the title are the first 50 of [s], which [s] starts with. *)
Lemma truncated_title_prefix (s : string) :
  let title := if (50 <? String.length s)%nat then Str.take 50 s ++ "..." else s in
  exists rest, s = Str.take 50 title ++ rest.
Proof.
  intros title. destruct (truncated_title s) as (_ & Ht & _).
  fold title in Ht. rewrite Ht. exists (Str.drop 50 s). apply take_drop_str.
Qed.

(** X13.  Every candidate of the paragraph detector has a content of 30 to
    2000 characters without white space at either end, which is the stripped
    form of one of the blocks that blank lines separate on one of the given
    pages; its title has at most 53 characters, and the content starts with
    the first 50 characters of the title. *)
Theorem paragraph_candidates_wellformed :
  forall (full_text : string) (pages : list Page),
    Forall (fun c =>
              detection_method c = "paragraph"
              /\ (30 <= String.length (content c))%nat
              /\ (String.length (content c) <= 2000)%nat
              /\ Str.strip (content c) = content c
              /\ (String.length (section_title c) <= 53)%nat
              /\ (exists rest, content c = Str.take 50 (section_title c) ++ rest)
              /\ exists page_info block,
                   page_info ∈ pages
                   /\ section_page c = page_number page_info
                   /\ block ∈ Str.split_str (Str.nl ++ Str.nl) (text page_info)
                   /\ content c = Str.strip block)
           (_detect_by_paragraphs full_text pages).
Proof.
  intros full_text pages. apply Forall_forall. intros c Hin.
  apply elem_of_concat in Hin as (l & Hl & Hc).
  apply list_elem_of_fmap in Hl as (pg & -> & Hpg).
  apply list_elem_of_fmap in Hc as (paragraph & -> & Hp).
  apply list_elem_of_In, filter_In in Hp as (Hp & Hlen).
  apply list_elem_of_In, list_elem_of_fmap in Hp as (block & -> & Hb).
  apply list_elem_of_In, filter_In in Hb as (Hb & _).
  apply list_elem_of_In in Hb.
  apply andb_true_iff in Hlen as (Hmin & Hmax).
  apply Nat.leb_le in Hmin, Hmax. unfold min_section_length in Hmin.
  unfold max_section_length in Hmax.
  cbn [_create_paragraph_section detection_method content section_title section_page].
  split; [done|]. split; [done|]. split; [done|].
  split; [apply strip_idempotent|].
  unfold _generate_paragraph_title. cbv zeta.
  set (first_sentence := hd "" (Str.split_str ". " (Str.strip block))).
  split; [apply (truncated_title first_sentence)|]. split.
  - destruct (truncated_title_prefix first_sentence) as (rest1 & Hr1).
    cbv zeta in Hr1.
    destruct (split_str_go_hd ". " (S (String.length (Str.strip block))) ""
                (Str.strip block)) as (rest2 & Hr2).
    change ("" ++ Str.strip block) with (Str.strip block) in Hr2.
    fold (Str.split_str ". " (Str.strip block)) in Hr2. fold first_sentence in Hr2.
    exists (rest1 ++ rest2). rewrite <- app_assoc_str, <- Hr1. exact Hr2.
  - by exists pg, block.
Qed.

Lemma gather_loop_prefix (window : list string) :
  forall content : string, exists rest, gather_loop window content = content ++ rest.
Proof.
  induction window as [|l window IH]; intros content.
  - exists "". simpl. by rewrite app_nil_r_str.
  - cbn [gather_loop]. destruct (negb _); [apply IH|].
    destruct (_is_continuation_line _).
    + destruct (IH (content ++ (if _is_list_item (Str.strip l)
                                then Str.nl ++ Str.strip l
                                else " " ++ Str.strip l))) as (rest & ->).
      rewrite app_assoc_str. eauto.
    + exists "". by rewrite app_nil_r_str.
Qed.

(** X14.  Every candidate of the list detector comes from a line of one of
    the given pages whose stripped form is a list item; its content is longer
    than 30 characters and starts with that stripped line, its title has at
    most 53 characters and its first 50 characters are those of the line. *)
Theorem list_candidates_wellformed :
  forall (full_text : string) (pages : list Page),
    Forall (fun c =>
              detection_method c = "list"
              /\ (30 < String.length (content c))%nat
              /\ (String.length (section_title c) <= 53)%nat
              /\ exists page_info i line,
                   page_info ∈ pages
                   /\ section_page c = page_number page_info
                   /\ Str.split_char Char.newline (text page_info) !! i
                      = Some line
                   /\ _is_list_item (Str.strip line) = true
                   /\ content c
                      = _gather_list_content
                          (Str.split_char Char.newline (text page_info)) i
                   /\ (exists rest, content c = Str.strip line ++ rest)
                   /\ Str.take 50 (section_title c) = Str.take 50 (Str.strip line))
           (_detect_by_lines full_text pages).
Proof.
  intros full_text pages. apply Forall_forall. intros c Hin.
  apply elem_of_concat in Hin as (l & Hl & Hc).
  apply list_elem_of_fmap in Hl as (pg & -> & Hpg).
  apply list_elem_of_omap in Hc as ([i line] & Hi & Hc).
  apply elem_of_lookup_imap in Hi as (i' & line' & Heq & Hlook).
  injection Heq as Hi Hl. subst i' line'. cbv beta zeta in Hc.
  destruct (_is_list_item (Str.strip line)) eqn:Hitem; [|done].
  unfold _create_list_section in Hc. cbv zeta in Hc.
  destruct (min_section_length <? _)%nat eqn:Hlen; [|done].
  injection Hc as <-. apply Nat.ltb_lt in Hlen. unfold min_section_length in Hlen.
  cbn [detection_method content section_title section_page].
  assert (Hnth : nth i (Str.split_char Char.newline (text pg)) "" = line).
  { rewrite nth_lookup, Hlook. done. }
  rewrite Hnth. split; [done|]. split; [done|].
  split; [apply (truncated_title (Str.strip line))|].
  exists pg, i, line. repeat split; try done.
  - unfold _gather_list_content. cbv zeta. rewrite Hnth. apply gather_loop_prefix.
  - apply (truncated_title (Str.strip line)).
Qed.

(** A line that starts with the bullet U+2022 is a list item, like one that
    starts with a hyphen; white space must follow the bullet. *)
Example bullet_line_is_list_item :
  _is_list_item (String (ascii_of_nat Char.bullet) " first point of the list")
  = true
  /\ _is_list_item "- first point of the list" = true
  /\ _is_list_item (String (ascii_of_nat Char.bullet) "first point") = false.
Proof. by vm_compute. Qed.

(** X15.  Gathering the content of a list item reads the item's line and at
    most the five lines after it: for an index within the lines, two line
    lists that agree on their first [start_index + 6] lines give the same
    content. *)
Theorem gather_list_content_window :
  forall (lines lines' : list string) (start_index : nat),
    (start_index < length lines)%nat ->
    take (start_index + 6) lines' = take (start_index + 6) lines ->
    _gather_list_content lines' start_index = _gather_list_content lines start_index.
Proof.
  intros lines lines' start_index _ Hagree.
  assert (Hwin : forall l : list string,
             _gather_list_content l start_index
             = gather_loop (drop (S start_index) (take (start_index + 6) l))
                 (Str.strip (default "" (take (start_index + 6) l !! start_index)))).
  { intros l. unfold _gather_list_content, max_lookahead_lines. cbv zeta.
    rewrite nth_lookup, lookup_take_lt by lia.
    rewrite take_drop_commute.
    by replace (S start_index + 5)%nat with (start_index + 6)%nat by lia. }
  by rewrite (Hwin lines'), (Hwin lines), Hagree.
Qed.

Lemma gather_list_content_window_witness :
  take (1 + 6) ["Steps"; "- mix the flour"; "and the water"; ""; "- bake";
                "for an hour"; "- let it cool"; "Notes"; "- serve warm"]
  = take (1 + 6) ["Steps"; "- mix the flour"; "and the water"; ""; "- bake";
                  "for an hour"; "- let it cool"; "- slice it"]
  /\ _gather_list_content
       ["Steps"; "- mix the flour"; "and the water"; ""; "- bake";
        "for an hour"; "- let it cool"; "Notes"; "- serve warm"] 1
     = _gather_list_content
         ["Steps"; "- mix the flour"; "and the water"; ""; "- bake";
          "for an hour"; "- let it cool"; "- slice it"] 1.
Proof.
  split; [reflexivity|].
  apply gather_list_content_window; [simpl; lia|reflexivity].
Defined.

End MoreDetectors.

(** ** The resolver keeps a subsequence *)

Section MoreResolver.

Import DocumentAnalyzer.

Lemma kept_from_sublist (cands : list CandidateSection) :
  forall (i : nat) (kept_titles : list string),
    sublist (map snd (Spec.kept_from i cands kept_titles)) cands.
Proof.
  induction cands as [|c rest IH]; intros i kt; simpl; [constructor|].
  destruct (decide _); simpl.
  - apply sublist_skip, IH.
  - apply sublist_cons, IH.
Qed.

(** Candidates with valid, pairwise distinct titles, none of them kept
    before, are all kept. *)
Lemma kept_from_all (cands : list CandidateSection) :
  forall (i : nat) (kept_titles : list string),
    Forall (fun c => section_title c <> ""
                     /\ (3 < String.length (section_title c))%nat) cands ->
    NoDup (map section_title cands) ->
    (forall c, c ∈ cands -> section_title c ∉ kept_titles) ->
    map snd (Spec.kept_from i cands kept_titles) = cands.
Proof.
  induction cands as [|c rest IH]; intros i kt Hvalid Hnd Hnew; simpl; [done|].
  apply Forall_cons in Hvalid as ((H1 & H2) & Hvalid).
  simpl in Hnd. apply NoDup_cons in Hnd as (Hc & Hnd).
  rewrite decide_True.
  - simpl. f_equal. apply IH; [done|done|].
    intros c' Hc' Hin. apply elem_of_cons in Hin as [Heq|Hin].
    + apply Hc. rewrite <- Heq. apply list_elem_of_fmap. by exists c'.
    + apply (Hnew c'); [by right|done].
  - repeat split; [done|done|]. apply Hnew. by left.
Qed.

Lemma kept_valid (cands : list CandidateSection) :
  Forall (fun c => section_title c <> ""
                   /\ (3 < String.length (section_title c))%nat)
         (map snd (Spec.kept cands)).
Proof.
  apply Forall_forall. intros c Hin.
  apply list_elem_of_fmap in Hin as ([j c'] & -> & Hin).
  apply kept_from_elem in Hin. simpl. tauto.
Qed.

Lemma resolved_candidates (filename : string)
    (entries : list (nat * CandidateSection)) :
  map candidate (map (Spec.resolved filename) entries) = map snd entries.
Proof. rewrite map_map. by apply map_ext. Qed.

(** X16.  The candidates of the sections the resolver returns are a
    subsequence of the candidates it is given: their order is kept and their
    fields are unchanged.  Resolving them again, under any file name, returns
    every one of them. *)
Theorem resolver_output_subsequence :
  forall (cands : list CandidateSection) (filename filename' : string),
    sublist (map candidate (_process_detected_sections cands filename)) cands
    /\ map candidate
         (_process_detected_sections
            (map candidate (_process_detected_sections cands filename)) filename')
       = map candidate (_process_detected_sections cands filename).
Proof.
  intros cands filename filename'.
  rewrite (process_detected_sections_kept cands), resolved_candidates.
  rewrite fmap_take.
  assert (Hsub : sublist (take max_sections (map snd (Spec.kept cands))) cands).
  { etrans; [apply sublist_take|apply kept_from_sublist]. }
  split; [exact Hsub|].
  rewrite process_detected_sections_kept, resolved_candidates, fmap_take.
  unfold Spec.kept at 1. rewrite kept_from_all.
  - by rewrite take_take, Nat.min_id.
  - apply Forall_take, kept_valid.
  - eapply sublist_NoDup; [|apply (fmap_sublist section_title), sublist_take].
    rewrite map_map. apply kept_from_titles.
  - intros c _. apply not_elem_of_nil.
Qed.

End MoreResolver.

(** ** Successful text extraction *)

Section MoreEntry.

Import DocumentAnalyzer.

Variable fitz_open : string -> string + list (string + string).
Variable path_name : string -> string.
Variable now_isoformat : string.

Lemma extract_pages_reads_all (texts : list string) :
  forall (page_num : nat) (full_text : string) (page_contents : list Page),
    extract_pages (map inr texts) page_num full_text page_contents
    = inr (full_text ++ joined_page_text texts,
           (page_contents
            ++ imap (fun i t => mkPage (page_num + i + 1) (Str.strip t)
                                  (String.length t)) texts)%list).
Proof.
  induction texts as [|t texts IH]; intros page_num full_text page_contents.
  - simpl. by rewrite app_nil_r_str, app_nil_r.
  - cbn [map extract_pages]. rewrite IH. cbn [joined_page_text foldr imap].
    rewrite !app_assoc_str, <- app_assoc. cbn [app].
    rewrite Nat.add_0_r. do 4 f_equal.
    apply imap_ext. intros i t' _. simpl. f_equal. lia.
Qed.

Lemma extract_pdf_content_reads_all (texts : list string) :
  _extract_pdf_content (map inr texts)
  = inr (joined_page_text texts, page_records texts).
Proof. unfold _extract_pdf_content. by rewrite extract_pages_reads_all. Qed.

Lemma extract_pages_failure (doc : list (string + string)) (e : string) :
  forall (page_num : nat) (full_text : string) (page_contents : list Page),
    extract_pages doc page_num full_text page_contents = inl e ->
    exists (texts : list string) (rest : list (string + string)),
      doc = (map inr texts ++ inl e :: rest)%list.
Proof.
  induction doc as [|[e'|t] doc IH]; intros page_num full_text page_contents H.
  - done.
  - injection H as ->. by exists [], doc.
  - apply IH in H as (texts & rest & ->). by exists (t :: texts), rest.
Qed.

Lemma page_records_fields (texts : list string) :
  forall f : nat -> nat,
    map page_number
      (imap (fun i t => mkPage (f i) (Str.strip t) (String.length t)) texts)
    = map f (seq 0 (length texts))
    /\ map text (imap (fun i t => mkPage (f i) (Str.strip t) (String.length t)) texts)
       = map Str.strip texts
    /\ map char_count
         (imap (fun i t => mkPage (f i) (Str.strip t) (String.length t)) texts)
       = map String.length texts.
Proof.
  induction texts as [|t texts IH]; intros f; [done|].
  cbn [imap map length seq]. destruct (IH (f ∘ S)) as (H1 & H2 & H3).
  split; [|split]; cbn [page_number text char_count]; f_equal.
  - etrans; [exact H1|]. by rewrite <- seq_shift, map_map.
  - exact H2.
  - exact H3.
Qed.

Lemma joined_page_text_length (texts : list string) :
  String.length (joined_page_text texts)
  = (sum_list (map String.length texts) + length texts)%nat.
Proof.
  induction texts as [|t texts IH]; [done|].
  cbn [joined_page_text foldr map sum_list length].
  fold (joined_page_text texts). rewrite !str_length_app, IH.
  change (String.length Str.nl) with 1%nat.
  generalize (sum_list (map String.length texts)) (String.length t)
    (length texts). intros a b c. unfold id. lia.
Qed.

(** X17.  Reading the pages of a document whose pages all yield text gives
    the texts each followed by a line feed, and one record per page: numbered
    from 1 in page order, with the stripped text and the length of the
    unstripped text.  The full text is as long as the pages' character counts
    together plus one per page.  Reading fails exactly when some page raises,
    with the message of the first such page. *)
Theorem extract_pdf_content_pages :
  forall (texts : list string),
    _extract_pdf_content (map inr texts)
    = inr (joined_page_text texts, page_records texts)
    /\ map page_number (page_records texts) = seq 1 (length texts)
    /\ map text (page_records texts) = map Str.strip texts
    /\ map char_count (page_records texts) = map String.length texts
    /\ String.length (joined_page_text texts)
       = (sum_list (map char_count (page_records texts)) + length texts)%nat
    /\ forall (doc : list (string + string)) (e : string),
         _extract_pdf_content doc = inl e
         <-> exists (texts' : list string) (rest : list (string + string)),
               doc = (map inr texts' ++ inl e :: rest)%list.
Proof.
  intros texts.
  destruct (page_records_fields texts (fun i => i + 1)%nat) as (H1 & H2 & H3).
  fold (page_records texts) in H1, H2, H3.
  split; [|split; [|split; [|split; [|split]]]]; try done.
  - apply extract_pdf_content_reads_all.
  - rewrite H1, <- seq_shift. apply map_ext. intros i. lia.
  - rewrite H3. apply joined_page_text_length.
  - intros doc e. split.
    + apply extract_pages_failure.
    + intros (texts' & rest & ->). apply extract_pages_raises.
Qed.

(** X18.  When the document opens and every page yields text,
    [analyze_document] prints nothing and returns the full text, the page
    records and the sections detected on them under the file's name; the
    metadata count the pages, the characters of the full text and the
    sections, of which there are at most 50.  The sections do not depend on
    the full text handed to the detectors. *)
Theorem analyze_document_success :
  forall (file_path : string) (texts : list string),
    fitz_open file_path = inr (map inr texts) ->
    let sections :=
      _detect_sections (joined_page_text texts) (path_name file_path)
        (page_records texts) in
    analyze_document fitz_open path_name now_isoformat file_path
    = (mkAnalysis
         (MetaOk (path_name file_path) (length texts)
            (String.length (joined_page_text texts)) (length sections)
            now_isoformat)
         (joined_page_text texts) (page_records texts) sections, [])
    /\ (length sections <= 50)%nat
    /\ forall other_text : string,
         _detect_sections other_text (path_name file_path) (page_records texts)
         = sections.
Proof.
  intros file_path texts Hopen sections.
  split; [|split].
  - unfold analyze_document. rewrite Hopen, extract_pdf_content_reads_all.
    cbv zeta. unfold _generate_metadata. fold sections.
    unfold page_records at 1. by rewrite length_imap.
  - unfold sections, _detect_sections, _process_detected_sections. cbv zeta.
    rewrite length_take. unfold max_sections. lia.
  - done.
Qed.

End MoreEntry.

Lemma analyze_document_success_witness :
  let fitz_open := fun path : string =>
    if String.eqb path "report.pdf"
    then inr (map inr [blank_line_page; "  - one"; ""])
    else inl "no such file" in
  fitz_open "report.pdf" = inr (map inr [blank_line_page; "  - one"; ""])
  /\ (let sections :=
        DocumentAnalyzer._detect_sections
          (joined_page_text [blank_line_page; "  - one"; ""]) "report.pdf"
          (page_records [blank_line_page; "  - one"; ""]) in
      DocumentAnalyzer.analyze_document fitz_open (fun p => p)
        "2025-01-01T00:00:00" "report.pdf"
      = (mkAnalysis
           (MetaOk "report.pdf" (length [blank_line_page; "  - one"; ""])
              (String.length (joined_page_text [blank_line_page; "  - one"; ""]))
              (length sections) "2025-01-01T00:00:00")
           (joined_page_text [blank_line_page; "  - one"; ""])
           (page_records [blank_line_page; "  - one"; ""]) sections, [])
      /\ (length sections <= 50)%nat
      /\ forall other_text : string,
           DocumentAnalyzer._detect_sections other_text "report.pdf"
             (page_records [blank_line_page; "  - one"; ""])
           = sections).
Proof.
  split; [reflexivity|].
  apply (analyze_document_success _ (fun p => p)). reflexivity.
Defined.

(** ** The confidence score and the stop lines *)

Section MoreConfidence.

Import DocumentAnalyzer.

(** X19.  The confidence of a candidate is the binary64 sum of the base
    score 0.5, the weight of its method and its quality score, added in this
    order: the cap at 1.0 never lowers it.  It is 1.0 exactly for a header
    candidate with a content longer than 100 characters and a title longer
    than 10, and it is at least 0.5 whatever the method.  The sum is rounded:
    a paragraph candidate with both quality bonuses gets 0.8999999999999999,
    below the constant 0.9. *)
Theorem confidence_score_cases :
  forall c : CandidateSection,
    _calculate_confidence c
    = (_get_base_confidence_score + _get_method_score (detection_method c)
       + _get_content_quality_score (content c) (section_title c))%float
    /\ (_calculate_confidence c = 1%float
        <-> detection_method c = "header"
            /\ (100 < String.length (content c))%nat
            /\ (10 < String.length (section_title c))%nat)
    /\ (0.5 <=? _calculate_confidence c)%float = true
    /\ (_calculate_confidence c <=? 1)%float = true
    /\ (detection_method c = "paragraph"
        /\ (100 < String.length (content c))%nat
        /\ (10 < String.length (section_title c))%nat
        -> _calculate_confidence c = (0.9 - 0x1p-53)%float
           /\ (_calculate_confidence c <? 0.9)%float = true).
Proof.
  intros c. unfold _calculate_confidence, _get_method_score,
    _get_content_quality_score, _get_base_confidence_score, method_scores.
  cbn [dict_get].
  destruct (String.eqb_spec "header" (detection_method c)) as [Hh|Hh];
    [|destruct (String.eqb_spec "paragraph" (detection_method c)) as [Hp|Hp];
      [|destruct (String.eqb_spec "list" (detection_method c)) as [Hl|Hl]]];
    destruct (Nat.ltb_spec 100 (String.length (content c))) as [Hc|Hc];
    destruct (Nat.ltb_spec 10 (String.length (section_title c))) as [Ht|Ht];
    (split; [by vm_compute|]);
    (split;
       [split; [intros He; vm_compute in He; try discriminate He
               |intros (Hm & Hlc & Hlt); try lia; try congruence]|]);
    try done;
    (split; [by vm_compute|]); (split; [by vm_compute|]);
    try (intros (Hm & Hlc & Hlt); try lia; try congruence; by vm_compute).
Qed.

Lemma not_stop_not_header (line : string) :
  stop_all_caps line || stop_numbered line = false ->
  header_all_caps line = None /\ header_numbered line = None.
Proof.
  intros H. apply orb_false_iff in H as (Hcaps & Hnum). split.
  - destruct line as [|c r]; [done|]. unfold header_all_caps.
    unfold stop_all_caps in Hcaps. by rewrite Hcaps.
  - unfold header_numbered. unfold stop_numbered in Hnum.
    by destruct (numbered_prefix line).
Qed.

Lemma extract_loop_gathered (header_line : string) (lines : list string) :
  forall (found_header : bool) (content_lines : list string),
    Forall (gathered_line header_line) content_lines ->
    Forall (gathered_line header_line)
           (extract_loop header_line lines found_header content_lines).
Proof.
  induction lines as [|line lines IH]; intros found_header content_lines Hacc;
    [done|].
  cbn [extract_loop]. destruct (_is_header_line line header_line) eqn:Hhead;
    [by apply IH|].
  destruct found_header; [|by apply IH].
  destruct (_should_stop_content_extraction line content_lines) eqn:Hstop;
    [done|].
  apply IH, Forall_app. split; [done|]. apply Forall_singleton.
  unfold gathered_line. split; [apply strip_idempotent|]. split.
  { unfold _is_header_line in *. by rewrite strip_idempotent. }
  unfold _should_stop_content_extraction in Hstop. cbv zeta in Hstop.
  destruct (Str.nonempty (Str.strip line)) eqn:Hne; simpl in Hstop.
  - destruct (stop_all_caps (Str.strip line) || stop_numbered (Str.strip line))
      eqn:Hs; [done|]. by apply not_stop_not_header.
  - destruct (Str.strip line) as [|c r] eqn:Hs; [done|].
    unfold Str.nonempty in Hne. simpl in Hne. done.
Qed.

(** Once the header line has been met, a line that matches the all-capitals
    or the numbered header pattern ends the loop: nothing from that line on
    is looked at. *)
Lemma extract_loop_stops (header_line stop : string) (after : list string) :
  _is_header_line stop header_line = false ->
  stop_all_caps (Str.strip stop) || stop_numbered (Str.strip stop) = true ->
  forall (before : list string) (found_header : bool)
         (content_lines : list string),
    found_header = true
    \/ Exists (fun line => _is_header_line line header_line = true) before ->
    extract_loop header_line (before ++ stop :: after) found_header content_lines
    = extract_loop header_line before found_header content_lines.
Proof.
  intros Hnot Hpat.
  assert (Hstop : forall acc, _should_stop_content_extraction stop acc = true).
  { intros acc. unfold _should_stop_content_extraction. cbv zeta.
    revert Hpat. destruct (Str.strip stop) as [|c r]; intros Hpat;
      [by vm_compute in Hpat|].
    rewrite Hpat. reflexivity. }
  induction before as [|line rest IH]; intros found acc Hfound.
  - destruct Hfound as [->|Hex]; [|by apply Exists_nil in Hex].
    cbn [app extract_loop]. by rewrite Hnot, Hstop.
  - cbn [app extract_loop].
    destruct (_is_header_line line header_line) eqn:Hline; [apply IH; by left|].
    destruct found.
    + destruct (_should_stop_content_extraction line acc); [done|].
      apply IH. by left.
    + apply IH. right. destruct Hfound as [Hf|Hex]; [done|].
      apply Exists_cons in Hex as [Hl|Hex]; [congruence|done].
Qed.

(** X20.  Every line gathered as content below a header is stripped, does
    not contain the header's title, and matches neither the all-capitals nor
    the numbered header pattern; and the content of a header section stops
    at the next such header: when a line below the header line matches one
    of the two patterns and does not contain the title, the content is what
    the lines before it give, whatever follows. *)
Theorem header_content_stops_at_headers :
  forall (page_text header_line : string),
    Forall (gathered_line header_line)
           (extract_loop header_line (Str.split_char Char.newline page_text)
              false [])
    /\ _extract_content_after_header page_text header_line
       = Str.join " "
           (extract_loop header_line (Str.split_char Char.newline page_text)
              false [])
    /\ (forall (before : list string) (stop : string) (after : list string),
          Str.split_char Char.newline page_text = (before ++ stop :: after)%list ->
          Exists (fun line => _is_header_line line header_line = true) before ->
          _is_header_line stop header_line = false ->
          stop_all_caps (Str.strip stop) || stop_numbered (Str.strip stop) = true ->
          _extract_content_after_header page_text header_line
          = Str.join " " (extract_loop header_line before false [])
          /\ forall other : list string,
               extract_loop header_line (before ++ stop :: other) false []
               = extract_loop header_line before false []).
Proof.
  intros page_text header_line. split; [by apply extract_loop_gathered|].
  split; [done|].
  intros before stop after Hsplit Hex Hnot Hpat. split.
  - unfold _extract_content_after_header. cbv zeta. rewrite Hsplit.
    f_equal. apply extract_loop_stops; [done|done|by right].
  - intros other. apply extract_loop_stops; [done|done|by right].
Qed.

(** A page with two numbered headers: the content of the first stops at the
    second, although the lines below it match no header pattern. *)
Example header_content_stop_example :
  _extract_content_after_header
    (Str.join (String Char.newline "")
       ["1. Overview of methods"; "first line"; "  second line "; "2. Results";
        "third line"; "fourth line"])
    "Overview of methods"
  = "first line second line".
Proof. by vm_compute. Qed.

End MoreConfidence.

(** ** The batch pipeline *)

Section MorePipeline.

Import Pipeline.

Variable fitz_open : string -> string + list (string + string).
Variable path_exists : string -> bool.
Variable path_str : string -> string.
Variable basename : string -> string.

(** *** The section title of a page *)

Lemma line_boundary_is_space (c : ascii) :
  is_line_boundary c = true -> Char.is_space c = true.
Proof. destruct c as [[] [] [] [] [] [] [] []]; by vm_compute. Qed.

Lemma forallb_app_str (p : ascii -> bool) (a b : string) :
  Str.forallb p (a ++ b) = Str.forallb p a && Str.forallb p b.
Proof.
  induction a as [|c a IH]; [done|]. rewrite app_cons_str. simpl.
  by rewrite IH, andb_assoc.
Qed.

Lemma lstrip_forallb (p : ascii -> bool) (s : string) :
  Str.forallb p s = true -> Str.forallb p (Str.lstrip s) = true.
Proof.
  induction s as [|c s IH]; [done|]. intros H. simpl.
  destruct (Char.is_space c); [|done].
  simpl in H. apply andb_true_iff in H as (_ & H). by apply IH.
Qed.

Lemma rstrip_forallb (p : ascii -> bool) (s : string) :
  Str.forallb p s = true -> Str.forallb p (Str.rstrip s) = true.
Proof.
  induction s as [|c s IH]; [done|]. intros H. rewrite rstrip_cons.
  simpl in H. apply andb_true_iff in H as (Hc & H). specialize (IH H).
  destruct (Str.rstrip s) as [|d r].
  - destruct (Char.is_space c); [done|]. simpl. by rewrite Hc.
  - change (p c && Str.forallb p (String d r) = true). by rewrite Hc, IH.
Qed.

Lemma strip_forallb (p : ascii -> bool) (s : string) :
  Str.forallb p s = true -> Str.forallb p (Str.strip s) = true.
Proof. intros H. by apply rstrip_forallb, lstrip_forallb. Qed.

Lemma strip_head (s : string) :
  Str.strip s = ""
  \/ exists c r, Str.strip s = String c r /\ Char.is_space c = false.
Proof.
  unfold Str.strip. destruct (lstrip_head s) as [->|(c & r & -> & Hc)]; [by left|].
  right. destruct (rstrip_head c r Hc) as (r' & ->). eauto.
Qed.

Lemma strip_nonspace_head (c : ascii) (r : string) :
  Char.is_space c = false -> exists r', Str.strip (String c r) = String c r'.
Proof.
  intros Hc. unfold Str.strip. cbn [Str.lstrip]. rewrite Hc.
  by apply rstrip_head.
Qed.

Lemma splitlines_go_first (s : string) :
  forall cur : string,
    cur <> "" -> exists rest tail, splitlines_go cur s = (cur ++ rest) :: tail.
Proof.
  induction s as [|c r IH]; intros cur Hcur.
  - exists "", []. simpl. rewrite app_nil_r_str.
    apply nonempty_true in Hcur. by rewrite Hcur.
  - cbn [splitlines_go]. destruct (is_line_boundary c).
    + exists "". rewrite app_nil_r_str. eauto.
    + destruct (IH (cur ++ String c "")) as (rest & tail & ->).
      { by destruct cur. }
      exists (String c rest), tail. by rewrite app_assoc_str.
Qed.

Lemma splitlines_go_lines (s : string) :
  (forall cur : string,
      Str.forallb (fun c => negb (is_line_boundary c)) cur = true ->
      Forall (fun line => Str.forallb (fun c => negb (is_line_boundary c)) line = true)
             (splitlines_go cur s))
  /\ match s with
     | String _ r =>
         forall cur : string,
           Str.forallb (fun c => negb (is_line_boundary c)) cur = true ->
           Forall (fun line =>
                     Str.forallb (fun c => negb (is_line_boundary c)) line = true)
                  (splitlines_go cur r)
     | "" => True
     end.
Proof.
  induction s as [|c r (IH1 & IH2)]; (split; [|done]).
  - intros cur Hcur. simpl. destruct (Str.nonempty cur); by repeat constructor.
  - intros cur Hcur. cbn [splitlines_go].
    destruct (is_line_boundary c) eqn:Hb.
    + constructor; [done|]. destruct r as [|d r']; [by apply IH1|].
      destruct (_ && _); [by apply IH2|by apply IH1].
    + apply IH1. rewrite forallb_app_str, Hcur. simpl. by rewrite Hb.
Qed.

Lemma first_clean_line_lines (lines : list string) :
  Forall (fun line => Str.forallb (fun c => negb (is_line_boundary c)) line = true)
         lines ->
  Str.forallb (fun c => negb (is_line_boundary c)) (first_clean_line lines) = true.
Proof.
  induction 1 as [|line lines Hline _ IH]; [done|]. cbn [first_clean_line].
  destruct (Str.nonempty _); [by apply strip_forallb|done].
Qed.

Lemma first_clean_line_nonempty (lines : list string) :
  first_clean_line lines <> "".
Proof.
  induction lines as [|line lines IH]; [done|]. cbn [first_clean_line].
  destruct (Str.nonempty (Str.strip line)) eqn:Hne; [|done].
  by apply nonempty_true.
Qed.

(** X21.  The section title of a page text is never empty, has no white
    space at either end and holds no line boundary.  It is the fallback
    "Unknown Section" when the text is blank; otherwise it is the stripped
    first line of the stripped text: the search never goes past that line. *)
Theorem section_title_from_text_spec :
  forall text : string,
    extract_section_title_from_text text <> ""
    /\ Str.strip (extract_section_title_from_text text)
       = extract_section_title_from_text text
    /\ Str.forallb (fun c => negb (is_line_boundary c))
         (extract_section_title_from_text text) = true
    /\ (Str.strip text = "" ->
        extract_section_title_from_text text = "Unknown Section")
    /\ (Str.strip text <> "" ->
        extract_section_title_from_text text
        = Str.strip (hd "" (splitlines (Str.strip text)))).
Proof.
  intros text.
  assert (Hlines : Str.forallb (fun c => negb (is_line_boundary c))
                     (extract_section_title_from_text text) = true).
  { apply first_clean_line_lines. by apply (splitlines_go_lines (Str.strip text)). }
  unfold extract_section_title_from_text in *. cbv zeta in *.
  destruct (strip_head text) as [Hs|(c & r & Hs & Hc)]; rewrite Hs in *.
  - repeat split; done.
  - assert (Hb : is_line_boundary c = false).
    { destruct (is_line_boundary c) eqn:Hb; [|done].
      apply line_boundary_is_space in Hb. congruence. }
    unfold splitlines in *. cbn [splitlines_go] in *. rewrite Hb in *.
    destruct (splitlines_go_first r ("" ++ String c "")) as (rest & tail & Hgo);
      [done|].
    rewrite Hgo in *. change (("" ++ String c "") ++ rest) with (String c rest) in *.
    cbn [first_clean_line hd] in *.
    destruct (strip_nonspace_head c rest Hc) as (r' & Hr'). rewrite Hr' in *.
    cbn [Str.nonempty String.eqb negb] in *.
    repeat split; try done. rewrite <- Hr'. apply strip_idempotent.
Qed.

(** *** The pages with text *)

Lemma pages_with_text_from_cons (n : nat) (t : string) (texts : list string) :
  pages_with_text_from n (t :: texts)
  = ((if Str.nonempty (Str.strip t) then [mkPageText (n + 1) t] else [])
     ++ pages_with_text_from (S n) texts)%list.
Proof.
  unfold pages_with_text_from. cbn [imap List.filter text].
  rewrite Nat.add_0_r.
  rewrite (imap_ext _ (fun i t => mkPageText (S n + i + 1) t) texts).
  - by destruct (Str.nonempty (Str.strip t)).
  - intros i t' _. simpl. f_equal. lia.
Qed.

Lemma read_pages_reads_all (texts : list string) :
  forall (n : nat) (extracted : list PageText),
    read_pages (map inr texts) n extracted
    = inr (extracted ++ pages_with_text_from n texts)%list.
Proof.
  induction texts as [|t texts IH]; intros n extracted.
  - simpl. by rewrite app_nil_r.
  - cbn [map read_pages]. rewrite IH, pages_with_text_from_cons.
    destruct (Str.nonempty (Str.strip t)); [|done]. by rewrite <- app_assoc.
Qed.

Lemma read_pages_raises (texts : list string) (e : string)
    (rest : list (string + string)) :
  forall (n : nat) (extracted : list PageText),
    read_pages (map inr texts ++ inl e :: rest)%list n extracted = inl e.
Proof.
  induction texts as [|t texts IH]; intros n extracted; simpl; [done|apply IH].
Qed.

Lemma document_cases (doc : list (string + string)) :
  (exists texts : list string, doc = map inr texts)
  \/ exists (texts : list string) (e : string) (rest : list (string + string)),
       doc = (map inr texts ++ inl e :: rest)%list.
Proof.
  induction doc as [|[e|t] doc IH].
  - left. by exists [].
  - right. by exists [], e, doc.
  - destruct IH as [(texts & ->)|(texts & e & rest & ->)].
    + left. by exists (t :: texts).
    + right. by exists (t :: texts), e, rest.
Qed.

Lemma pages_with_text_from_wellformed (texts : list string) :
  forall n : nat,
    Forall (fun p => Str.strip (text p) <> ""
                     /\ (n < page_number p)%nat
                     /\ texts !! (page_number p - n - 1)%nat = Some (text p))
           (pages_with_text_from n texts)
    /\ StronglySorted lt (map page_number (pages_with_text_from n texts)).
Proof.
  induction texts as [|t texts IH]; intros n.
  - split; constructor.
  - rewrite pages_with_text_from_cons. destruct (IH (S n)) as (Hall & Hsorted).
    assert (Hshift : Forall (fun p => Str.strip (text p) <> ""
                               /\ (n < page_number p)%nat
                               /\ (t :: texts) !! (page_number p - n - 1)%nat
                                  = Some (text p))
                            (pages_with_text_from (S n) texts)).
    { eapply Forall_impl; [exact Hall|]. intros p (H1 & H2 & H3).
      split; [done|]. split; [lia|].
      replace (page_number p - n - 1)%nat with (S (page_number p - S n - 1)) by lia.
      done. }
    destruct (Str.nonempty (Str.strip t)) eqn:Hne; [|done].
    apply nonempty_true in Hne. split.
    + constructor; [|done]. simpl. split; [done|]. split; [lia|].
      by replace (n + 1 - n - 1)%nat with 0%nat by lia.
    + cbn [app map page_number]. constructor; [done|].
      apply Forall_fmap. eapply Forall_impl; [exact Hall|].
      intros p (_ & H2 & _). simpl. lia.
Qed.

(** X22.  When the document opens and its pages yield the texts [texts],
    [extract_text_from_pdf] returns the pages whose text is not blank, in
    page order, each with its text unchanged and its number in the document,
    counted from 1: the numbers increase strictly and may skip. *)
Theorem extract_text_from_pdf_pages :
  forall (pdf_path : string) (texts : list string),
    fitz_open pdf_path = inr (map inr texts) ->
    extract_text_from_pdf fitz_open pdf_path = inr (pages_with_text texts)
    /\ Forall (fun p => Str.strip (text p) <> ""
                        /\ (1 <= page_number p)%nat
                        /\ texts !! (page_number p - 1)%nat = Some (text p))
              (pages_with_text texts)
    /\ StronglySorted lt (map page_number (pages_with_text texts))
    /\ (length (pages_with_text texts) <= length texts)%nat.
Proof.
  intros pdf_path texts Hopen.
  destruct (pages_with_text_from_wellformed texts 0) as (Hall & Hsorted).
  split; [|split; [|split]].
  - unfold extract_text_from_pdf. rewrite Hopen. apply read_pages_reads_all.
  - eapply Forall_impl; [exact Hall|]. intros p (H1 & H2 & H3).
    split; [done|]. split; [lia|].
    by replace (page_number p - 1)%nat with (page_number p - 0 - 1)%nat by lia.
  - exact Hsorted.
  - unfold pages_with_text, pages_with_text_from.
    etrans; [apply List.filter_length_le|]. by rewrite length_imap.
Qed.

(** *** One document *)

Lemma sample_loop_appends (doc_path : string) (sample_pages : list PageText) :
  forall (idx : nat) (output_data : OutputData),
    sample_loop basename doc_path idx sample_pages output_data
    = mkOutput (input_documents output_data)
        (extracted_sections output_data
         ++ document_sections (basename doc_path) idx sample_pages)%list
        (subsection_analysis output_data
         ++ document_previews (basename doc_path) sample_pages)%list.
Proof.
  induction sample_pages as [|page rest IH]; intros idx [docs secs subs].
  - simpl. by rewrite !app_nil_r.
  - cbn [sample_loop]. rewrite IH.
    cbn [input_documents extracted_sections subsection_analysis].
    unfold add_extracted_section, add_subsection_analysis, document_sections,
      document_previews. cbn [imap map]. rewrite <- !app_assoc. cbn [app].
    rewrite Nat.add_0_r. do 3 f_equal.
    apply imap_ext. intros i p _. simpl. f_equal. lia.
Qed.

Lemma document_sections_fields (filename : string) (pages : list PageText) :
  forall idx : nat,
    map importance_rank (document_sections filename idx pages)
    = seq (idx + 1) (length pages)
    /\ map section_page_number (document_sections filename idx pages)
       = map page_number pages
    /\ Forall (fun s => document s = filename /\ section_title s <> "")
              (document_sections filename idx pages).
Proof.
  induction pages as [|page pages IH]; intros idx.
  - repeat split; constructor.
  - unfold document_sections. cbn [imap map length seq].
    rewrite (imap_ext _ (fun i p =>
               mkExtracted filename (extract_section_title_from_text (text p))
                 (S idx + i + 1) (page_number p)) pages)
      by (intros i p _; simpl; f_equal; lia).
    destruct (IH (S idx)) as (H1 & H2 & H3). unfold document_sections in H1, H2, H3.
    rewrite H1, H2. cbn [importance_rank section_page_number].
    rewrite Nat.add_0_r. split; [done|]. split; [done|].
    constructor; [|done]. simpl. split; [done|].
    apply first_clean_line_nonempty.
Qed.

Lemma process_single_document_success (doc_path : string) (texts : list string)
    (output_data : OutputData) :
  path_exists doc_path = true ->
  fitz_open (path_str doc_path) = inr (map inr texts) ->
  process_single_document fitz_open path_exists path_str basename doc_path
    output_data
  = inr (mkOutput (input_documents output_data ++ [basename doc_path])%list
           (extracted_sections output_data
            ++ document_sections (basename doc_path) 0
                 (take 3 (pages_with_text texts)))%list
           (subsection_analysis output_data
            ++ document_previews (basename doc_path)
                 (take 3 (pages_with_text texts)))%list, []).
Proof.
  intros Hexists Hopen. unfold process_single_document. rewrite Hexists.
  cbn [negb]. unfold extract_sample_pages, extract_text_from_pdf.
  rewrite Hopen, read_pages_reads_all. cbn [app]. cbv zeta.
  by rewrite sample_loop_appends.
Qed.

(** X23.  The outcomes of processing one document.  A missing file leaves
    the output unchanged and is reported.  A file that cannot be opened, or
    one of whose pages cannot be read, ends the call with the exception.
    Otherwise the pages of the file yield their texts and nothing is
    printed; the file's name is appended to the input documents and what was
    recorded before stays in place; the first three pages whose text is not
    blank are sampled, and the page at index [i] of the sample appends
    exactly one section, with the file's name, the first non-blank line of
    the page as title, rank [i + 1] and the page's number, and exactly one
    preview, with the file's name, the first 300 characters of the page and
    the page's number.  So the ranks are 1, 2, ... in page order. *)
Theorem process_single_document_outcomes :
  forall (doc_path : string) (output_data : OutputData),
    match process_single_document fitz_open path_exists path_str basename
            doc_path output_data with
    | inl e =>
        path_exists doc_path = true
        /\ (fitz_open (path_str doc_path) = inl e
            \/ exists (texts : list string) (rest : list (string + string)),
                 fitz_open (path_str doc_path)
                 = inr (map inr texts ++ inl e :: rest)%list)
    | inr (updated, printed) =>
        (path_exists doc_path = false
         /\ updated = output_data
         /\ printed = [FileNotFound (path_str doc_path)])
        \/ (path_exists doc_path = true
            /\ printed = []
            /\ input_documents updated
               = (input_documents output_data ++ [basename doc_path])%list
            /\ exists texts : list string,
                 fitz_open (path_str doc_path) = inr (map inr texts)
                 /\ let pages := take 3 (pages_with_text texts) in
                    let sections := document_sections (basename doc_path) 0 pages in
                    let previews := document_previews (basename doc_path) pages in
                    extracted_sections updated
                    = (extracted_sections output_data ++ sections)%list
                    /\ subsection_analysis updated
                       = (subsection_analysis output_data ++ previews)%list
                    /\ length sections = length pages
                    /\ length previews = length pages
                    /\ (forall (i : nat) (page : PageText),
                          pages !! i = Some page ->
                          sections !! i
                          = Some (mkExtracted (basename doc_path)
                                    (extract_section_title_from_text (text page))
                                    (i + 1) (page_number page))
                          /\ previews !! i
                             = Some (mkSubsection (basename doc_path)
                                       (Str.take 300 (text page))
                                       (page_number page))
                          /\ Str.strip (text page) <> ""
                          /\ texts !! (page_number page - 1)%nat = Some (text page))
                    /\ (length sections <= 3)%nat
                    /\ map importance_rank sections = seq 1 (length sections)
                    /\ map section_page_number sections
                       = map subsection_page_number previews
                    /\ StronglySorted lt (map section_page_number sections)
                    /\ Forall (fun s => document s = basename doc_path
                                        /\ section_title s <> "") sections
                    /\ Forall (fun a => subsection_document a = basename doc_path
                                        /\ (String.length (refined_text a) <= 300)%nat)
                              previews)
    end.
Proof.
  intros doc_path output_data.
  destruct (path_exists doc_path) eqn:Hexists.
  2: { unfold process_single_document. rewrite Hexists. left. done. }
  destruct (fitz_open (path_str doc_path)) as [e|doc] eqn:Hopen.
  { unfold process_single_document, extract_sample_pages, extract_text_from_pdf.
    rewrite Hexists, Hopen. cbn [negb]. split; [done|by left]. }
  destruct (document_cases doc) as [(texts & ->)|(texts & e & rest & ->)].
  2: { unfold process_single_document, extract_sample_pages, extract_text_from_pdf.
       rewrite Hexists, Hopen, read_pages_raises. cbn [negb].
       split; [done|]. right. by exists texts, rest. }
  rewrite (process_single_document_success doc_path texts output_data Hexists Hopen).
  right. split; [done|]. split; [done|]. split; [done|].
  exists texts. split; [done|]. cbv zeta.
  set (pages := take 3 (pages_with_text texts)).
  destruct (document_sections_fields (basename doc_path) pages 0)
    as (Hranks & Hnums & Hsecs).
  assert (Hlen : length (document_sections (basename doc_path) 0 pages)
                 = length pages).
  { unfold document_sections. by rewrite length_imap. }
  destruct (pages_with_text_from_wellformed texts 0) as (Hall & Hsorted).
  split; [done|]. split; [done|]. split; [done|].
  split. { unfold document_previews. by rewrite length_map. }
  split.
  { intros i page Hpage. split; [|split].
    - unfold document_sections. rewrite list_lookup_imap, Hpage. done.
    - unfold document_previews. by rewrite list_lookup_fmap, Hpage.
    - assert (Hin : page ∈ pages_with_text texts)
        by (eapply take_elem_of, list_elem_of_lookup_2, Hpage).
      rewrite Forall_forall in Hall. destruct (Hall page Hin) as (H1 & H2 & H3).
      split; [done|].
      by replace (page_number page - 1)%nat
        with (page_number page - 0 - 1)%nat by lia. }
  split. { rewrite Hlen. unfold pages. rewrite length_take. lia. }
  split. { by rewrite Hranks, Hlen. }
  split. { rewrite Hnums. unfold document_previews. rewrite map_map. done. }
  split.
  { rewrite Hnums. unfold pages. rewrite fmap_take.
    assert (Hs : StronglySorted lt (map page_number (pages_with_text texts)))
      by exact Hsorted.
    rewrite <- (take_drop 3 (map page_number (pages_with_text texts))) in Hs.
    by apply StronglySorted_app_1_l in Hs. }
  split; [done|].
  unfold document_previews. apply Forall_fmap, Forall_forall. intros p _.
  cbn [compose subsection_document refined_text]. split; [done|].
  apply take_length_le.
Qed.

(** *** The ranks and the validator *)

Lemma ranks_of_default (sections : list ExtractedSection) :
  map (fun s => default 0%nat s) (ranks_of sections)
  = map importance_rank sections.
Proof. unfold ranks_of. rewrite map_map. by apply map_ext. Qed.

Lemma sorted_fixes_sorted (ranks : list nat) :
  Sorted Nat.le ranks -> sorted ranks = ranks.
Proof.
  intros Hs. unfold sorted. apply (Sorted_unique Nat.le); [|done|].
  - apply (Sorted_merge_sort Nat.le).
  - apply merge_sort_Permutation.
Qed.

Lemma seq_sorted (k : nat) : forall a : nat, Sorted Nat.le (seq a k).
Proof.
  induction k as [|k IH]; intros a; [constructor|]. simpl.
  constructor; [apply IH|]. destruct k; constructor. simpl. lia.
Qed.

Lemma descent_not_sorted (before after : list nat) (a b : nat) :
  (b < a)%nat -> ~ Sorted Nat.le (before ++ a :: b :: after)%list.
Proof.
  intros Hlt Hs. apply (Sorted_StronglySorted Nat.le) in Hs.
  apply StronglySorted_app_1_r in Hs. apply StronglySorted_inv in Hs as (_ & Hall).
  apply Forall_cons in Hall as (Hle & _). lia.
Qed.

Lemma check_importance_ranks_cases (sections : list (option nat)) :
  (Sorted Nat.le (map (fun s => default 0%nat s) sections)
   /\ check_importance_ranks sections = [])
  \/ (~ Sorted Nat.le (map (fun s => default 0%nat s) sections)
      /\ check_importance_ranks sections = [RanksNotSequential]).
Proof.
  unfold check_importance_ranks. cbv zeta.
  set (ranks := map (fun s => default 0%nat s) sections).
  destruct (decide (Sorted Nat.le ranks)) as [Hs|Hn].
  - left. split; [done|]. rewrite (sorted_fixes_sorted ranks Hs).
    rewrite (bool_decide_eq_true_2 (ranks = ranks)) by done.
    by rewrite andb_false_r.
  - right. split; [done|].
    rewrite bool_decide_eq_false_2.
    + rewrite bool_decide_eq_false_2; [done|].
      intros Heq. apply Hn. rewrite Heq. apply (Sorted_merge_sort Nat.le).
    + intros Heq. apply Hn. rewrite Heq. constructor.
Qed.

(** X24.  The validator's rank check warns exactly when the ranks, a
    missing rank counting as 0, are not in non-decreasing order: equal ranks
    and gaps pass, and so does the empty list. *)
Theorem check_importance_ranks_spec :
  forall sections : list (option nat),
    (check_importance_ranks sections = []
     <-> Sorted Nat.le (map (fun s => default 0%nat s) sections))
    /\ (check_importance_ranks sections = [RanksNotSequential]
        <-> ~ Sorted Nat.le (map (fun s => default 0%nat s) sections))
    /\ check_importance_ranks [Some 1; Some 1; None; Some 5]%nat
       = [RanksNotSequential]
    /\ check_importance_ranks [None; Some 1; Some 1; Some 5]%nat = [].
Proof.
  intros sections. split; [|split; [|split; by vm_compute]].
  - destruct (check_importance_ranks_cases sections) as [(Hs & ->)|(Hn & ->)];
      split; try done.
  - destruct (check_importance_ranks_cases sections) as [(Hs & ->)|(Hn & ->)];
      split; try done.
Qed.

(** X25.  The sections one document adds to an output without sections pass
    the validator's rank check. *)
Theorem single_document_ranks_pass :
  forall (doc_path : string) (documents : list string)
         (previews : list SubsectionAnalysis) (updated : OutputData)
         (printed : list Printed),
    process_single_document fitz_open path_exists path_str basename doc_path
      (mkOutput documents [] previews) = inr (updated, printed) ->
    check_importance_ranks (ranks_of (extracted_sections updated)) = [].
Proof.
  intros doc_path documents previews updated printed Hrun.
  assert (Hranks : exists k, map importance_rank (extracted_sections updated)
                             = seq 1 k).
  { unfold process_single_document in Hrun.
    destruct (path_exists doc_path) eqn:Hexists; cbn [negb] in Hrun.
    2: { injection Hrun as <- _. by exists 0%nat. }
    unfold extract_sample_pages in Hrun.
    destruct (extract_text_from_pdf fitz_open (path_str doc_path))
      as [e|all_pages]; [done|].
    cbv zeta in Hrun. rewrite sample_loop_appends in Hrun.
    injection Hrun as <- _. cbn [extracted_sections append_metadata app].
    exists (length (take 3 all_pages)).
    apply (document_sections_fields (basename doc_path) (take 3 all_pages) 0). }
  destruct Hranks as (k & Hranks).
  destruct (check_importance_ranks_cases (ranks_of (extracted_sections updated)))
    as [(_ & ->)|(Hn & _)]; [done|].
  exfalso. apply Hn. rewrite ranks_of_default, Hranks. apply seq_sorted.
Qed.

(** X26.  When a document with at least two pages with text is followed by
    a document with at least one, both are processed and the ranks restart at
    1 for the second: whatever the output held before, the validator's rank
    check warns on the sections written. *)
Theorem two_documents_ranks_warn :
  forall (first second : string) (texts texts' : list string)
         (output_data : OutputData),
    path_exists first = true ->
    fitz_open (path_str first) = inr (map inr texts) ->
    (2 <= length (pages_with_text texts))%nat ->
    path_exists second = true ->
    fitz_open (path_str second) = inr (map inr texts') ->
    (1 <= length (pages_with_text texts'))%nat ->
    exists updated : OutputData,
      process_documents fitz_open path_exists path_str basename [first; second]
        output_data [] = inr (updated, [])
      /\ map importance_rank (extracted_sections updated)
         = (map importance_rank (extracted_sections output_data)
            ++ seq 1 (length (take 3 (pages_with_text texts)))
            ++ seq 1 (length (take 3 (pages_with_text texts'))))%list
      /\ check_importance_ranks (ranks_of (extracted_sections updated))
         = [RanksNotSequential].
Proof.
  intros first second texts texts' output_data He Ho Hl He' Ho' Hl'.
  cbn [process_documents].
  rewrite (process_single_document_success first texts output_data He Ho).
  rewrite (process_single_document_success second texts' _ He' Ho').
  eexists. split; [reflexivity|].
  cbn [extracted_sections app].
  set (pages := take 3 (pages_with_text texts)).
  set (pages' := take 3 (pages_with_text texts')).
  assert (Hranks :
    map importance_rank
      ((extracted_sections output_data
        ++ document_sections (basename first) 0 pages)
       ++ document_sections (basename second) 0 pages')%list
    = (map importance_rank (extracted_sections output_data)
       ++ seq 1 (length pages) ++ seq 1 (length pages'))%list).
  { rewrite !map_app, <- app_assoc.
    destruct (document_sections_fields (basename first) pages 0) as (-> & _).
    by destruct (document_sections_fields (basename second) pages' 0) as (-> & _). }
  split; [exact Hranks|].
  destruct (check_importance_ranks_cases
              (ranks_of ((extracted_sections output_data
                          ++ document_sections (basename first) 0 pages)
                         ++ document_sections (basename second) 0 pages')%list))
    as [(Hs & _)|(_ & ->)]; [|done].
  exfalso. rewrite ranks_of_default, Hranks in Hs.
  assert (Hk : exists k, length pages = S (S k)).
  { unfold pages. rewrite length_take.
    destruct (length (pages_with_text texts)) as [|[|n]]; [lia|lia|].
    destruct n as [|n]; [by exists 0%nat|by exists 1%nat]. }
  assert (Hk' : exists k', length pages' = S k').
  { unfold pages'. rewrite length_take.
    destruct (length (pages_with_text texts')) as [|n]; [lia|].
    exists (Nat.min 2 n). lia. }
  destruct Hk as (k & Hk). destruct Hk' as (k' & Hk').
  rewrite Hk, Hk' in Hs.
  assert (Heq : (seq 1 (S (S k)) ++ seq 1 (S k'))%list
                = (seq 1 (S k) ++ S (S k) :: 1%nat :: seq 2 k')%list).
  { rewrite (seq_S (S k) 1), <- app_assoc. reflexivity. }
  rewrite Heq, app_assoc in Hs.
  revert Hs. apply descent_not_sorted. lia.
Qed.

End MorePipeline.

Lemma extract_text_from_pdf_pages_witness :
  let fitz_open := fun path : string =>
    if String.eqb path "notes.pdf"
    then inr (map inr ["Cover"; "   "; "Chapter one"])
    else inl "no such file" in
  fitz_open "notes.pdf" = inr (map inr ["Cover"; "   "; "Chapter one"])
  /\ (Pipeline.extract_text_from_pdf fitz_open "notes.pdf"
      = inr (pages_with_text ["Cover"; "   "; "Chapter one"])
      /\ Forall (fun p => Str.strip (Pipeline.text p) <> ""
                          /\ (1 <= Pipeline.page_number p)%nat
                          /\ ["Cover"; "   "; "Chapter one"]
                               !! (Pipeline.page_number p - 1)%nat
                             = Some (Pipeline.text p))
                (pages_with_text ["Cover"; "   "; "Chapter one"])
      /\ StronglySorted lt
           (map Pipeline.page_number
              (pages_with_text ["Cover"; "   "; "Chapter one"]))
      /\ (length (pages_with_text ["Cover"; "   "; "Chapter one"])
          <= length ["Cover"; "   "; "Chapter one"])%nat).
Proof.
  split; [reflexivity|]. apply extract_text_from_pdf_pages. reflexivity.
Defined.

Lemma single_document_ranks_pass_witness :
  let fitz_open := fun path : string =>
    if String.eqb path "notes.pdf"
    then inr (map inr ["Cover"; "   "; "Chapter one"])
    else inl "no such file" in
  let updated :=
    Pipeline.mkOutput ["notes.pdf"]
      [Pipeline.mkExtracted "notes.pdf" "Cover" 1 1;
       Pipeline.mkExtracted "notes.pdf" "Chapter one" 2 3]
      [Pipeline.mkSubsection "notes.pdf" "Cover" 1;
       Pipeline.mkSubsection "notes.pdf" "Chapter one" 3] in
  Pipeline.process_single_document fitz_open (fun _ => true) (fun p => p)
    (fun p => p) "notes.pdf" (Pipeline.mkOutput [] [] [])
  = inr (updated, [])
  /\ Pipeline.check_importance_ranks
       (ranks_of (Pipeline.extracted_sections updated)) = [].
Proof.
  intros fitz_open updated.
  assert (Hrun : Pipeline.process_single_document fitz_open (fun _ => true)
                   (fun p => p) (fun p => p) "notes.pdf"
                   (Pipeline.mkOutput [] [] [])
                 = inr (updated, [])) by (vm_compute; reflexivity).
  split; [exact Hrun|].
  exact (single_document_ranks_pass fitz_open (fun _ => true) (fun p => p)
           (fun p => p) "notes.pdf" [] [] updated [] Hrun).
Defined.

Lemma two_documents_ranks_warn_witness :
  let fitz_open := fun path : string =>
    if String.eqb path "notes.pdf"
    then inr (map inr ["Cover"; "   "; "Chapter one"])
    else inr (map inr ["Summary"]) in
  fitz_open "notes.pdf" = inr (map inr ["Cover"; "   "; "Chapter one"])
  /\ (2 <= length (pages_with_text ["Cover"; "   "; "Chapter one"]))%nat
  /\ fitz_open "brief.pdf" = inr (map inr ["Summary"])
  /\ (1 <= length (pages_with_text ["Summary"]))%nat
  /\ exists updated : Pipeline.OutputData,
       Pipeline.process_documents fitz_open (fun _ => true) (fun p => p)
         (fun p => p) ["notes.pdf"; "brief.pdf"] (Pipeline.mkOutput [] [] []) []
       = inr (updated, [])
       /\ map Pipeline.importance_rank (Pipeline.extracted_sections updated)
          = (map Pipeline.importance_rank
               (Pipeline.extracted_sections (Pipeline.mkOutput [] [] []))
             ++ seq 1 (length (take 3 (pages_with_text
                                         ["Cover"; "   "; "Chapter one"])))
             ++ seq 1 (length (take 3 (pages_with_text ["Summary"]))))%list
       /\ Pipeline.check_importance_ranks
            (ranks_of (Pipeline.extracted_sections updated))
          = [Pipeline.RanksNotSequential].
Proof.
  split; [reflexivity|]. split; [vm_compute; lia|].
  split; [reflexivity|]. split; [vm_compute; lia|].
  apply (two_documents_ranks_warn _ (fun _ => true) (fun p => p) (fun p => p)
           "notes.pdf" "brief.pdf"); try reflexivity; vm_compute; lia.
Defined.

